(** * DriveDoc backend: document status, payments, notifications, bookings, auth

    A shallow embedding of the request handlers of the DriveDoc backend
    (Express + Mongoose) and of the periodic expiry scan, with the
    properties of their specification.

    Conventions.
    - A JavaScript [Date] is its time value: an integer number of
      milliseconds since the epoch ([Z]).  An Invalid Date is [None].
      Valid time values are bounded by 8.64e15 < 2^53, so sums of a time
      value and a sub-year offset are exact in IEEE doubles, and so is the
      rounded quotient of a difference of two time values by 86400000
      wherever it is compared with 0 or 30.
    - A text is held as its UTF-8 bytes; where JavaScript counts UTF-16
      code units (a schema's [maxlength]) the units are counted from the
      bytes, and a password, which a regular expression reads unit by
      unit, is a list of code units.
    - A Number is an integer as far as doubles are exact (up to 2^53 in
      magnitude) and is rounded as a double beyond.
    - A MongoDB collection is the list of its documents, in storage order.
    - Every "now" is an explicit clock reading passed to the handler. *)

From Stdlib Require Import ZArith Lia List Bool Ascii String.
From stdpp Require Import gmap strings list sorting.
Import ListNotations.

(** An ObjectId, rendered as the hexadecimal text that [toString()] and
    [req.user.id] produce: 24 hexadecimal digits, the letters in lower
    case.  The stored [_id]s and owner references are of this form. *)
Definition ObjectId := string.

Fixpoint allChars (p : ascii -> bool) (s : string) : bool :=
  match s with
  | EmptyString => true
  | String c r => p c && allChars p r
  end.

Fixpoint mapChars (f : ascii -> ascii) (s : string) : string :=
  match s with
  | EmptyString => EmptyString
  | String c r => String (f c) (mapChars f r)
  end.

Definition isDigit (c : ascii) : bool :=
  (48 <=? nat_of_ascii c)%nat && (nat_of_ascii c <=? 57)%nat.
Definition isLowerHex (c : ascii) : bool :=
  isDigit c || ((97 <=? nat_of_ascii c)%nat && (nat_of_ascii c <=? 102)%nat).
Definition isUpperHex (c : ascii) : bool :=
  (65 <=? nat_of_ascii c)%nat && (nat_of_ascii c <=? 70)%nat.

Definition isObjectId (s : string) : bool :=
  (String.length s =? 24)%nat && allChars isLowerHex s.

(** The cast of a text to an ObjectId, which the queries by [_id] begin
    with: a text of 24 hexadecimal digits is the ObjectId with these
    digits, whatever the case of its letters; any other text is none (the
    cast throws a CastError).  Texts of 12 characters, which versions of
    the driver before 5 also took for ObjectIds, are not considered. *)
Definition castObjectId (text : string) : option ObjectId :=
  if (String.length text =? 24)%nat
     && allChars (fun c => isLowerHex c || isUpperHex c) text
  then Some (mapChars (fun c => if isUpperHex c
                                then ascii_of_nat (nat_of_ascii c + 32)
                                else c) text)
  else None.

(** What a handler is given for a route parameter [:id]: the ObjectId the
    text casts to, and the text itself when it casts to none. *)
Definition routeId (text : string) : ObjectId :=
  match castObjectId text with
  | Some id => id
  | None => text
  end.

(** Queries by [_id]: [Model.findById] and the replacement of the stored
    record that [findByIdAndUpdate] and [doc.save()] perform. *)
Section ById.
Context {A : Type} (idOf : A -> ObjectId).

Definition findById (id : ObjectId) (l : list A) : option A :=
  List.find (fun x => String.eqb (idOf x) id) l.

Fixpoint updateById (id : ObjectId) (f : A -> A) (l : list A) : list A :=
  match l with
  | [] => []
  | x :: rest =>
      if String.eqb (idOf x) id then f x :: rest
      else x :: updateById id f rest
  end.
End ById.

(** The length of a text as JavaScript counts it, in UTF-16 code units.
    A text is held as its UTF-8 bytes: a character takes one unit, or two
    when it lies beyond U+FFFF (four bytes, the first from F0 on);
    continuation bytes (80..BF) add nothing. *)
Fixpoint utf16Length (s : string) : nat :=
  match s with
  | EmptyString => 0
  | String c r =>
      (if (nat_of_ascii c <? 128)%nat then 1
       else if (nat_of_ascii c <? 192)%nat then 0
       else if (nat_of_ascii c <? 240)%nat then 1
       else 2)%nat
      + utf16Length r
  end.

(** A required [String] path rejects the empty string. *)
Definition nonEmpty (s : string) : bool := negb (String.eqb s "").

(* ===================================================================== *)
(** ** ECMAScript time values (the part of [Date] the handlers use)      *)
(* ===================================================================== *)

Module JsDate.
Local Open Scope Z_scope.

(** 1000 * 60 * 60 * 24 *)
Definition msPerDay : Z := 1000 * 60 * 60 * 24.

Definition maxTime : Z := 8640000000000000.

(** [TimeClip]: a time value out of range is NaN (Invalid Date). *)
Definition TimeClip (t : Z) : option Z :=
  if Z.abs t <=? maxTime then Some t else None.

(** [Math.ceil(a / b)] for integers [a] and [b > 0]. *)
Definition ceilDiv (a b : Z) : Z := - ((- a) / b).

Definition Day (t : Z) : Z := t / msPerDay.
Definition TimeWithinDay (t : Z) : Z := t mod msPerDay.

Definition DayFromYear (y : Z) : Z :=
  365 * (y - 1970) + (y - 1969) / 4 - (y - 1901) / 100 + (y - 1601) / 400.

(** [InLeapYear], as 0 or 1. *)
Definition InLeapYear (y : Z) : Z :=
  if (y mod 4 =? 0) && (negb (y mod 100 =? 0) || (y mod 400 =? 0))
  then 1 else 0.

(** The year of a day number: the largest [y] with [DayFromYear y <= d].
    The mean Gregorian year (146097/400 days) gives an estimate that is
    off by at most one. *)
Definition YearFromDay (d : Z) : Z :=
  let y := 1970 + (400 * d) / 146097 in
  if DayFromYear (y + 1) <=? d then y + 1
  else if DayFromYear y <=? d then y
  else y - 1.

Definition YearFromTime (t : Z) : Z := YearFromDay (Day t).

Definition DayWithinYear (t : Z) : Z := Day t - DayFromYear (YearFromTime t).

(** Day number within the year of the first day of month [m] (0..11). *)
Definition monthStart (leap m : Z) : Z :=
  if m =? 0 then 0
  else if m =? 1 then 31
  else if m =? 2 then 59 + leap
  else if m =? 3 then 90 + leap
  else if m =? 4 then 120 + leap
  else if m =? 5 then 151 + leap
  else if m =? 6 then 181 + leap
  else if m =? 7 then 212 + leap
  else if m =? 8 then 243 + leap
  else if m =? 9 then 273 + leap
  else if m =? 10 then 304 + leap
  else 334 + leap.

Definition MonthFromDayWithinYear (leap d : Z) : Z :=
  if d <? 31 then 0
  else if d <? 59 + leap then 1
  else if d <? 90 + leap then 2
  else if d <? 120 + leap then 3
  else if d <? 151 + leap then 4
  else if d <? 181 + leap then 5
  else if d <? 212 + leap then 6
  else if d <? 243 + leap then 7
  else if d <? 273 + leap then 8
  else if d <? 304 + leap then 9
  else if d <? 334 + leap then 10
  else 11.

Definition MonthFromTime (t : Z) : Z :=
  MonthFromDayWithinYear (InLeapYear (YearFromTime t)) (DayWithinYear t).

Definition DateFromTime (t : Z) : Z :=
  DayWithinYear t + 1
  - monthStart (InLeapYear (YearFromTime t)) (MonthFromTime t).

(** [MakeDay(year, month, date)]: the day number of the first of the
    month, plus [date - 1]; a [date] past the end of the month runs over
    into the next one. *)
Definition MakeDay (year month date : Z) : Z :=
  let ym := year + month / 12 in
  let mn := month mod 12 in
  DayFromYear ym + monthStart (InLeapYear ym) mn + date - 1.

Definition MakeDate (day time : Z) : Z := day * msPerDay + time.

(** The host's time zone, as [Date] sees it: [offsetAt zone t] is
    LocalTZA(t, true), the offset of local time from UTC at the instant
    [t]; [offsetOfLocal zone t] is LocalTZA(t, false), the offset with
    which the local time [t] is read back (at a daylight-saving change the
    two differ).  Both are in milliseconds. *)
Record Zone := mkZone {
  offsetAt : Z -> Z;
  offsetOfLocal : Z -> Z
}.

(** A zone without daylight saving; [fixedZone 0] is a UTC host. *)
Definition fixedZone (tza : Z) : Zone := mkZone (fun _ => tza) (fun _ => tza).

Section LocalTime.
Variable zone : Zone.

Definition LocalTime (t : Z) : Z := t + offsetAt zone t.
Definition UTC (t : Z) : Z := t - offsetOfLocal zone t.

(** [d.getFullYear()] *)
Definition getFullYear (t : Z) : Z := YearFromTime (LocalTime t).

(** [d.setFullYear(year)]: month, day of month and time of day of the
    local time are kept; the result is NaN when it falls out of range. *)
Definition setFullYear (t year : Z) : option Z :=
  let lt := LocalTime t in
  let newDate := MakeDay year (MonthFromTime lt) (DateFromTime lt) in
  TimeClip (UTC (MakeDate newDate (TimeWithinDay lt))).

(** [new Date(d.setFullYear(d.getFullYear() + 1))] *)
Definition plusOneYear (t : Z) : option Z :=
  setFullYear t (getFullYear t + 1).
End LocalTime.

End JsDate.

(* ===================================================================== *)
(** ** models/Documents.js                                               *)
(* ===================================================================== *)

Module Document.
Local Open Scope Z_scope.

(** enum: ['valid', 'expiring', 'expired'] *)
Inductive Status := valid | expiring | expired.

Definition Status_eqb (a b : Status) : bool :=
  match a, b with
  | valid, valid | expiring, expiring | expired, expired => true
  | _, _ => false
  end.

Definition parseStatus (s : string) : option Status :=
  if String.eqb s "valid" then Some valid
  else if String.eqb s "expiring" then Some expiring
  else if String.eqb s "expired" then Some expired
  else None.

Record t := mk {
  _id : ObjectId;
  user : ObjectId;
  country : string;
  type : string;
  number : string;
  issueDate : option Z;
  expiryDate : Z;
  status : Status;
  createdAt : Z
}.

Definition setStatus (s : Status) (d : t) : t :=
  mk (_id d) (user d) (country d) (type d) (number d) (issueDate d)
     (expiryDate d) s (createdAt d).

Definition setExpiryDate (e : Z) (d : t) : t :=
  mk (_id d) (user d) (country d) (type d) (number d) (issueDate d)
     e (status d) (createdAt d).

(** [Math.ceil((expiry - today) / (1000 * 60 * 60 * 24))] *)
Definition daysUntilExpiry (today expiry : Z) : Z :=
  JsDate.ceilDiv (expiry - today) JsDate.msPerDay.

Definition statusOfDays (daysUntilExpiry : Z) : Status :=
  if daysUntilExpiry <? 0 then expired
  else if daysUntilExpiry <=? 30 then expiring
  else valid.

(** [documentSchema.pre('save', ...)]; [today] is the hook's [new Date()]. *)
Definition preSave (today : Z) (d : t) : t :=
  setStatus (statusOfDays (daysUntilExpiry today (expiryDate d))) d.

(** The fields a caller may supply for a document (a request body after
    Mongoose has cast it to the schema types; a body that does not cast
    makes the operation throw before anything is stored). *)
Record Input := mkInput {
  i_user : option ObjectId;
  i_country : option string;
  i_type : option string;
  i_number : option string;
  i_issueDate : option Z;
  i_expiryDate : option Z;
  i_status : option string;
  i_createdAt : option Z
}.

Definition withUser (u : ObjectId) (b : Input) : Input :=
  mkInput (Some u) (i_country b) (i_type b) (i_number b) (i_issueDate b)
          (i_expiryDate b) (i_status b) (i_createdAt b).

(** [new Document(input)] followed by schema validation: defaults
    ([status]: 'valid', [createdAt]: [Date.now]), the required paths and
    the [status] enum.  [None] is a ValidationError. *)
Definition construct (newId : ObjectId) (now : Z) (b : Input) : option t :=
  match i_user b, i_country b, i_type b, i_number b, i_expiryDate b with
  | Some u, Some c, Some ty, Some n, Some e =>
      if nonEmpty c && nonEmpty ty && nonEmpty n then
        match
          match i_status b with
          | None => Some valid
          | Some s => parseStatus s
          end
        with
        | Some st =>
            Some (mk newId u c ty n (i_issueDate b) e st
                     (match i_createdAt b with Some c0 => c0 | None => now end))
        | None => None
        end
      else None
  | _, _, _, _, _ => None
  end.

(** [Document.create(input)]: construct, validate, run the pre-save hook,
    insert.  [now] is the clock at construction, [today] the hook's. *)
Definition create (newId : ObjectId) (now today : Z) (b : Input)
    (docs : list t) : option (t * list t) :=
  match construct newId now b with
  | Some d => let d' := preSave today d in Some (d', docs ++ [d'])
  | None => None
  end.

(** [doc.save()] of a loaded document: the pre-save hook runs, then the
    stored record is replaced. *)
Definition save (today : Z) (d : t) (docs : list t) : t * list t :=
  let d' := preSave today d in
  (d', updateById _id (_id d) (fun _ => d') docs).

Definition validString (o : option string) : bool :=
  match o with Some s => nonEmpty s | None => true end.

(** The [$set] that [findByIdAndUpdate] applies for the supplied fields. *)
Definition applyUpdate (b : Input) (st : option Status) (d : t) : t :=
  mk (_id d)
     (match i_user b with Some x => x | None => user d end)
     (match i_country b with Some x => x | None => country d end)
     (match i_type b with Some x => x | None => type d end)
     (match i_number b with Some x => x | None => number d end)
     (match i_issueDate b with Some x => Some x | None => issueDate d end)
     (match i_expiryDate b with Some x => x | None => expiryDate d end)
     (match st with Some x => x | None => status d end)
     (match i_createdAt b with Some x => x | None => createdAt d end).

(** [Document.findByIdAndUpdate(id, input, { new: true, runValidators:
    true })]: the update validators run on the supplied fields, then the
    fields are set on the stored record, which is returned.  Query
    middleware is not document middleware: the pre('save') hook does not
    run here.  Outer [None] is a thrown ValidationError. *)
Definition findByIdAndUpdate (id : ObjectId) (b : Input) (docs : list t)
    : option (option t * list t) :=
  if validString (i_country b) && validString (i_type b)
     && validString (i_number b) then
    match
      match i_status b with
      | None => Some None
      | Some s => option_map Some (parseStatus s)
      end
    with
    | Some st =>
        let docs' := updateById _id id (applyUpdate b st) docs in
        Some (findById _id id docs', docs')
    | None => None
    end
  else None.

End Document.

(* ===================================================================== *)
(** ** models/Booking.js, models/Payment.js, the user model               *)
(* ===================================================================== *)

Module Booking.

(** enum: ['pending', 'confirmed', 'completed', 'cancelled'] *)
Inductive Status := pending | confirmed | completed | cancelled.

Definition isCancelled (s : Status) : bool :=
  match s with cancelled => true | _ => false end.

Record t := mk {
  _id : ObjectId;
  user : ObjectId;
  date : Z;
  startTime : string;
  lessonType : string;
  status : Status;
  notes : option string;
  createdAt : Z
}.

Definition setStatus (s : Status) (b : t) : t :=
  mk (_id b) (user b) (date b) (startTime b) (lessonType b) s (notes b)
     (createdAt b).

Definition lessonTypes : list string :=
  ["Standard Lesson"; "Highway Logic"; "Parking Mastery"; "Night Driving";
   "Test Preparation"]%string.

End Booking.

Module Payment.

(** enum: ['pending', 'success', 'failed'] *)
Inductive Status := pending | success | failed.

Record t := mk {
  _id : ObjectId;
  user : ObjectId;
  document : ObjectId;
  type : string;
  amount : Z;
  currency : string;
  paystackReference : string;
  paystackTransactionId : string;
  status : Status;
  date : Z
}.

End Payment.

Module User.

Record Subscription := mkSub {
  endpoint : string;
  keys : string;
  enabled : bool
}.

(** Modelled from the spec: the user schema (models/user.js) is not among
    the sources; the spec's data model gives a user as
    { fullName, email, phone, country, password hash, push subscriptions
    {endpoint, keys, enabled} }. *)
Record t := mk {
  _id : ObjectId;
  fullName : string;
  email : string;
  phone : string;
  country : string;
  password : string;
  pushSubscriptions : list Subscription
}.

End User.

(* ===================================================================== *)
(** ** The database and the HTTP responses                               *)
(* ===================================================================== *)

Record DB := mkDB {
  documents : list Document.t;
  payments : list Payment.t;
  bookings : list Booking.t;
  users : list User.t
}.

Definition withDocuments (ds : list Document.t) (db : DB) : DB :=
  mkDB ds (payments db) (bookings db) (users db).
Definition withPayments (ps : list Payment.t) (db : DB) : DB :=
  mkDB (documents db) ps (bookings db) (users db).
Definition withBookings (bs : list Booking.t) (db : DB) : DB :=
  mkDB (documents db) (payments db) bs (users db).

(** What a JSON response carries besides [success] and [message]. *)
Inductive Payload :=
| NoPayload
| DocumentPayload (d : Document.t)
| BookingPayload (b : Booking.t).

(** [res.status(code).json({ success, message, ... })] *)
Record Response := mkResponse {
  code : Z;
  success : bool;
  message : option string;
  payload : Payload
}.

Definition fail (c : Z) (msg : string) : Response :=
  mkResponse c false (Some msg) NoPayload.


(* ===================================================================== *)
(** ** controllers/documentsControllers.js                               *)
(* ===================================================================== *)

Module DocumentsController.

Definition serverError : Response :=
  fail 500 "Server error. Please try again.".

(** [POST /api/documents]; [reqUser] is [req.user.id]. *)
Definition addDocument (reqUser newId : ObjectId) (now today : Z)
    (body : Document.Input) (db : DB) : Response * DB :=
  let body := Document.withUser reqUser body in
  match Document.create newId now today body (documents db) with
  | Some (document, docs') =>
      (mkResponse 201 true (Some "Document added successfully"%string)
                  (DocumentPayload document),
       withDocuments docs' db)
  | None => (serverError, db)
  end.

(** [PUT /api/documents/:id]; [id] is [routeId req.params.id].
    [Document.findById] casts it first: a text that is no ObjectId, which
    no stored document has for its [_id], makes the query throw, and the
    catch block answers 500. *)
Definition updateDocument (reqUser id : ObjectId) (body : Document.Input)
    (db : DB) : Response * DB :=
  match findById Document._id id (documents db) with
  | None =>
      if isObjectId id then (fail 404 "Document not found", db)
      else (serverError, db)                             (* CastError *)
  | Some document =>
      if negb (String.eqb (Document.user document) reqUser) then
        (fail 401 "Not authorized to update this document", db)
      else
        match Document.findByIdAndUpdate id body (documents db) with
        | Some (document', docs') =>
            (mkResponse 200 true (Some "Document updated successfully"%string)
                        (match document' with
                         | Some d => DocumentPayload d
                         | None => NoPayload
                         end),
             withDocuments docs' db)
        | None => (serverError, db)
        end
  end.

End DocumentsController.

(* ===================================================================== *)
(** ** controllers/paymentController.js                                  *)
(* ===================================================================== *)

Module PaymentController.
Local Open Scope Z_scope.

(** [paystackRes.data.data]: the transaction as the gateway reports it;
    [g_id] is [String(data.id)]. *)
Record GatewayTx := mkTx {
  g_status : string;
  g_amount : Z;
  g_currency : string;
  g_id : string
}.

(** The outcome of [axios.get(.../transaction/verify/<reference>)]. *)
Inductive GatewayReply :=
| GatewayError               (* the call rejects: network error, non-2xx *)
| GatewayData (data : GatewayTx).

(** What the handler reads from outside the database. *)
Record Env := mkEnv {
  PAYSTACK_SECRET_KEY : option string;
  paystack : string -> GatewayReply;
  zone : JsDate.Zone         (* the time zone of the host *)
}.

(** [req.body]; a [documentId] that is missing or is not an ObjectId is
    [None]. *)
Record Body := mkBody {
  reference : string;
  documentId : option ObjectId
}.

Definition verificationFailed : Response := fail 500 "Verification failed".

Definition recorded (ref : string) (ps : list Payment.t) : bool :=
  existsb (fun p => String.eqb (Payment.paystackReference p) ref) ps.

(** [Payment.create({...})] with the schema's validation: [document] and
    [paystackReference] are required. *)
Definition createPayment (newId reqUser : ObjectId) (now : Z) (body : Body)
    (data : GatewayTx) : option Payment.t :=
  match documentId body with
  | Some doc =>
      if nonEmpty (reference body) then
        Some (Payment.mk newId reqUser doc "renewal" (g_amount data)
                (g_currency data) (reference body) (g_id data)
                Payment.success now)
      else None
  | None => None
  end.

(** [POST /api/payments/verify].  [now] is the handler's [new Date()],
    [today] the clock of the pre-save hook that [document.save()] runs,
    [newId] the identifier given to the payment record. *)
Definition verifyPayment (env : Env) (reqUser newId : ObjectId)
    (now today : Z) (body : Body) (db : DB) : Response * DB :=
  match PAYSTACK_SECRET_KEY env with
  | None => (verificationFailed, db)
  | Some secretKey =>
    if negb (nonEmpty secretKey) then (verificationFailed, db) else
    match paystack env (reference body) with
    | GatewayError => (verificationFailed, db)
    | GatewayData data =>
      if negb (String.eqb (g_status data) "success") then
        (fail 400 "Payment verification failed", db)
      else if recorded (reference body) (payments db) then
        (mkResponse 200 true (Some "Already processed"%string) NoPayload, db)
      else
        match createPayment newId reqUser now body data with
        | None => (verificationFailed, db)
        | Some payment =>
          let db1 := withPayments (payments db ++ [payment]) db in
          match findById Document._id (Payment.document payment)
                         (documents db1) with
          | None => (fail 404 "Document not found", db1)
          | Some document =>
            let oldDate := Document.expiryDate document in
            let newDate :=
              if oldDate <? now then JsDate.plusOneYear (zone env) now
              else JsDate.plusOneYear (zone env) oldDate in
            match newDate with
            | None => (verificationFailed, db1)   (* Invalid Date *)
            | Some newDate =>
              let document :=
                Document.setStatus Document.valid
                  (Document.setExpiryDate newDate document) in
              let (document, docs') :=
                Document.save today document (documents db1) in
              (mkResponse 200 true None (DocumentPayload document),
               withDocuments docs' db1)
            end
          end
        end
    end
  end.

End PaymentController.

(* ===================================================================== *)
(** ** server.js: the expiry notification scan                           *)
(* ===================================================================== *)

Module Notifier.
Local Open Scope Z_scope.

(** [parseInt(s, 10)]: leading white space, an optional sign, then the
    longest run of decimal digits; [None] is NaN.  The result is the
    mathematical integer of the numeral; the Number it stands for is
    [JsNumber.ofInteger] of it (below).

    White space is what [StrWhiteSpaceChar] lists: TAB, VT, FF, SP, the
    line terminators LF, CR, U+2028 and U+2029, U+00A0, U+FEFF and the
    space separators U+1680, U+2000..U+200A, U+202F, U+205F and U+3000.
    A text is held as its UTF-8 bytes, so those beyond ASCII are runs of
    two or three bytes. *)
Definition byte (c : ascii) : Z := Z.of_nat (nat_of_ascii c).

Definition isWhiteSpace (c : ascii) : bool :=
  let n := byte c in
  (n =? 32) || ((9 <=? n) && (n <=? 13)).

(** U+00A0 is C2 A0. *)
Definition isWhiteSpace2 (a b : ascii) : bool :=
  (byte a =? 194) && (byte b =? 160).

(** U+1680 is E1 9A 80; U+2000..U+200A, U+2028, U+2029 and U+202F are
    E2 80 followed by 80..8A, A8, A9, AF; U+205F is E2 81 9F; U+3000 is
    E3 80 80; U+FEFF is EF BB BF. *)
Definition isWhiteSpace3 (a b c : ascii) : bool :=
  let x := byte a in
  let y := byte b in
  let z := byte c in
  ((x =? 225) && (y =? 154) && (z =? 128))
  || ((x =? 226) && (y =? 128)
      && (((128 <=? z) && (z <=? 138)) || (z =? 168) || (z =? 169)
          || (z =? 175)))
  || ((x =? 226) && (y =? 129) && (z =? 159))
  || ((x =? 227) && (y =? 128) && (z =? 128))
  || ((x =? 239) && (y =? 187) && (z =? 191)).

Fixpoint trimStart (s : string) : string :=
  match s with
  | EmptyString => s
  | String a r1 =>
      if isWhiteSpace a then trimStart r1
      else
        match r1 with
        | EmptyString => s
        | String b r2 =>
            if isWhiteSpace2 a b then trimStart r2
            else
              match r2 with
              | EmptyString => s
              | String c r3 =>
                  if isWhiteSpace3 a b c then trimStart r3 else s
              end
        end
  end.

Definition digitValue (c : ascii) : option Z :=
  let n := Z.of_nat (nat_of_ascii c) in
  if (48 <=? n) && (n <=? 57) then Some (n - 48) else None.

Fixpoint digits (acc : option Z) (s : string) : option Z :=
  match s with
  | String c r =>
      match digitValue c with
      | Some d =>
          digits (Some (10 * (match acc with Some a => a | None => 0 end) + d)) r
      | None => acc
      end
  | EmptyString => acc
  end.

Definition parseInt (s : string) : option Z :=
  match trimStart s with
  | String "-" r => option_map Z.opp (digits None r)
  | String "+" r => digits None r
  | t => digits None t
  end.

(** [parseInt(process.env.EXPIRY_SOON_DAYS || "30", 10)] *)
Definition soonDays (EXPIRY_SOON_DAYS : option string) : option Z :=
  parseInt (match EXPIRY_SOON_DAYS with
            | Some s => if nonEmpty s then s else "30"
            | None => "30"
            end)%string.

(** [new Date(Date.now() + soonDays * 24 * 60 * 60 * 1000)]; [nowMs] is
    the reading of [Date.now()]. *)
Definition soonThreshold (EXPIRY_SOON_DAYS : option string) (nowMs : Z)
    : option Z :=
  match soonDays EXPIRY_SOON_DAYS with
  | Some d => JsDate.TimeClip (nowMs + d * 24 * 60 * 60 * 1000)
  | None => None
  end.

(** The arguments of one [webpush.sendNotification] call. *)
Record Notification := mkNotification {
  n_endpoint : string;
  n_keys : string;
  n_title : string;
  n_body : string
}.

(** An asynchronous step either completes or throws; the log lists the
    calls made to the push service so far, each with whether it resolved. *)
Inductive Result (A : Type) := Ok (a : A) | Thrown.
Arguments Ok {A} a.
Arguments Thrown {A}.

Definition Log := list (Notification * bool).
Definition Task (A : Type) := Log -> Result A * Log.

Definition ret {A} (a : A) : Task A := fun log => (Ok a, log).
Definition throw {A} : Task A := fun log => (Thrown, log).
Definition bind {A B} (m : Task A) (k : A -> Task B) : Task B :=
  fun log =>
    match m log with
    | (Ok a, log') => k a log'
    | (Thrown, log') => (Thrown, log')
    end.
(** [try { m } catch (_) { h }] *)
Definition tryCatch {A} (m h : Task A) : Task A :=
  fun log =>
    match m log with
    | (Ok a, log') => (Ok a, log')
    | (Thrown, log') => h log'
    end.

Notation "'let*' x := m 'in' k" := (bind m (fun x => k))
  (at level 10, x name, m at level 100, k at level 200).

Section Scan.
(** The push service: whether the call numbered [i] (from 0) of the scan,
    made with arguments [n], resolves. *)
Variable webpush : nat -> Notification -> bool.
(** [new Date(t).toLocaleDateString()] *)
Variable toLocaleDateString : Z -> string.

Definition sendNotification (n : Notification) : Task unit :=
  fun log =>
    if webpush (length log) n then (Ok tt, log ++ [(n, true)])
    else (Thrown, log ++ [(n, false)]).

Definition expiredMessage (doc : Document.t) : string * string :=
  ("Document expired",
   Document.type doc ++ " (" ++ Document.number doc ++ ") has expired")%string.

Definition soonMessage (doc : Document.t) : string * string :=
  ("Document expiring soon",
   Document.type doc ++ " (" ++ Document.number doc ++ ") expires on "
     ++ toLocaleDateString (Document.expiryDate doc))%string.

(** [u ? u.pushSubscriptions.filter((s) => s.enabled) : []] *)
Definition enabledSubscriptions (users : list User.t) (uid : ObjectId)
    : list User.Subscription :=
  match findById User._id uid users with
  | Some u => List.filter User.enabled (User.pushSubscriptions u)
  | None => []
  end.

(** [for (const sub of usersMap[uid]) { try { await send } catch (_) {} }] *)
Fixpoint forSubscriptions (msg : string * string)
    (subs : list User.Subscription) : Task unit :=
  match subs with
  | [] => ret tt
  | sub :: rest =>
      let* _ :=
        tryCatch
          (sendNotification
             (mkNotification (User.endpoint sub) (User.keys sub)
                             (fst msg) (snd msg)))
          (ret tt) in
      forSubscriptions msg rest
  end.

(** One [for (const doc of ...)] loop; [usersMap] caches the enabled
    subscriptions per owner for the whole scan. *)
Fixpoint forDocuments (message : Document.t -> string * string)
    (users : list User.t) (docs : list Document.t)
    (usersMap : gmap string (list User.Subscription))
    : Task (gmap string (list User.Subscription)) :=
  match docs with
  | [] => ret usersMap
  | doc :: rest =>
      let uid := Document.user doc in
      let usersMap :=
        match usersMap !! uid with
        | Some _ => usersMap
        | None => <[uid := enabledSubscriptions users uid]> usersMap
        end in
      let* _ :=
        forSubscriptions (message doc)
          (match usersMap !! uid with Some l => l | None => [] end) in
      forDocuments message users rest usersMap
  end.

Definition expiredDocs (now : Z) (docs : list Document.t) : list Document.t :=
  List.filter (fun d => Document.expiryDate d <=? now) docs.

Definition expiringSoonDocs (now soonThreshold : Z) (docs : list Document.t)
    : list Document.t :=
  List.filter (fun d => (now <? Document.expiryDate d)
                        && (Document.expiryDate d <=? soonThreshold)) docs.

(** [notifyExpiredDocuments] (the same body as [fullNotifyExpired]);
    [now] is [new Date()], [nowMs] the later [Date.now()]. *)
Definition notifyExpiredDocuments (EXPIRY_SOON_DAYS : option string)
    (now nowMs : Z) (db : DB) : Task unit :=
  tryCatch
    (let expired := expiredDocs now (documents db) in
     match soonThreshold EXPIRY_SOON_DAYS nowMs with
     | None => throw        (* a query on an Invalid Date is rejected *)
     | Some threshold =>
         let soon := expiringSoonDocs now threshold (documents db) in
         let* usersMap :=
           forDocuments expiredMessage (users db) expired ∅ in
         let* _ := forDocuments soonMessage (users db) soon usersMap in
         ret tt
     end)
    (ret tt).
End Scan.

End Notifier.

(* ===================================================================== *)
(** ** controllers/bookingController.js                                  *)
(* ===================================================================== *)

Module BookingController.
Local Open Scope Z_scope.

(** [req.body], cast to the schema types; an absent field is [None]. *)
Record Body := mkBody {
  date : option Z;
  startTime : option string;
  lessonType : option string;
  notes : option string
}.

(** The filter of [Booking.findOne({ user, date, startTime,
    status: { $ne: 'cancelled' } })]. *)
Definition sameSlot (reqUser : ObjectId) (body : Body) (b : Booking.t) : bool :=
  String.eqb (Booking.user b) reqUser
  && match date body with
     | Some d => Booking.date b =? d
     | None => false
     end
  && match startTime body with
     | Some s => String.eqb (Booking.startTime b) s
     | None => false
     end
  && negb (Booking.isCancelled (Booking.status b)).

(** [Booking.create({ user, date, startTime, lessonType, notes })] with
    the schema's defaults and validation; [None] is a ValidationError. *)
Definition newBooking (newId reqUser : ObjectId) (now : Z) (body : Body)
    : option Booking.t :=
  match date body, startTime body with
  | Some d, Some s =>
      let lt := match lessonType body with
                | Some l => l
                | None => "Standard Lesson"%string
                end in
      if nonEmpty s
         && existsb (String.eqb lt) Booking.lessonTypes
         && match notes body with
            | Some n => (utf16Length n <=? 500)%nat
            | None => true
            end
      then Some (Booking.mk newId reqUser d s lt Booking.confirmed
                            (notes body) now)
      else None
  | _, _ => None
  end.

Definition serverError : Response := fail 500 "Server Error".

(** [POST /api/bookings] *)
Definition createBooking (reqUser newId : ObjectId) (now : Z) (body : Body)
    (db : DB) : Response * DB :=
  match List.find (sameSlot reqUser body) (bookings db) with
  | Some existingBooking =>
      (fail 400 "You already have a booking at this time", db)
  | None =>
      match newBooking newId reqUser now body with
      | Some booking =>
          (mkResponse 201 true None (BookingPayload booking),
           withBookings (bookings db ++ [booking]) db)
      | None => (serverError, db)
      end
  end.

(** [PUT /api/bookings/:id/cancel]; [id] is [routeId req.params.id], and
    a text that is no ObjectId makes [Booking.findById] throw. *)
Definition cancelBooking (reqUser id : ObjectId) (db : DB) : Response * DB :=
  match findById Booking._id id (bookings db) with
  | None =>
      if isObjectId id then (fail 404 "Booking not found", db)
      else (serverError, db)                             (* CastError *)
  | Some booking =>
      if negb (String.eqb (Booking.user booking) reqUser) then
        (fail 401 "Not authorized to cancel this booking", db)
      else
        let bs := updateById Booking._id id
                    (Booking.setStatus Booking.cancelled) (bookings db) in
        (mkResponse 200 true None
                    (match findById Booking._id id bs with
                     | Some b => BookingPayload b
                     | None => NoPayload
                     end),
         withBookings bs db)
  end.

End BookingController.

(* ===================================================================== *)
(** ** middleware/auth.js                                                *)
(* ===================================================================== *)

Module Auth.

(** The parts of the request the guard reads: [req.cookies.token] (absent
    also when there is no cookie jar) and [req.headers.authorization]. *)
Record Request := mkRequest {
  cookieToken : option string;
  authorization : option string
}.

(** [s.split(" ")] *)
Fixpoint split (s : string) : list string :=
  match s with
  | EmptyString => [EmptyString]
  | String c r =>
      let l := split r in
      if Ascii.eqb c " " then EmptyString :: l
      else match l with
           | x :: xs => String c x :: xs
           | [] => [String c EmptyString]
           end
  end.

Definition truthy (o : option string) : bool :=
  match o with Some s => nonEmpty s | None => false end.

(** The credential the guard picks: the cookie first, the Authorization
    header as the fallback. *)
Definition token (req : Request) : option string :=
  if truthy (cookieToken req) then cookieToken req
  else
    match authorization req with
    | Some h =>
        if nonEmpty h && String.prefix "Bearer" h then nth_error (split h) 1
        else None
    | None => None
    end.

Inductive Outcome :=
| Respond (r : Response)       (* the guard answers; the handler is not run *)
| Next (user : User.t).        (* [req.user = user; next()] *)

Definition notAuthorized : Response :=
  fail 401 "Not authorized to access this route".

Section Guard.
(** [jwt.verify(token, process.env.JWT_SECRET)], giving the [id] of the
    decoded payload; [None] when it throws (bad signature, expired). *)
Variable jwtVerify : string -> option ObjectId.

Definition protect (req : Request) (db : DB) : Outcome :=
  let token := token req in
  if negb (truthy token) then Respond notAuthorized
  else
    match token with
    | None => Respond notAuthorized
    | Some tok =>
        match jwtVerify tok with
        | None => Respond notAuthorized
        | Some id =>
            match findById User._id id (users db) with
            | None =>
                Respond (fail 401 "Not authorized. User no longer exists.")
            | Some user => Next user
            end
        end
    end.
End Guard.

End Auth.

(* ===================================================================== *)
(** ** Specification predicates                                          *)
(* ===================================================================== *)

Module Spec.
Local Open Scope Z_scope.

(** The status rule of the pre-save hook, as a relation between a stored
    document and the clock reading [today] of the write. *)
Definition statusAgrees (today : Z) (d : Document.t) : Prop :=
  let days := Document.daysUntilExpiry today (Document.expiryDate d) in
  (Document.status d = Document.expired <-> days < 0)
  /\ (Document.status d = Document.expiring <-> 0 <= days <= 30)
  /\ (Document.status d = Document.valid <-> 30 < days)
  /\ (days < 0 <-> Document.expiryDate d <= today - JsDate.msPerDay).

(** The gateway confirms a reference: the secret key is configured, the
    verification call succeeds, and the transaction's status is
    'success' (paymentController.js, lines 14-28). *)
Definition gatewayConfirms (env : PaymentController.Env) (ref : string) : bool :=
  match PaymentController.PAYSTACK_SECRET_KEY env with
  | Some k =>
      nonEmpty k
      && match PaymentController.paystack env ref with
         | PaymentController.GatewayData data =>
             String.eqb (PaymentController.g_status data) "success"
         | PaymentController.GatewayError => false
         end
  | None => false
  end.

(** The local time one calendar year after the local time [lt]: the same
    month, day of the month and time of day in the next year (a 29
    February runs over into 1 March). *)
Definition nextYear (lt : Z) : Z :=
  JsDate.MakeDate
    (JsDate.MakeDay (JsDate.YearFromTime lt + 1) (JsDate.MonthFromTime lt)
                    (JsDate.DateFromTime lt))
    (JsDate.TimeWithinDay lt).

(** Local time is never more than a day away from UTC. *)
Definition boundedZone (zone : JsDate.Zone) : Prop :=
  forall t, Z.abs (JsDate.offsetAt zone t) <= JsDate.msPerDay
            /\ Z.abs (JsDate.offsetOfLocal zone t) <= JsDate.msPerDay.

(** One call of [POST /api/payments/verify] with everything it reads. *)
Record VerifyRequest := mkVerifyRequest {
  rq_env : PaymentController.Env;
  rq_user : ObjectId;
  rq_newId : ObjectId;
  rq_now : Z;
  rq_today : Z;
  rq_body : PaymentController.Body
}.

Definition serve (rq : VerifyRequest) (db : DB) : Response * DB :=
  PaymentController.verifyPayment (rq_env rq) (rq_user rq) (rq_newId rq)
    (rq_now rq) (rq_today rq) (rq_body rq) db.

(** Requests served one after the other. *)
Fixpoint serveAll (rqs : list VerifyRequest) (db : DB) : list Response * DB :=
  match rqs with
  | [] => ([], db)
  | rq :: rest =>
      let (r, db1) := serve rq db in
      let (rs, db2) := serveAll rest db1 in
      (r :: rs, db2)
  end.

Definition alreadyProcessed : Response :=
  mkResponse 200 true (Some "Already processed"%string) NoPayload.

(** The calls to the push service that one scan owes: for each selected
    document, in query order, one per enabled subscription of its owner. *)
Definition notificationsFor (message : Document.t -> string * string)
    (users : list User.t) (doc : Document.t) : list Notifier.Notification :=
  List.map (fun sub =>
              Notifier.mkNotification (User.endpoint sub) (User.keys sub)
                                      (fst (message doc)) (snd (message doc)))
           (Notifier.enabledSubscriptions users (Document.user doc)).

(** The scan's cache holds, for an owner, the subscriptions a lookup
    would give. *)
Definition cacheSound (users : list User.t)
    (usersMap : gmap string (list User.Subscription)) : Prop :=
  forall uid l,
    usersMap !! uid = Some l -> l = Notifier.enabledSubscriptions users uid.

Definition owedNotifications (toLocaleDateString : Z -> string)
    (now threshold : Z) (db : DB) : list Notifier.Notification :=
  flat_map (notificationsFor Notifier.expiredMessage (users db))
           (Notifier.expiredDocs now (documents db))
  ++ flat_map (notificationsFor (Notifier.soonMessage toLocaleDateString)
                                (users db))
              (Notifier.expiringSoonDocs now threshold (documents db)).

(** A booking that blocks a create request: same owner, same date, same
    start time, not cancelled. *)
Definition blocks (reqUser : ObjectId) (body : BookingController.Body)
    (b : Booking.t) : Prop :=
  Booking.user b = reqUser
  /\ BookingController.date body = Some (Booking.date b)
  /\ BookingController.startTime body = Some (Booking.startTime b)
  /\ Booking.status b <> Booking.cancelled.

(** How many non-cancelled bookings the owner has at the request's slot. *)
Definition activeAtSlot (reqUser : ObjectId) (body : BookingController.Body)
    (db : DB) : nat :=
  length (List.filter (BookingController.sameSlot reqUser body) (bookings db)).

Definition conflict : Response :=
  fail 400 "You already have a booking at this time".

(** The three reasons for which the guard refuses a request. *)
Definition noCredential (req : Auth.Request) : Prop :=
  Auth.truthy (Auth.token req) = false.

Definition badCredential (jwtVerify : string -> option ObjectId)
    (req : Auth.Request) : Prop :=
  exists tok, Auth.token req = Some tok /\ tok <> ""%string
              /\ jwtVerify tok = None.

Definition unknownIdentity (jwtVerify : string -> option ObjectId)
    (req : Auth.Request) (db : DB) : Prop :=
  exists tok id, Auth.token req = Some tok /\ tok <> ""%string
                 /\ jwtVerify tok = Some id
                 /\ forall u, In u (users db) -> User._id u <> id.

(** The [Authorization] header's credential: the second space-separated
    field of a header that starts with "Bearer". *)
Definition bearer (req : Auth.Request) : option string :=
  match Auth.authorization req with
  | Some h =>
      if nonEmpty h && String.prefix "Bearer" h
      then nth_error (Auth.split h) 1 else None
  | None => None
  end.

End Spec.

(* ===================================================================== *)
(** ** Sample data used by the examples                                  *)
(* ===================================================================== *)

Module Sample.
Local Open Scope Z_scope.

(** 2026-01-01T00:00:00Z *)
Definition t0 : Z := 1767225600000.

Definition alice : ObjectId := "64b000000000000000000001".
Definition bob : ObjectId := "64b000000000000000000002".
Definition docId : ObjectId := "64d000000000000000000001".
Definition otherId : ObjectId := "64d000000000000000000002".

Definition licenceInput (expiry : Z) (st : option string) : Document.Input :=
  Document.mkInput None (Some "NG") (Some "Driver Licence") (Some "ABC123")
                   None (Some expiry) st None.

(** Alice's licence, lapsed five days before [t0]. *)
Definition lapsedLicence : Document.t :=
  Document.mk docId alice "NG" "Driver Licence" "ABC123" None
              (t0 - 5 * JsDate.msPerDay) Document.expired (t0 - 400 * JsDate.msPerDay).

Definition emptyDB : DB := mkDB [] [] [] [].
Definition licenceDB : DB := mkDB [lapsedLicence] [] [] [].

(** A gateway that knows one settled transaction, "ref_001". *)
Definition gateway (ref : string) : PaymentController.GatewayReply :=
  if String.eqb ref "ref_001" then
    PaymentController.GatewayData
      (PaymentController.mkTx "success" 500000 "NGN" "4099260516")
  else PaymentController.GatewayError.

Definition env : PaymentController.Env :=
  PaymentController.mkEnv (Some "sk_test_key"%string) gateway
                          (JsDate.fixedZone 0).

Definition payId : ObjectId := "64e000000000000000000001".

(** New York in 2026 and 2027: UTC-4 from 8 March 2026 07:00Z to
    1 November 2026 06:00Z and from 14 March 2027 07:00Z to 7 November
    2027 06:00Z, UTC-5 otherwise.  A local time is read with the offset in
    force before a change when the change skips or repeats it. *)
Definition newYork : JsDate.Zone :=
  JsDate.mkZone
    (fun t =>
       if ((1772953200000 <=? t) && (t <? 1793512800000))
          || ((1805007600000 <=? t) && (t <? 1825567200000))
       then -14400000 else -18000000)
    (fun lt =>
       if ((1772938800000 <=? lt) && (lt <? 1793498400000))
          || ((1804993200000 <=? lt) && (lt <? 1825552800000))
       then -14400000 else -18000000).

Definition newYorkEnv : PaymentController.Env :=
  PaymentController.mkEnv (Some "sk_test_key"%string) gateway newYork.

(** A licence of Alice's that runs out on 2026-03-10T16:00:00Z, noon in
    New York, two days into daylight saving. *)
Definition marchLicence : Document.t :=
  Document.mk docId alice "US" "Driver Licence" "NY-1" None
              1773158400000 Document.valid (t0 - 300 * JsDate.msPerDay).

Definition marchDB : DB := mkDB [marchLicence] [] [] [].

(** Alice has two enabled subscriptions and a disabled one. *)
Definition aliceUser : User.t :=
  User.mk alice "Alice" "alice@example.com" "0800" "NG" "hash"
          [User.mkSub "https://push.example/a1" "k1" true;
           User.mkSub "https://push.example/a2" "k2" false;
           User.mkSub "https://push.example/a3" "k3" true].

(** A licence of Alice's that runs out ten days after [t0]. *)
Definition endingLicence : Document.t :=
  Document.mk otherId alice "NG" "Passport" "P777" None
              (t0 + 10 * JsDate.msPerDay) Document.expiring
              (t0 - 300 * JsDate.msPerDay).

Definition scanDB : DB := mkDB [lapsedLicence; endingLicence] [] [] [aliceUser].

(** A push service on which every delivery fails. *)
Definition deadPush (i : nat) (n : Notifier.Notification) : bool := false.

Definition isoDate (t : Z) : string := "2026-01-11".

(** 2025-06-01T00:00:00Z, at 10:00. *)
Definition lesson : BookingController.Body :=
  BookingController.mkBody (Some 1748736000000) (Some "10:00"%string) None None.

Definition bookingId : ObjectId := "64f000000000000000000001".
Definition bookingId2 : ObjectId := "64f000000000000000000002".

Definition aliceLesson : Booking.t :=
  Booking.mk bookingId alice 1748736000000 "10:00" "Standard Lesson"
             Booking.confirmed None t0.

Definition lessonDB : DB := mkDB [] [] [aliceLesson] [aliceUser].

Definition bobUser : User.t :=
  User.mk bob "Bob" "bob@example.com" "0801" "NG" "hash2" [].

(** The same store with Bob's account still in it. *)
Definition schoolDB : DB := mkDB [] [] [aliceLesson] [aliceUser; bobUser].

(** A verifier that accepts two tokens: Alice's, and one naming a user
    that has since been deleted. *)
Definition jwtVerify (tok : string) : option ObjectId :=
  if String.eqb tok "alice.jwt" then Some alice
  else if String.eqb tok "ghost.jwt" then Some bob
  else None.

Definition bearerRequest : Auth.Request :=
  Auth.mkRequest None (Some "Bearer alice.jwt"%string).

Definition cookieRequest : Auth.Request :=
  Auth.mkRequest (Some "alice.jwt"%string) (Some "Bearer forged"%string).

Definition renewal : PaymentController.Body :=
  PaymentController.mkBody "ref_001" (Some docId).

Definition renewalOfUnknown : PaymentController.Body :=
  PaymentController.mkBody "ref_001" (Some otherId).

End Sample.

(* ===================================================================== *)
(** ** Numbers                                                           *)
(* ===================================================================== *)

Module JsNumber.
Local Open Scope Z_scope.

(** The Number values the handlers compute with: integers, which a double
    holds exactly up to 2^53 in magnitude and rounded beyond, the
    infinities and NaN.  The sign of zero is not kept: it shows in none of
    the uses (-0 is falsy and is printed as 0). *)
Inductive t := NaN | Fin (z : Z) | Inf (negative : bool).

(** [Number.MAX_SAFE_INTEGER] *)
Definition maxSafe : Z := 2 ^ 53 - 1.

(** The double nearest to a natural number, ties to the even
    significand: beyond 53 bits the last [e] bits are rounded away. *)
Definition roundNat (a : Z) : Z :=
  if a <? 2 ^ 53 then a
  else
    let e := Z.log2 a - 52 in
    let q := Z.shiftr a e in
    let r := a - Z.shiftl q e in
    let half := Z.shiftl 1 (e - 1) in
    let q' := if r <? half then q
              else if half <? r then q + 1
              else if Z.even q then q else q + 1 in
    Z.shiftl q' e.

Definition round (z : Z) : Z :=
  if z <? 0 then - roundNat (- z) else roundNat z.

(** What rounds to 2^1024 or beyond is infinite. *)
Definition overflow : Z := 2 ^ 1024.

(** The Number value of a mathematical integer. *)
Definition ofInteger (z : Z) : t :=
  let r := round z in
  if overflow <=? Z.abs r then Inf (z <? 0) else Fin r.

(** [parseInt(s, 10)] *)
Definition parseInt (s : string) : t :=
  match Notifier.parseInt s with
  | Some z => ofInteger z
  | None => NaN
  end.

(** [a - b] and [a * b]: the exact result, rounded. *)
Definition sub (a b : t) : t :=
  match a, b with
  | Fin x, Fin y => ofInteger (x - y)
  | Inf s, Fin _ => Inf s
  | Fin _, Inf s => Inf (negb s)
  | Inf s, Inf s' => if Bool.eqb s s' then NaN else Inf s
  | _, _ => NaN
  end.

Definition mul (a b : t) : t :=
  match a, b with
  | Fin x, Fin y => ofInteger (x * y)
  | Inf s, Fin y | Fin y, Inf s =>
      if y =? 0 then NaN else Inf (xorb s (y <? 0))
  | Inf s, Inf s' => Inf (xorb s s')
  | _, _ => NaN
  end.

(** [Math.ceil(a / b)] for a count [a] (below 2^53): the rounding of the
    quotient to a double never crosses an integer, so for a finite [b]
    other than 0 this is the ceiling of the exact quotient. *)
Definition ceilDivide (a : Z) (b : t) : t :=
  match b with
  | Fin n =>
      if n =? 0 then (if a =? 0 then NaN else Inf (a <? 0))
      else Fin (JsDate.ceilDiv a n)
  | Inf _ => Fin 0
  | NaN => NaN
  end.

End JsNumber.

(* ===================================================================== *)
(** ** Paged queries: [find(...).sort(...).skip(n).limit(m)]             *)
(* ===================================================================== *)

Module Query.
Local Open Scope Z_scope.

(** [x || d]: NaN and 0 are falsy. *)
Definition orDefault (x : JsNumber.t) (d : Z) : JsNumber.t :=
  match x with
  | JsNumber.NaN => JsNumber.Fin d
  | JsNumber.Fin z => if z =? 0 then JsNumber.Fin d else x
  | JsNumber.Inf _ => x
  end.

(** [parseInt(req.query.<name>, 10) || d]; the query parameter is given as
    the text that [parseInt] makes of it. *)
Definition queryNumber (q : option string) (d : Z) : JsNumber.t :=
  orDefault (match q with
             | Some s => JsNumber.parseInt s
             | None => JsNumber.NaN     (* parseInt(undefined) is NaN *)
             end) d.

(** The store's side of a paged query, which the sources do not fix:
    - [sorted l]: the matching documents in the order [.sort(...)] gives
      them; documents with equal sort keys come in an order of the
      store's choosing;
    - [singleBatch n]: how many documents a cursor closed after its first
      batch delivers when asked for [n] (the driver turns a negative
      limit [-n] into such a cursor);
    - [offRange skip limit l]: the answer to a skip or a limit that is
      not a safe integer ([None]: the query is rejected). *)
Record Store (A : Type) := mkStore {
  sorted : list A -> list A;
  singleBatch : nat -> nat;
  offRange : JsNumber.t -> JsNumber.t -> list A -> option (list A)
}.
Arguments mkStore {A}.
Arguments sorted {A}.
Arguments singleBatch {A}.
Arguments offRange {A}.

(** [.skip(skip).limit(limit)] on the sorted result; the server rejects a
    negative skip ([None]); a limit of 0 is no limit. *)
Definition slice {A} (store : Store A) (skip limit : JsNumber.t) (l : list A)
    : option (list A) :=
  match skip, limit with
  | JsNumber.Fin s, JsNumber.Fin n =>
      if (Z.abs s <=? JsNumber.maxSafe) && (Z.abs n <=? JsNumber.maxSafe) then
        if s <? 0 then None
        else
          let rest := drop (Z.to_nat s) l in
          Some (if n =? 0 then rest
                else if 0 <? n then take (Z.to_nat n) rest
                else take (singleBatch store (Z.to_nat (- n))) rest)
      else offRange store skip limit l
  | _, _ => offRange store skip limit l
  end.

(** The JSON of a list endpoint: [{ success: true, count, total, page,
    pages, <items> }]. *)
Record Listing (A : Type) := mkListing {
  count : Z;
  total : Z;
  page : JsNumber.t;
  pages : JsNumber.t;
  items : list A
}.
Arguments mkListing {A}.
Arguments count {A}.
Arguments total {A}.
Arguments page {A}.
Arguments pages {A}.
Arguments items {A}.

Inductive Result (A : Type) :=
| Listed (l : Listing A)       (* 200 *)
| Failed (r : Response).       (* the catch block *)
Arguments Listed {A}.
Arguments Failed {A}.

(** The common body of [getDocuments] and [getMyBookings]: [mine] is the
    requester's part of the collection, which [countDocuments] counts and
    [find] delivers sorted. *)
Definition paged {A} (store : Store A) (qpage qlimit : option string)
    (defaultLimit : Z) (error : Response) (mine : list A) : Result A :=
  let page := queryNumber qpage 1 in
  let limit := queryNumber qlimit defaultLimit in
  let skip := JsNumber.mul (JsNumber.sub page (JsNumber.Fin 1)) limit in
  let total := Z.of_nat (length mine) in
  match slice store skip limit (sorted store mine) with
  | Some found =>
      Listed (mkListing (Z.of_nat (length found)) total page
                        (JsNumber.ceilDivide total limit) found)
  | None => Failed error
  end.

End Query.

(* ===================================================================== *)
(** ** controllers/documentsControllers.js: reading and deleting         *)
(* ===================================================================== *)

Module DocumentsApi.
Local Open Scope Z_scope.

(** [.sort('-createdAt')]: newest first. *)
Definition newerFirst (a b : Document.t) : Prop :=
  Document.createdAt b <= Document.createdAt a.

#[global] Instance newerFirst_dec : RelDecision newerFirst.
Proof. intros a b. unfold newerFirst. apply _. Defined.

Definition ownedBy (reqUser : ObjectId) (d : Document.t) : bool :=
  String.eqb (Document.user d) reqUser.

(** The filter [{ user: req.user.id }]. *)
Definition myDocuments (reqUser : ObjectId) (db : DB) : list Document.t :=
  List.filter (ownedBy reqUser) (documents db).

(** [GET /api/documents?page=&limit=] *)
Definition getDocuments (store : Query.Store Document.t) (reqUser : ObjectId)
    (qpage qlimit : option string) (db : DB) : Query.Result Document.t :=
  Query.paged store qpage qlimit 20 DocumentsController.serverError
              (myDocuments reqUser db).

(** [document.deleteOne()]: the stored record with that [_id] goes. *)
Fixpoint removeById (id : ObjectId) (l : list Document.t) : list Document.t :=
  match l with
  | [] => []
  | x :: rest =>
      if String.eqb (Document._id x) id then rest
      else x :: removeById id rest
  end.

(** [DELETE /api/documents/:id]; [id] is [routeId req.params.id], and a
    text that is no ObjectId makes [Document.findById] throw. *)
Definition deleteDocument (reqUser id : ObjectId) (db : DB) : Response * DB :=
  match findById Document._id id (documents db) with
  | None =>
      if isObjectId id then (fail 404 "Document not found", db)
      else (DocumentsController.serverError, db)         (* CastError *)
  | Some document =>
      if negb (String.eqb (Document.user document) reqUser) then
        (fail 401 "Not authorized to delete this document", db)
      else
        (mkResponse 200 true (Some "Document deleted successfully"%string)
                    NoPayload,
         withDocuments (removeById (Document._id document) (documents db)) db)
  end.

End DocumentsApi.

(* ===================================================================== *)
(** ** controllers/bookingController.js: listing                         *)
(* ===================================================================== *)

Module BookingsApi.
Local Open Scope Z_scope.

(** [.sort({ date: 1, startTime: 1 })]: by date, then by start time in the
    store's binary string order. *)
Definition earlierFirst (a b : Booking.t) : Prop :=
  Booking.date a < Booking.date b
  \/ (Booking.date a = Booking.date b
      /\ String.leb (Booking.startTime a) (Booking.startTime b) = true).

#[global] Instance earlierFirst_dec : RelDecision earlierFirst.
Proof. intros a b. unfold earlierFirst. apply _. Defined.

Definition ownedBy (reqUser : ObjectId) (b : Booking.t) : bool :=
  String.eqb (Booking.user b) reqUser.

(** The filter [{ user: req.user.id }]. *)
Definition myBookings (reqUser : ObjectId) (db : DB) : list Booking.t :=
  List.filter (ownedBy reqUser) (bookings db).

(** [GET /api/bookings?page=&limit=] *)
Definition getMyBookings (store : Query.Store Booking.t) (reqUser : ObjectId)
    (qpage qlimit : option string) (db : DB) : Query.Result Booking.t :=
  Query.paged store qpage qlimit 10 BookingController.serverError
              (myBookings reqUser db).

End BookingsApi.

(* ===================================================================== *)
(** ** server.js: the push subscription routes                           *)
(* ===================================================================== *)

Module Subscriptions.

Definition hasEndpoint (e : string) (s : User.Subscription) : bool :=
  String.eqb (User.endpoint s) e.

Definition withSubscriptions (subs : list User.Subscription) (u : User.t)
    : User.t :=
  User.mk (User._id u) (User.fullName u) (User.email u) (User.phone u)
          (User.country u) (User.password u) subs.

Definition withUsers (us : list User.t) (db : DB) : DB :=
  mkDB (documents db) (payments db) (bookings db) us.

(** The positional operator [pushSubscriptions.$]: the first element that
    matches the filter's condition on the array is the one updated. *)
Fixpoint setFirst (e : string) (f : User.Subscription -> User.Subscription)
    (subs : list User.Subscription) : list User.Subscription :=
  match subs with
  | [] => []
  | s :: rest =>
      if hasEndpoint e s then f s :: rest else s :: setFirst e f rest
  end.

(** [User.updateOne({ _id: req.user.id, ... }, ...)] on the subscription
    list of the requester. *)
Definition updateSubscriptions (reqUser : ObjectId)
    (f : list User.Subscription -> list User.Subscription) (db : DB) : DB :=
  withUsers
    (updateById User._id reqUser
       (fun u => withSubscriptions (f (User.pushSubscriptions u)) u)
       (users db))
    db.

Definition ok (c : Z) : Response := mkResponse c true None NoPayload.

(** [POST /api/notifications/subscribe]: [$addToSet] when no element has
    the endpoint ([$ne] on the array path), then [$set] of keys and flag on
    the element that has it. *)
Definition subscribe (reqUser : ObjectId) (endpoint keys : string) (db : DB)
    : Response * DB :=
  let db1 :=
    updateSubscriptions reqUser
      (fun subs =>
         if existsb (hasEndpoint endpoint) subs then subs
         else subs ++ [User.mkSub endpoint keys true])
      db in
  let db2 :=
    updateSubscriptions reqUser
      (setFirst endpoint (fun s => User.mkSub (User.endpoint s) keys true))
      db1 in
  (ok 201, db2).

Definition setEnabled (flag : bool) (s : User.Subscription) : User.Subscription :=
  User.mkSub (User.endpoint s) (User.keys s) flag.

(** [POST /api/notifications/opt-out] *)
Definition optOut (reqUser : ObjectId) (endpoint : string) (db : DB)
    : Response * DB :=
  (ok 200, updateSubscriptions reqUser (setFirst endpoint (setEnabled false)) db).

(** [POST /api/notifications/opt-in] *)
Definition optIn (reqUser : ObjectId) (endpoint : string) (db : DB)
    : Response * DB :=
  (ok 200, updateSubscriptions reqUser (setFirst endpoint (setEnabled true)) db).

(** [POST /api/notifications/unsubscribe]: [$pull] removes every element
    with the endpoint. *)
Definition unsubscribe (reqUser : ObjectId) (endpoint : string) (db : DB)
    : Response * DB :=
  (ok 200,
   updateSubscriptions reqUser
     (List.filter (fun s => negb (hasEndpoint endpoint s))) db).

End Subscriptions.

(* ===================================================================== *)
(** ** server.js: the CORS origin check                                  *)
(* ===================================================================== *)

Module Cors.





End Cors.

(* ===================================================================== *)
(** ** controllers/authControllers.js: the password rule                 *)
(* ===================================================================== *)

Module AuthController.
Local Open Scope N_scope.

(** A JavaScript string as its UTF-16 code units. *)
Definition JsString := list N.

Definition isLineTerminator (c : N) : bool :=
  (c =? 10) || (c =? 13) || (c =? 8232) || (c =? 8233).
Definition isLower (c : N) : bool := (97 <=? c) && (c <=? 122).
Definition isUpper (c : N) : bool := (65 <=? c) && (c <=? 90).
Definition isDigit (c : N) : bool := (48 <=? c) && (c <=? 57).

(** The longest run that [.*] can take from the start of [s]: [.] matches
    any code unit but a line terminator. *)
Fixpoint dotStar (s : JsString) : JsString :=
  match s with
  | [] => []
  | c :: r => if isLineTerminator c then [] else c :: dotStar r
  end.

(** [(?=.*[class])] at the start of [s]: some position reachable by [.*]
    holds a code unit of the class. *)
Definition lookahead (class : N -> bool) (s : JsString) : bool :=
  match List.find class
          (firstn (S (length (dotStar s))) s)   (* [.*] then one more unit *)
  with
  | Some _ => true
  | None => false
  end.

(** [/^(?=.*[a-z])(?=.*[A-Z])(?=.*\d).{8,}$/.test(s)]: the three
    lookaheads, then at least eight [.] up to the end of the input. *)
Definition passwordRegex_test (s : JsString) : bool :=
  lookahead isLower s && lookahead isUpper s && lookahead isDigit s
  && (8 <=? length (dotStar s))%nat
  && (length (dotStar s) =? length s)%nat.

(** [String(undefined)], what [test] sees when the field is missing. *)
Definition undefinedText : JsString := [117; 110; 100; 101; 102; 105; 110; 101; 100].

(** [buf.toString('hex')]: two lower-case hexadecimal digits per byte. *)
Definition hexDigit (d : N) : N := if d <? 10 then 48 + d else 87 + d.
Definition toHex (bytes : list N) : JsString :=
  flat_map (fun b => [hexDigit ((b mod 256) / 16); hexDigit (b mod 16)]) bytes.

(** [crypto.randomBytes(16).toString('hex') + 'Aa1'], for the bytes drawn. *)
Definition randomPass (bytes : list N) : JsString := toHex bytes ++ [65; 97; 49].

(** The part of [req.body] that [signup] reads. *)
Record SignupBody := mkSignupBody {
  fullName : string;
  email : string;
  phone : string;
  country : string;
  password : option JsString
}.

(** Where [signup] ends up: with a refusal, or at the call of
    [User.create] with these fields. *)
Inductive SignupStep :=
| Refuse (r : Response)
| CreateUser (body : SignupBody).

(** [POST /api/auth/signup], up to [User.create].  [castEmail] is what the
    user schema, which is not among the sources, makes of an email in a
    query (the identity unless the schema has setters on that path). *)
Definition signup (castEmail : string -> string) (body : SignupBody) (db : DB)
    : SignupStep :=
  match List.find (fun u => String.eqb (User.email u) (castEmail (email body)))
                  (users db) with
  | Some userExists => Refuse (fail 400 "User already exists with this email")
  | None =>
      if negb (passwordRegex_test
                 (match password body with
                  | Some p => p
                  | None => undefinedText
                  end))
      then Refuse (fail 400
        "Password must contain at least 8 characters, including uppercase, lowercase, and number")
      else CreateUser body
  end.

End AuthController.

(* ===================================================================== *)
(** ** Further specification predicates and sample data                  *)
(* ===================================================================== *)

Module Spec2.
Local Open Scope Z_scope.

(** The items of the pages numbered [1..n], one after the other, as
    [fetch k] delivers them. *)
Definition allPages {A} (fetch : nat -> list A) (n : nat) : list A :=
  flat_map fetch (seq 1 n).

(** The store's answer holds each matching document once, in the order
    asked for. *)
Definition sortedBy {A} (R : relation A) (store : Query.Store A)
    (mine : list A) : Prop :=
  Permutation (Query.sorted store mine) mine
  /\ StronglySorted R (Query.sorted store mine).

Definition itemsOf {A} (r : Query.Result A) : list A :=
  match r with
  | Query.Listed l => Query.items l
  | Query.Failed _ => []
  end.


(** A body that only names a new owner. *)
Definition handOver (other : ObjectId) : Document.Input :=
  Document.mkInput (Some other) None None None None None None None.

(** No two recorded payments share a gateway reference. *)
Definition uniqueReferences (db : DB) : Prop :=
  NoDup (List.map Payment.paystackReference (payments db)).

(** Two documents that differ at most in expiry date and status. *)
Definition sameButExpiry (d d' : Document.t) : Prop :=
  Document._id d' = Document._id d
  /\ Document.user d' = Document.user d
  /\ Document.country d' = Document.country d
  /\ Document.type d' = Document.type d
  /\ Document.number d' = Document.number d
  /\ Document.issueDate d' = Document.issueDate d
  /\ Document.createdAt d' = Document.createdAt d.

(** A payment record with its [user] replaced. *)
Definition paidBy (u : ObjectId) (p : Payment.t) : Payment.t :=
  Payment.mk (Payment._id p) u (Payment.document p) (Payment.type p)
             (Payment.amount p) (Payment.currency p)
             (Payment.paystackReference p) (Payment.paystackTransactionId p)
             (Payment.status p) (Payment.date p).

(** How far gone a status is. *)
Definition rank (s : Document.Status) : Z :=
  match s with
  | Document.valid => 0
  | Document.expiring => 1
  | Document.expired => 2
  end.

(** At most one non-cancelled booking per owner, date and start time. *)
Definition slotsUnique (db : DB) : Prop :=
  forall reqUser body, (Spec.activeAtSlot reqUser body db <= 1)%nat.

(** What the booking schema demands of a stored booking. *)
Definition validBooking (b : Booking.t) : Prop :=
  In (Booking.lessonType b) Booking.lessonTypes
  /\ Booking.startTime b <> ""%string
  /\ match Booking.notes b with
     | Some n => (utf16Length n <= 500)%nat
     | None => True
     end.

(** The create request for the slot a booking holds. *)
Definition slotOf (b : Booking.t) : BookingController.Body :=
  BookingController.mkBody (Some (Booking.date b)) (Some (Booking.startTime b))
                           None None.

(** A body that passes the booking schema's validation. *)
Definition bookable (body : BookingController.Body) : Prop :=
  (exists d, BookingController.date body = Some d)
  /\ (exists s, BookingController.startTime body = Some s /\ s <> ""%string)
  /\ (forall l, BookingController.lessonType body = Some l ->
                 In l Booking.lessonTypes)
  /\ (forall n, BookingController.notes body = Some n ->
                 (utf16Length n <= 500)%nat).

(** The subscriptions of a stored user, none for an unknown one. *)
Definition subscriptionsOf (uid : ObjectId) (db : DB) : list User.Subscription :=
  match findById User._id uid (users db) with
  | Some u => User.pushSubscriptions u
  | None => []
  end.


(** No two subscriptions of the user share an endpoint. *)
Definition uniqueEndpoints (uid : ObjectId) (db : DB) : Prop :=
  NoDup (List.map User.endpoint (subscriptionsOf uid db)).

(** What [subscribe] does to a subscription list. *)
Definition subscribeList (e k : string) (subs : list User.Subscription)
    : list User.Subscription :=
  Subscriptions.setFirst e (fun s => User.mkSub (User.endpoint s) k true)
    (if existsb (Subscriptions.hasEndpoint e) subs then subs
     else subs ++ [User.mkSub e k true]).

(** No two stored documents share an [_id]. *)
Definition uniqueIds (db : DB) : Prop :=
  NoDup (List.map Document._id (documents db)).

(** A word: no space in it. *)
Fixpoint noSpace (s : string) : bool :=
  match s with
  | EmptyString => true
  | String c r => negb (Ascii.eqb c " ") && noSpace r
  end.

(** The password rule in plain terms: at least eight code units, none of
    them a line terminator, with a lower-case letter, an upper-case letter
    and a digit among them. *)
Definition strongPassword (s : AuthController.JsString) : Prop :=
  (8 <= length s)%nat
  /\ Forall (fun c => AuthController.isLineTerminator c = false) s
  /\ (exists c, In c s /\ AuthController.isLower c = true)
  /\ (exists c, In c s /\ AuthController.isUpper c = true)
  /\ (exists c, In c s /\ AuthController.isDigit c = true).

(** No account has this email. *)
Definition emailFree (e : string) (db : DB) : Prop :=
  forall u, In u (users db) -> User.email u <> e.

End Spec2.

Module Sample2.
Local Open Scope Z_scope.

(** A store that sorts stably, delivers up to 101 documents in a single
    batch, and rejects numbers that are not safe integers. *)
Definition store {A} (R : relation A) `{!RelDecision R} : Query.Store A :=
  Query.mkStore (merge_sort R) (fun n => Nat.min n 101) (fun _ _ _ => None).

Definition documentStore : Query.Store Document.t :=
  store DocumentsApi.newerFirst.
Definition bookingStore : Query.Store Booking.t :=
  store BookingsApi.earlierFirst.

Definition a1 : ObjectId := "65a000000000000000000001".
Definition a2 : ObjectId := "65a000000000000000000002".
Definition a3 : ObjectId := "65a000000000000000000003".
Definition b1 : ObjectId := "65b000000000000000000001".

Definition doc (id owner : ObjectId) (created : Z) : Document.t :=
  Document.mk id owner "NG" "Driver Licence" id None
              (Sample.t0 + 90 * JsDate.msPerDay) Document.valid created.

(** Three documents of Alice's and one of Bob's, in storage order. *)
Definition shelf : DB :=
  mkDB [doc a1 Sample.alice 10; doc b1 Sample.bob 40;
        doc a2 Sample.alice 30; doc a3 Sample.alice 20] [] [] [].

Definition l1 : ObjectId := "65c000000000000000000001".
Definition l2 : ObjectId := "65c000000000000000000002".
Definition l3 : ObjectId := "65c000000000000000000003".

Definition lessonAt (id : ObjectId) (date : Z) (time : string) : Booking.t :=
  Booking.mk id Sample.alice date time "Standard Lesson" Booking.confirmed
             None Sample.t0.

(** Alice's lessons, in storage order: 2 June 09:00, 1 June 14:00,
    1 June 10:00. *)
Definition diary : DB :=
  mkDB [] []
       [lessonAt l1 1748822400000 "09:00"; lessonAt l2 1748736000000 "14:00";
        lessonAt l3 1748736000000 "10:00"] [].

(** Alice's browser re-subscribes with fresh keys after an opt-out. *)
Definition aliceDB : DB := mkDB [Sample.lapsedLicence] [] [] [Sample.aliceUser].

Definition pageQuery (k : nat) : option string :=
  match k with
  | 1%nat => Some "1"%string
  | 2%nat => Some "2"%string
  | _ => Some "3"%string
  end.

(** U+00A0, a no-break space, as its two bytes. *)
Definition nbsp : string :=
  String (ascii_of_nat 194) (String (ascii_of_nat 160) EmptyString).

(** [n] copies of a text. *)
Fixpoint copies (n : nat) (s : string) : string :=
  match n with
  | O => EmptyString
  | S n' => (s ++ copies n' s)%string
  end.

(** The euro sign U+20AC, three bytes and one UTF-16 code unit. *)
Definition euro : string :=
  String (ascii_of_nat 226)
    (String (ascii_of_nat 130) (String (ascii_of_nat 172) EmptyString)).

End Sample2.

(* ===================================================================== *)
(** * Properties                                                         *)
(* ===================================================================== *)

Section DateFacts.
Local Open Scope Z_scope.
Import JsDate.

Lemma ceilDiv_spec (a b q : Z) :
  0 < b -> (ceilDiv a b = q <-> (q - 1) * b < a <= q * b).
Proof.
  intros Hb. unfold ceilDiv.
  pose proof (Z.div_mod (- a) b ltac:(lia)) as Hdm.
  pose proof (Z.mod_pos_bound (- a) b Hb) as Hm.
  split; intros H; nia.
Qed.

Lemma ceilDiv_neg_iff (a b : Z) : 0 < b -> (ceilDiv a b < 0 <-> a <= - b).
Proof.
  intros Hb. unfold ceilDiv.
  pose proof (Z.div_mod (- a) b ltac:(lia)) as Hdm.
  pose proof (Z.mod_pos_bound (- a) b Hb) as Hm.
  split; intros H; nia.
Qed.

Lemma ceilDiv_le_iff (a b k : Z) : 0 < b -> (ceilDiv a b <= k <-> a <= k * b).
Proof.
  intros Hb. unfold ceilDiv.
  pose proof (Z.div_mod (- a) b ltac:(lia)) as Hdm.
  pose proof (Z.mod_pos_bound (- a) b Hb) as Hm.
  split; intros H; nia.
Qed.

End DateFacts.

Section CalendarFacts.
Local Open Scope Z_scope.
Import JsDate.

Lemma InLeapYear_cases y :
  (InLeapYear y = 1 /\ y mod 4 = 0)
  \/ (InLeapYear y = 0 /\ (y mod 4 <> 0 \/ y mod 100 = 0)).
Proof.
  unfold InLeapYear.
  destruct (y mod 4 =? 0) eqn:E4; destruct (y mod 100 =? 0) eqn:E100;
    destruct (y mod 400 =? 0) eqn:E400; simpl; lia.
Qed.

Lemma InLeapYear_succ y : InLeapYear y = 0 \/ InLeapYear (y + 1) = 0.
Proof.
  destruct (InLeapYear_cases y) as [[? ?]|[? ?]]; [|now left].
  destruct (InLeapYear_cases (y + 1)) as [[? ?]|[? ?]]; [|now right].
  exfalso. Z.div_mod_to_equations. lia.
Qed.

(** A year has 365 days, and one more when it is a leap year. *)
Lemma DayFromYear_succ y :
  DayFromYear (y + 1) = DayFromYear y + 365 + InLeapYear y.
Proof.
  unfold DayFromYear, InLeapYear.
  destruct (y mod 4 =? 0) eqn:E4; destruct (y mod 100 =? 0) eqn:E100;
    destruct (y mod 400 =? 0) eqn:E400; simpl;
    rewrite ?Z.eqb_eq, ?Z.eqb_neq in *;
    Z.div_mod_to_equations; lia.
Qed.

Lemma DayFromYear_mono y1 y2 : y1 <= y2 -> DayFromYear y1 <= DayFromYear y2.
Proof. intros H. unfold DayFromYear. Z.div_mod_to_equations. lia. Qed.

Lemma DayFromYear_estimate y :
  -506 <= 400 * DayFromYear y - 146097 * (y - 1970) <= 589.
Proof. unfold DayFromYear. Z.div_mod_to_equations. lia. Qed.

(** [YearFromDay] is the year the day lies in. *)
Lemma YearFromDay_spec d :
  DayFromYear (YearFromDay d) <= d < DayFromYear (YearFromDay d + 1).
Proof.
  unfold YearFromDay.
  set (y := 1970 + 400 * d / 146097).
  assert (Hy : 146097 * (y - 1970) <= 400 * d < 146097 * (y - 1970) + 146097).
  { unfold y. Z.div_mod_to_equations. lia. }
  clearbody y.
  pose proof (DayFromYear_estimate (y - 1)) as E0.
  pose proof (DayFromYear_estimate (y + 2)) as E3.
  pose proof (DayFromYear_succ (y - 1)) as S0.
  pose proof (DayFromYear_succ y) as S1.
  pose proof (DayFromYear_succ (y + 1)) as S2.
  replace (y - 1 + 1) with y in S0 by lia.
  replace (y + 1 + 1) with (y + 2) in S2 by lia.
  destruct (Z.leb_spec (DayFromYear (y + 1)) d) as [L1|L1].
  - replace (y + 1 + 1) with (y + 2) by lia. lia.
  - destruct (Z.leb_spec (DayFromYear y) d) as [L0|L0].
    + lia.
    + replace (y - 1 + 1) with y by lia. lia.
Qed.

Lemma YearFromDay_unique d y :
  DayFromYear y <= d < DayFromYear (y + 1) -> YearFromDay d = y.
Proof.
  intros H. pose proof (YearFromDay_spec d) as S.
  destruct (Z.lt_trichotomy (YearFromDay d) y) as [L|[L|L]]; [|exact L|].
  - pose proof (DayFromYear_mono (YearFromDay d + 1) y ltac:(lia)). lia.
  - pose proof (DayFromYear_mono (y + 1) (YearFromDay d) ltac:(lia)). lia.
Qed.

Lemma DayWithinYear_range t :
  0 <= DayWithinYear t < 365 + InLeapYear (YearFromTime t).
Proof.
  unfold DayWithinYear, YearFromTime.
  pose proof (YearFromDay_spec (Day t)) as S.
  rewrite DayFromYear_succ in S. lia.
Qed.

Lemma MonthFromDayWithinYear_range leap d :
  0 <= MonthFromDayWithinYear leap d <= 11.
Proof.
  unfold MonthFromDayWithinYear.
  repeat match goal with |- context [if ?b then _ else _] => destruct b end;
    lia.
Qed.

Lemma monthStart_shift l1 l2 m :
  0 <= m <= 11 ->
  monthStart l2 m - monthStart l1 m = if m <? 2 then 0 else l2 - l1.
Proof.
  intros Hm. unfold monthStart.
  assert (m = 0 \/ m = 1 \/ m = 2 \/ m = 3 \/ m = 4 \/ m = 5 \/ m = 6
          \/ m = 7 \/ m = 8 \/ m = 9 \/ m = 10 \/ m = 11) as H by lia.
  repeat (destruct H as [->|H]; [simpl; lia|]). subst; simpl; lia.
Qed.

(** Same month and day of the month in the next year: 365 days later, or
    366 when a 29 February lies in between. *)
Lemma MakeDay_next_year t :
  let y := YearFromTime t in
  let m := MonthFromTime t in
  MakeDay (y + 1) m (DateFromTime t) - Day t
  = 365 + InLeapYear y
    + (if m <? 2 then 0 else InLeapYear (y + 1) - InLeapYear y).
Proof.
  intros y m.
  assert (Hm : 0 <= m <= 11) by apply MonthFromDayWithinYear_range.
  unfold MakeDay, DateFromTime, DayWithinYear. fold y. fold m.
  replace (m / 12) with 0 by (Z.div_mod_to_equations; lia).
  replace (m mod 12) with m by (Z.div_mod_to_equations; lia).
  rewrite Z.add_0_r, DayFromYear_succ.
  pose proof (monthStart_shift (InLeapYear y) (InLeapYear (y + 1)) m Hm).
  lia.
Qed.

Lemma DateFromTime_next_year_range t :
  let y := YearFromTime t in
  0 <= monthStart (InLeapYear (y + 1)) (MonthFromTime t) + DateFromTime t - 1
    < 365 + InLeapYear (y + 1).
Proof.
  intros y. pose proof (DayWithinYear_range t) as R. fold y in R.
  unfold DateFromTime, MonthFromTime. fold y.
  destruct (InLeapYear_cases y) as [[E1 _]|[E1 _]];
    destruct (InLeapYear_cases (y + 1)) as [[E2 _]|[E2 _]];
    rewrite E1, E2 in *;
    unfold MonthFromDayWithinYear;
    repeat match goal with
           | |- context [if ?a <? ?b then _ else _] =>
               destruct (Z.ltb_spec a b)
           end; cbn; lia.
Qed.

Ltac leap_cases lt H :=
  destruct (InLeapYear_cases (YearFromTime lt)) as [[?E1 _]|[?E1 _]];
  destruct (InLeapYear_cases (YearFromTime lt + 1)) as [[?E2 _]|[?E2 _]];
  destruct (InLeapYear_succ (YearFromTime lt)) as [?E3|?E3];
  rewrite E1, E2 in H; try lia;
  destruct (MonthFromTime lt <? 2); lia.

(** The same date in the next year is 365 or 366 days later ... *)
Lemma nextYear_days lt :
  Spec.nextYear lt - lt = 365 * msPerDay
  \/ Spec.nextYear lt - lt = 366 * msPerDay.
Proof.
  unfold Spec.nextYear, MakeDate.
  pose proof (MakeDay_next_year lt) as H. cbv zeta in H.
  pose proof (Z.div_mod lt msPerDay ltac:(unfold msPerDay; lia)) as Hdm.
  fold (Day lt) in Hdm. fold (TimeWithinDay lt) in Hdm.
  unfold msPerDay in *.
  leap_cases lt H.
Qed.

(** ... at the same time of day ... *)
Lemma nextYear_time lt : TimeWithinDay (Spec.nextYear lt) = TimeWithinDay lt.
Proof.
  unfold Spec.nextYear, MakeDate, TimeWithinDay.
  rewrite Z.add_comm, Z.mod_add by (unfold msPerDay; lia).
  apply Z.mod_mod. unfold msPerDay. lia.
Qed.

(** ... and in the next calendar year. *)
Lemma nextYear_year lt :
  YearFromTime (Spec.nextYear lt) = YearFromTime lt + 1.
Proof.
  unfold Spec.nextYear, MakeDate.
  unfold YearFromTime at 1, Day.
  assert (Hm : 0 <= TimeWithinDay lt < msPerDay)
    by (apply Z.mod_pos_bound; unfold msPerDay; lia).
  rewrite Z.div_add_l by (unfold msPerDay; lia).
  rewrite (Z.div_small _ _ Hm), Z.add_0_r.
  apply YearFromDay_unique.
  pose proof (DateFromTime_next_year_range lt) as R. cbv zeta in R.
  pose proof (MonthFromDayWithinYear_range
                (InLeapYear (YearFromTime lt)) (DayWithinYear lt)) as Hr.
  fold (MonthFromTime lt) in Hr.
  unfold MakeDay.
  replace (MonthFromTime lt / 12) with 0 by (Z.div_mod_to_equations; lia).
  replace (MonthFromTime lt mod 12) with (MonthFromTime lt)
    by (Z.div_mod_to_equations; lia).
  rewrite Z.add_0_r, (DayFromYear_succ (YearFromTime lt + 1)). lia.
Qed.

(** [plusOneYear] writes the local time of one calendar year later and
    reads it back with the offset in force there. *)
Lemma plusOneYear_local zone t :
  plusOneYear zone t
  = TimeClip (UTC zone (Spec.nextYear (LocalTime zone t))).
Proof.
  unfold plusOneYear, setFullYear, getFullYear, Spec.nextYear.
  cbv zeta. reflexivity.
Qed.

Lemma plusOneYear_some zone t u :
  plusOneYear zone t = Some u ->
  u = UTC zone (Spec.nextYear (LocalTime zone t)).
Proof.
  rewrite plusOneYear_local. unfold TimeClip.
  destruct (_ <=? maxTime); [|discriminate].
  intros [= <-]. reflexivity.
Qed.

Lemma plusOneYear_days zone t u :
  plusOneYear zone t = Some u ->
  exists k, (k = 365 \/ k = 366)
            /\ u - t = k * msPerDay + offsetAt zone t
                       - offsetOfLocal zone (Spec.nextYear (LocalTime zone t)).
Proof.
  rewrite plusOneYear_local. unfold TimeClip.
  destruct (_ <=? maxTime); [|discriminate].
  intros [= <-]. unfold UTC.
  destruct (nextYear_days (LocalTime zone t)) as [H|H]; unfold LocalTime in *;
    [exists 365|exists 366]; (split; [auto|lia]).
Qed.

Lemma plusOneYear_in_range zone t :
  Spec.boundedZone zone ->
  Z.abs t + 368 * msPerDay <= maxTime ->
  exists u, plusOneYear zone t = Some u.
Proof.
  intros Hz Hr. rewrite plusOneYear_local. unfold TimeClip, UTC.
  pose proof (nextYear_days (LocalTime zone t)) as Hd.
  pose proof (Hz t) as [Ha _].
  pose proof (Hz (Spec.nextYear (LocalTime zone t))) as [_ Hb].
  unfold LocalTime in *.
  match goal with
  | |- context [?a <=? ?b] => destruct (Z.leb_spec a b) as [L|L]
  end; [eauto|].
  exfalso. unfold msPerDay, maxTime in *. lia.
Qed.

(** In a zone that reads the new local time with the offset it has at the
    resulting instant, the calendar year of the result is the next one. *)
Lemma plusOneYear_year zone t u :
  plusOneYear zone t = Some u ->
  offsetAt zone u = offsetOfLocal zone (Spec.nextYear (LocalTime zone t)) ->
  getFullYear zone u = getFullYear zone t + 1.
Proof.
  rewrite plusOneYear_local. unfold TimeClip.
  destruct (_ <=? maxTime); [|discriminate].
  intros [= <-] Ho. unfold getFullYear.
  rewrite <- nextYear_year. f_equal.
  unfold LocalTime at 1. rewrite Ho. unfold UTC. lia.
Qed.

(** 29 February 2024 plus one year is 1 March 2025 (UTC host). *)
Example plusOneYear_leap_day :
  plusOneYear (fixedZone 0) 1709164800000 = Some 1740787200000.
Proof. reflexivity. Qed.

Example plusOneYear_new_year_eve :
  plusOneYear (fixedZone 0) 1704067199999 = Some 1735689599999.
Proof. reflexivity. Qed.

(** Noon of 10 March 2026 in New York (16:00Z, daylight saving) plus one
    year is noon of 10 March 2027 (17:00Z, standard time): 365 days and
    one hour later. *)
Example plusOneYear_across_daylight_saving :
  plusOneYear Sample.newYork 1773158400000 = Some 1804698000000
  /\ 1804698000000 - 1773158400000 = 365 * msPerDay + 3600000.
Proof. split; reflexivity. Qed.

End CalendarFacts.

(* --------------------------------------------------------------------- *)
(** ** Document status                                                   *)
(* --------------------------------------------------------------------- *)

Section StatusFacts.
Local Open Scope Z_scope.
Import JsDate.

Lemma msPerDay_pos : 0 < msPerDay.
Proof. reflexivity. Qed.

Lemma statusOfDays_expired n : Document.statusOfDays n = Document.expired <-> n < 0.
Proof.
  unfold Document.statusOfDays.
  destruct (Z.ltb_spec n 0); destruct (Z.leb_spec n 30);
    split; intros; try lia; try discriminate; reflexivity.
Qed.

Lemma statusOfDays_expiring n :
  Document.statusOfDays n = Document.expiring <-> 0 <= n <= 30.
Proof.
  unfold Document.statusOfDays.
  destruct (Z.ltb_spec n 0); destruct (Z.leb_spec n 30);
    split; intros; try lia; try discriminate; reflexivity.
Qed.

Lemma statusOfDays_valid n : Document.statusOfDays n = Document.valid <-> 30 < n.
Proof.
  unfold Document.statusOfDays.
  destruct (Z.ltb_spec n 0); destruct (Z.leb_spec n 30);
    split; intros; try lia; try discriminate; reflexivity.
Qed.

Lemma preSave_status today d :
  Document.status (Document.preSave today d)
  = Document.statusOfDays (Document.daysUntilExpiry today (Document.expiryDate d)).
Proof. reflexivity. Qed.

Lemma preSave_expiryDate today d :
  Document.expiryDate (Document.preSave today d) = Document.expiryDate d.
Proof. reflexivity. Qed.

Lemma daysUntilExpiry_neg today expiry :
  Document.daysUntilExpiry today expiry < 0 <-> expiry <= today - msPerDay.
Proof.
  unfold Document.daysUntilExpiry.
  rewrite (ceilDiv_neg_iff _ _ msPerDay_pos). lia.
Qed.

Lemma daysUntilExpiry_le today expiry k :
  Document.daysUntilExpiry today expiry <= k <-> expiry <= today + k * msPerDay.
Proof.
  unfold Document.daysUntilExpiry.
  rewrite (ceilDiv_le_iff _ _ k msPerDay_pos). lia.
Qed.



(** The scenario of the specification: ten days ahead is 'expiring', one
    day back is 'expired', four hundred days ahead is 'valid'. *)
Example status_scenario :
  Document.statusOfDays
    (Document.daysUntilExpiry Sample.t0 (Sample.t0 + 10 * msPerDay))
  = Document.expiring
  /\ Document.statusOfDays
       (Document.daysUntilExpiry Sample.t0 (Sample.t0 - msPerDay))
     = Document.expired
  /\ Document.statusOfDays
       (Document.daysUntilExpiry Sample.t0 (Sample.t0 + 400 * msPerDay))
     = Document.valid.
Proof. repeat split. Qed.

End StatusFacts.

(* --------------------------------------------------------------------- *)
(** ** Queries by identifier                                             *)
(* --------------------------------------------------------------------- *)

Section ByIdFacts.
Context {A : Type} (idOf : A -> ObjectId).

Lemma findById_some id (l : list A) x :
  findById idOf id l = Some x -> idOf x = id /\ In x l.
Proof.
  unfold findById. intros H. apply find_some in H as [Hin Heq].
  apply String.eqb_eq in Heq. auto.
Qed.

Lemma findById_none id (l : list A) :
  findById idOf id l = None <-> forall x, In x l -> idOf x <> id.
Proof.
  unfold findById. split.
  - intros H x Hin Heq.
    pose proof (find_none _ _ H x Hin) as Hn. cbn in Hn.
    apply String.eqb_neq in Hn. contradiction.
  - intros H. induction l as [|y l IH]; [reflexivity|]. cbn.
    destruct (String.eqb_spec (idOf y) id) as [E|E].
    + exfalso. apply (H y); [now left|exact E].
    + apply IH. intros x Hx. apply H. now right.
Qed.

(** The record that [findById] returns is the one [updateById] changes. *)
Lemma findById_updateById id f (l : list A) x :
  findById idOf id l = Some x ->
  idOf (f x) = id ->
  findById idOf id (updateById idOf id f l) = Some (f x).
Proof.
  unfold findById. intros H Hf. induction l as [|y l IH]; [discriminate|].
  cbn in *. destruct (String.eqb_spec (idOf y) id) as [E|E].
  - injection H as ->. cbn. rewrite Hf, String.eqb_refl. reflexivity.
  - cbn. destruct (String.eqb_spec (idOf y) id); [contradiction|].
    apply IH, H.
Qed.

(** Records with another identifier are not touched. *)
Lemma findById_updateById_other id id' f (l : list A) :
  id' <> id ->
  (forall x, idOf (f x) = idOf x) ->
  findById idOf id' (updateById idOf id f l) = findById idOf id' l.
Proof.
  unfold findById. intros Hne Hf. induction l as [|y l IH]; [reflexivity|].
  cbn. destruct (String.eqb_spec (idOf y) id) as [E|E].
  - cbn. rewrite Hf.
    destruct (String.eqb_spec (idOf y) id'); [congruence|reflexivity].
  - cbn. destruct (String.eqb_spec (idOf y) id'); [reflexivity|exact IH].
Qed.

Lemma updateById_absent id f (l : list A) :
  findById idOf id l = None -> updateById idOf id f l = l.
Proof.
  unfold findById. induction l as [|y l IH]; [reflexivity|]. cbn.
  destruct (String.eqb (idOf y) id); [discriminate|].
  intros H. rewrite (IH H). reflexivity.
Qed.
End ByIdFacts.

Section WriteFacts.
Local Open Scope Z_scope.
Import JsDate.

Lemma preSave_statusAgrees today d :
  Spec.statusAgrees today (Document.preSave today d).
Proof.
  unfold Spec.statusAgrees. rewrite preSave_status, preSave_expiryDate.
  split; [apply statusOfDays_expired|].
  split; [apply statusOfDays_expiring|].
  split; [apply statusOfDays_valid|apply daysUntilExpiry_neg].
Qed.

Lemma create_inv newId now today b docs d docs' :
  Document.create newId now today b docs = Some (d, docs') ->
  exists d0, Document.construct newId now b = Some d0
             /\ d = Document.preSave today d0 /\ docs' = docs ++ [d].
Proof.
  unfold Document.create.
  destruct (Document.construct newId now b) as [d0|]; [|discriminate].
  intros [= <- <-]. eauto.
Qed.

Lemma construct_expiryDate newId now b d :
  Document.construct newId now b = Some d ->
  Document.i_expiryDate b = Some (Document.expiryDate d).
Proof.
  unfold Document.construct. intros H.
  repeat match type of H with
         | match ?x with _ => _ end = _ => destruct x; try discriminate
         | (if ?x then _ else _) = _ => destruct x; try discriminate
         end;
    injection H as <-; reflexivity.
Qed.

Lemma addDocument_inv reqUser newId now today body db resp db' :
  DocumentsController.addDocument reqUser newId now today body db = (resp, db') ->
  code resp = 201 ->
  exists d0,
    Document.construct newId now (Document.withUser reqUser body) = Some d0
    /\ resp = mkResponse 201 true (Some "Document added successfully"%string)
                (DocumentPayload (Document.preSave today d0))
    /\ db' = withDocuments (documents db ++ [Document.preSave today d0]) db.
Proof.
  unfold DocumentsController.addDocument, Document.create.
  destruct (Document.construct _ _ _) as [d0|].
  - intros [= <- <-] _. eauto.
  - intros [= <- <-]. discriminate.
Qed.

(** C2 (as amended).  Immediately after a create the stored status follows
    the hook's rule at the clock reading [today] of the write, whatever
    status the caller supplied: 'expired' iff the days until expiry are
    negative, that is iff [expiryDate <= today - 1 day]; 'expiring' iff
    they are between 0 and 30 (the hook's constant window); 'valid'
    otherwise.  The same holds for the record that [doc.save()] leaves in
    the store, expiry date kept and every other record untouched, and so
    for the document stored by a payment verification, the one handler
    that saves a loaded document. *)
Theorem status_after_save_paths :
  (forall reqUser newId now today body db resp db',
      DocumentsController.addDocument reqUser newId now today body db = (resp, db') ->
      code resp = 201 ->
      exists d, payload resp = DocumentPayload d
                /\ documents db' = documents db ++ [d]
                /\ Document.i_expiryDate body = Some (Document.expiryDate d)
                /\ Spec.statusAgrees today d)
  /\ (forall today d docs loaded,
         findById Document._id (Document._id d) docs = Some loaded ->
         let r := Document.save today d docs in
         findById Document._id (Document._id d) (snd r) = Some (fst r)
         /\ Spec.statusAgrees today (fst r)
         /\ Document.expiryDate (fst r) = Document.expiryDate d
         /\ (forall id', id' <> Document._id d ->
               findById Document._id id' (snd r)
               = findById Document._id id' docs))
  /\ (forall env reqUser newId now today body db d',
         let r := PaymentController.verifyPayment env reqUser newId now today
                    body db in
         payload (fst r) = DocumentPayload d' ->
         findById Document._id (Document._id d') (documents (snd r)) = Some d'
         /\ Spec.statusAgrees today d').
Proof.
  split; [|split].
  - intros reqUser newId now today body db resp db' H Hc.
    destruct (addDocument_inv _ _ _ _ _ _ _ _ H Hc) as (d0 & Hd0 & -> & ->).
    exists (Document.preSave today d0).
    split; [reflexivity|]. split; [reflexivity|].
    split; [|apply preSave_statusAgrees].
    apply construct_expiryDate in Hd0. exact Hd0.
  - intros today d docs loaded Hfind. cbv zeta.
    unfold Document.save. cbn [fst snd].
    split.
    { apply (findById_updateById Document._id (Document._id d)
               (fun _ => Document.preSave today d) docs loaded Hfind).
      reflexivity. }
    split; [apply preSave_statusAgrees|].
    split; [apply preSave_expiryDate|].
    intros id' Hne. unfold findById.
    induction docs as [|y docs IH]; [reflexivity|].
    cbn [updateById]. unfold findById in Hfind. cbn [List.find] in Hfind |- *.
    destruct (String.eqb_spec (Document._id y) (Document._id d)) as [E|E].
    + cbn [List.find Document.preSave Document.setStatus Document._id].
      rewrite E.
      destruct (String.eqb_spec (Document._id d) id'); [congruence|reflexivity].
    + cbn [List.find].
      destruct (String.eqb_spec (Document._id y) id'); [reflexivity|].
      apply IH, Hfind.
  - intros env reqUser newId now today body db d'. cbv zeta.
    unfold PaymentController.verifyPayment, PaymentController.verificationFailed,
      Document.save.
    repeat match goal with
           | |- context [match ?x with _ => _ end] => destruct x eqn:?
           end;
      cbn [fst snd payload fail]; try discriminate.
    intros [= <-].
    split; [|apply preSave_statusAgrees].
    cbn [documents withDocuments Document.preSave Document.setStatus
         Document.setExpiryDate Document._id].
    match goal with
    | H : findById Document._id ?i ?l = Some ?doc
      |- context [updateById _ _ ?f _] =>
        pose proof (proj1 (findById_some Document._id i l doc H)) as Hid;
        rewrite Hid;
        apply (findById_updateById Document._id i f l doc H); exact Hid
    end.
Qed.

(** Creating a licence that lapsed five days ago, with status 'valid'
    supplied by the caller, stores it as 'expired'; a renewal paid on
    2026-01-01 leaves it stored as 'valid', as the hook has it at that
    time. *)
Lemma status_after_save_paths_witness :
  let r := DocumentsController.addDocument Sample.alice Sample.docId Sample.t0
             Sample.t0
             (Sample.licenceInput (Sample.t0 - 5 * msPerDay) (Some "valid"%string))
             Sample.emptyDB in
  let paid := PaymentController.verifyPayment Sample.env Sample.alice
                Sample.payId Sample.t0 Sample.t0 Sample.renewal
                Sample.licenceDB in
  code (fst r) = 201
  /\ (exists d, payload (fst r) = DocumentPayload d
                /\ documents (snd r) = [d]
                /\ Document.status d = Document.expired)
  /\ (exists d', findById Document._id Sample.docId (documents (snd paid))
                 = Some d'
                 /\ Spec.statusAgrees Sample.t0 d'
                 /\ Document.status d' = Document.valid).
Proof.
  intros r paid.
  destruct status_after_save_paths as (Hcreate & _ & Hpaid).
  assert (Hc : code (fst r) = 201) by reflexivity.
  split; [exact Hc|]. split.
  - destruct (Hcreate _ _ _ _ _ _ (fst r) (snd r) (surjective_pairing r) Hc)
      as (d & Hp & Hd & He & Hs).
    exists d. split; [exact Hp|]. split; [exact Hd|].
    apply (proj1 Hs).
    injection He as He. apply daysUntilExpiry_neg. rewrite <- He.
    unfold Sample.t0, msPerDay. lia.
  - assert (Hpl : exists d', payload (fst paid) = DocumentPayload d'
                             /\ Document._id d' = Sample.docId
                             /\ Document.status d' = Document.valid)
      by (vm_compute; eexists; repeat split).
    destruct Hpl as (d' & Hpl & Hid & Hst).
    destruct (Hpaid Sample.env Sample.alice Sample.payId Sample.t0 Sample.t0
                Sample.renewal Sample.licenceDB d' Hpl) as [Hf Hs].
    exists d'. rewrite <- Hid. split; [exact Hf|]. split; [exact Hs|exact Hst].
Defined.

(** C2, counterexamples.  A document created one millisecond after its
    expiry date is stored as 'expiring', not 'expired': the claim's
    "expired iff expiryDate < now" fails.  And the window is not the
    configured one: with EXPIRY_SOON_DAYS set to 7, a document created ten
    days before its expiry date is stored as 'expiring', against the
    claim's "expiring iff 0 <= days <= soonWindow"; the hook reads no
    setting. *)
Lemma status_expired_iff_past_counterexample :
  (let now := Sample.t0 in
   let r := DocumentsController.addDocument Sample.alice Sample.docId now now
              (Sample.licenceInput (now - 1) None) Sample.emptyDB in
   code (fst r) = 201
   /\ exists d, documents (snd r) = [d]
                /\ ~ (Document.status d = Document.expired
                      <-> Document.expiryDate d < now))
  /\ (let now := Sample.t0 in
      let soonWindow := 7 in
      let r := DocumentsController.addDocument Sample.alice Sample.docId now now
                 (Sample.licenceInput (now + 10 * msPerDay) None)
                 Sample.emptyDB in
      Notifier.soonDays (Some "7"%string) = Some soonWindow
      /\ code (fst r) = 201
      /\ exists d, documents (snd r) = [d]
                   /\ Document.daysUntilExpiry now (Document.expiryDate d) = 10
                   /\ ~ (Document.status d = Document.expiring
                         <-> 0 <= Document.daysUntilExpiry now
                                    (Document.expiryDate d) <= soonWindow)).
Proof.
  split.
  - cbv zeta. split; [reflexivity|].
    eexists. split; [reflexivity|].
    intros [_ H]. cbn in H. specialize (H ltac:(reflexivity)). discriminate H.
  - cbv zeta. split; [reflexivity|]. split; [reflexivity|].
    eexists. split; [reflexivity|]. split; [reflexivity|].
    intros [H _]. specialize (H ltac:(reflexivity)).
    change (Document.daysUntilExpiry Sample.t0 _) with 10 in H. lia.
Qed.

(** C1, the defect.  [PUT /documents/:id] goes through
    [findByIdAndUpdate], which does not run the pre-save hook: the owner of
    a licence that lapsed five days ago sends [{ status: "valid" }] and the
    stored status becomes 'valid', although the hook's rule gives
    'expired' for the stored expiry date at any later time. *)
Theorem updateDocument_keeps_supplied_status :
  let body := Document.mkInput None None None None None None
                               (Some "valid"%string) None in
  let r := DocumentsController.updateDocument Sample.alice Sample.docId body
             Sample.licenceDB in
  code (fst r) = 200
  /\ exists d, documents (snd r) = [d]
               /\ payload (fst r) = DocumentPayload d
               /\ Document.expiryDate d = Sample.t0 - 5 * msPerDay
               /\ Document.status d = Document.valid
               /\ forall today, Sample.t0 <= today ->
                    Document.status (Document.preSave today d) = Document.expired.
Proof.
  cbv zeta. split; [reflexivity|].
  eexists. repeat split.
  intros today Ht. rewrite preSave_status. apply statusOfDays_expired.
  apply daysUntilExpiry_neg.
  cbn [Document.expiryDate Document.applyUpdate Document.i_expiryDate
       Sample.lapsedLicence].
  unfold Sample.t0, msPerDay in *. lia.
Qed.

(** The same path leaves a stale status behind when only the expiry date
    is changed: moving the lapsed licence's expiry a year ahead keeps
    'expired'. *)
Example updateDocument_stale_status :
  let body := Document.mkInput None None None None None
                               (Some (Sample.t0 + 365 * msPerDay)) None None in
  let r := DocumentsController.updateDocument Sample.alice Sample.docId body
             Sample.licenceDB in
  code (fst r) = 200
  /\ option_map Document.status
       (findById Document._id Sample.docId (documents (snd r)))
     = Some Document.expired.
Proof. split; reflexivity. Qed.

(** In general: on the PUT path any status of the enum that the owner
    supplies is what gets stored, whatever the expiry date. *)
Lemma updateDocument_supplied_status_survives reqUser id body db d s st :
  findById Document._id id (documents db) = Some d ->
  Document.user d = reqUser ->
  Document.validString (Document.i_country body) = true ->
  Document.validString (Document.i_type body) = true ->
  Document.validString (Document.i_number body) = true ->
  Document.i_status body = Some s ->
  Document.parseStatus s = Some st ->
  let r := DocumentsController.updateDocument reqUser id body db in
  code (fst r) = 200
  /\ exists d', findById Document._id id (documents (snd r)) = Some d'
                /\ Document.status d' = st.
Proof.
  intros Hfind Hu Hc Ht Hn Hs Hp r. subst r.
  unfold DocumentsController.updateDocument, Document.findByIdAndUpdate.
  rewrite Hfind, Hu, String.eqb_refl, Hc, Ht, Hn, Hs, Hp. cbn.
  split; [reflexivity|].
  exists (Document.applyUpdate body (Some st) d). split; [|reflexivity].
  apply findById_updateById; [exact Hfind|].
  apply (findById_some Document._id) in Hfind. apply Hfind.
Qed.

End WriteFacts.


(* --------------------------------------------------------------------- *)
(** ** Payment verification                                              *)
(* --------------------------------------------------------------------- *)

Section PaymentFacts.
Local Open Scope Z_scope.
Import JsDate PaymentController.

Lemma gatewayConfirms_inv env ref :
  Spec.gatewayConfirms env ref = true ->
  exists k data,
    PAYSTACK_SECRET_KEY env = Some k /\ nonEmpty k = true
    /\ paystack env ref = GatewayData data
    /\ String.eqb (g_status data) "success" = true.
Proof.
  unfold Spec.gatewayConfirms.
  destruct (PAYSTACK_SECRET_KEY env) as [k|]; [|discriminate].
  destruct (nonEmpty k) eqn:Hk; [|discriminate].
  destruct (paystack env ref) as [|data]; [discriminate|].
  cbn. intros H. exists k, data. auto.
Qed.

(** A verify request never changes anything once its reference is on
    record, whatever the gateway answers. *)
Lemma verifyPayment_recorded_no_write env reqUser newId now today body db :
  recorded (reference body) (payments db) = true ->
  snd (verifyPayment env reqUser newId now today body db) = db.
Proof.
  intros Hrec. unfold verifyPayment.
  destruct (PAYSTACK_SECRET_KEY env) as [k|]; [|reflexivity].
  destruct (nonEmpty k); [|reflexivity]. cbn [negb].
  destruct (paystack env (reference body)) as [|data]; [reflexivity|].
  destruct (String.eqb (g_status data) "success"); [|reflexivity].
  cbn [negb]. rewrite Hrec. reflexivity.
Qed.

Lemma verifyPayment_replay env reqUser newId now today body db :
  recorded (reference body) (payments db) = true ->
  Spec.gatewayConfirms env (reference body) = true ->
  verifyPayment env reqUser newId now today body db
  = (Spec.alreadyProcessed, db).
Proof.
  intros Hrec Hg.
  destruct (gatewayConfirms_inv _ _ Hg) as (k & data & Hk & Hne & Hp & Hs).
  unfold verifyPayment. rewrite Hk, Hne, Hp, Hs. cbn [negb].
  rewrite Hrec. reflexivity.
Qed.

Lemma recorded_app ref ps p :
  Payment.paystackReference p = ref -> recorded ref (ps ++ [p]) = true.
Proof.
  intros <-. unfold recorded. rewrite existsb_app. cbn.
  rewrite String.eqb_refl. apply orb_true_iff. right. reflexivity.
Qed.

(** What a first verification does up to the document lookup: the payment
    is on record before the document is searched. *)
Lemma verifyPayment_first env reqUser newId now today body db docId :
  Spec.gatewayConfirms env (reference body) = true ->
  recorded (reference body) (payments db) = false ->
  reference body <> ""%string ->
  documentId body = Some docId ->
  exists data payment,
    paystack env (reference body) = GatewayData data
    /\ payment = Payment.mk newId reqUser docId "renewal" (g_amount data)
                   (g_currency data) (reference body) (g_id data)
                   Payment.success now
    /\ verifyPayment env reqUser newId now today body db
       = let db1 := withPayments (payments db ++ [payment]) db in
         match findById Document._id docId (documents db) with
         | None => (fail 404 "Document not found", db1)
         | Some document =>
             match (if Document.expiryDate document <? now
                    then plusOneYear (zone env) now
                    else plusOneYear (zone env) (Document.expiryDate document))
             with
             | None => (verificationFailed, db1)
             | Some newDate =>
                 let saved :=
                   Document.save today
                     (Document.setStatus Document.valid
                        (Document.setExpiryDate newDate document))
                     (documents db) in
                 (mkResponse 200 true None (DocumentPayload (fst saved)),
                  withDocuments (snd saved) db1)
             end
         end.
Proof.
  intros Hg Hrec Href Hdoc.
  destruct (gatewayConfirms_inv _ _ Hg) as (k & data & Hk & Hne & Hp & Hs).
  exists data. eexists. split; [exact Hp|]. split; [reflexivity|].
  unfold verifyPayment. rewrite Hk, Hne, Hp, Hs. cbn [negb]. rewrite Hrec.
  unfold createPayment. rewrite Hdoc.
  assert (Hn : nonEmpty (reference body) = true).
  { unfold nonEmpty. apply negb_true_iff. apply String.eqb_neq. exact Href. }
  rewrite Hn. cbn [Payment.document withPayments documents].
  destruct (findById Document._id docId (documents db)) as [document|];
    [|reflexivity].
  cbv zeta.
  destruct (if Document.expiryDate document <? now then _ else _);
    reflexivity.
Qed.

(** C4.  Verification is idempotent in the reference: once a reference is
    on record, a further verify request with it writes nothing (the target
    document's expiry date and status stay as they are), and it is
    answered with the success response 'Already processed' whenever the
    gateway confirms the reference, as it did for the request that
    recorded it. *)
Theorem verify_replay_is_idempotent env reqUser newId now today body db :
  recorded (reference body) (payments db) = true ->
  snd (verifyPayment env reqUser newId now today body db) = db
  /\ (Spec.gatewayConfirms env (reference body) = true ->
      fst (verifyPayment env reqUser newId now today body db)
      = mkResponse 200 true (Some "Already processed"%string) NoPayload).
Proof.
  intros Hrec. split.
  - apply verifyPayment_recorded_no_write, Hrec.
  - intros Hg. rewrite (verifyPayment_replay _ _ _ _ _ _ _ Hrec Hg).
    reflexivity.
Qed.

End PaymentFacts.

Section PaymentClaims.
Local Open Scope Z_scope.
Import JsDate PaymentController.

(** Alice renews her lapsed licence; Bob replays the reference a second
    later: nothing changes and he is told 'Already processed'. *)
Lemma verify_replay_is_idempotent_witness :
  let db1 := snd (verifyPayment Sample.env Sample.alice Sample.payId
                    Sample.t0 Sample.t0 Sample.renewal Sample.licenceDB) in
  let r := verifyPayment Sample.env Sample.bob Sample.otherId
             (Sample.t0 + 1000) (Sample.t0 + 1000) Sample.renewal db1 in
  recorded "ref_001" (payments db1) = true
  /\ Spec.gatewayConfirms Sample.env "ref_001" = true
  /\ snd r = db1
  /\ fst r = mkResponse 200 true (Some "Already processed"%string) NoPayload.
Proof.
  intros db1 r.
  assert (Hrec : recorded (reference Sample.renewal) (payments db1) = true)
    by (vm_compute; reflexivity).
  assert (Hg : Spec.gatewayConfirms Sample.env (reference Sample.renewal) = true)
    by (vm_compute; reflexivity).
  split; [exact Hrec|]. split; [exact Hg|].
  destruct (verify_replay_is_idempotent Sample.env Sample.bob Sample.otherId
              (Sample.t0 + 1000) (Sample.t0 + 1000) Sample.renewal db1 Hrec)
    as [Hs Hr].
  split; [exact Hs|exact (Hr Hg)].
Defined.

(** C5.  On the first successful verification of a reference the payment
    is recorded and the target document's expiry date moves forward by one
    calendar year of the host's local time
    ([setFullYear(getFullYear() + 1)]): the local time written is the same
    time of day 365 or 366 days later, in the next calendar year, counted
    from [now] when the old expiry date is already past and from the old
    expiry date otherwise, and it is read back with the zone's offset at
    that local time.  So the step is 365 or 366 days exactly when that
    offset is the one in force at the start, and differs from it by the
    change of offset (one hour, with daylight saving) otherwise.  The
    document is then stored with status 'valid'.  Dates are taken within
    the range of JavaScript time values, local time within a day of UTC,
    and the pre-save hook's clock [today] less than 333 days after the
    handler's [now]. *)
Theorem first_verification_extends_one_year
    env reqUser newId now today body db docId document :
  Spec.gatewayConfirms env (reference body) = true ->
  recorded (reference body) (payments db) = false ->
  reference body <> ""%string ->
  documentId body = Some docId ->
  findById Document._id docId (documents db) = Some document ->
  Spec.boundedZone (zone env) ->
  Z.abs now + 368 * msPerDay <= maxTime ->
  Z.abs (Document.expiryDate document) + 368 * msPerDay <= maxTime ->
  today - now < 333 * msPerDay ->
  let base := if Document.expiryDate document <? now then now
              else Document.expiryDate document in
  let local := LocalTime (zone env) base in
  let r := verifyPayment env reqUser newId now today body db in
  exists payment newDate document',
    fst r = mkResponse 200 true None (DocumentPayload document')
    /\ payments (snd r) = payments db ++ [payment]
    /\ Payment.paystackReference payment = reference body
    /\ Payment.document payment = docId
    /\ Payment.user payment = reqUser
    /\ findById Document._id docId (documents (snd r)) = Some document'
    /\ Document.expiryDate document' = newDate
    /\ plusOneYear (zone env) base = Some newDate
    /\ newDate = UTC (zone env) (Spec.nextYear local)
    /\ (Spec.nextYear local - local = 365 * msPerDay
        \/ Spec.nextYear local - local = 366 * msPerDay)
    /\ YearFromTime (Spec.nextYear local) = YearFromTime local + 1
    /\ TimeWithinDay (Spec.nextYear local) = TimeWithinDay local
    /\ (exists k, (k = 365 \/ k = 366)
                  /\ newDate - base
                     = k * msPerDay + offsetAt (zone env) base
                       - offsetOfLocal (zone env) (Spec.nextYear local))
    /\ (offsetAt (zone env) newDate
        = offsetOfLocal (zone env) (Spec.nextYear local) ->
        getFullYear (zone env) newDate = getFullYear (zone env) base + 1)
    /\ Document.status document' = Document.valid
    /\ Document._id document' = Document._id document
    /\ Document.user document' = Document.user document.
Proof.
  intros Hg Hrec Href Hdoc Hfind Hzone Hnow Hold Htoday base local r.
  destruct (verifyPayment_first env reqUser newId now today body db docId
              Hg Hrec Href Hdoc) as (data & payment & Hp & Hpay & Hv).
  rewrite Hfind in Hv. cbv zeta in Hv.
  assert (Hbase : exists newDate, plusOneYear (zone env) base = Some newDate).
  { apply plusOneYear_in_range; [exact Hzone|]. unfold base.
    destruct (Document.expiryDate document <? now); assumption. }
  destruct Hbase as [newDate HnewDate].
  assert (Hsel : (if Document.expiryDate document <? now
                  then plusOneYear (zone env) now
                  else plusOneYear (zone env) (Document.expiryDate document))
                 = Some newDate).
  { unfold base in HnewDate.
    destruct (Document.expiryDate document <? now); exact HnewDate. }
  rewrite Hsel in Hv.
  pose proof (plusOneYear_days _ _ _ HnewDate) as Hdays.
  pose proof (plusOneYear_year _ _ _ HnewDate) as Hyear.
  pose proof (plusOneYear_some _ _ _ HnewDate) as Hutc.
  set (document' := Document.preSave today
                      (Document.setStatus Document.valid
                         (Document.setExpiryDate newDate document))).
  exists payment, newDate, document'.
  subst r. rewrite Hv. cbn [fst snd].
  split; [reflexivity|]. split; [reflexivity|].
  split; [subst payment; reflexivity|]. split; [subst payment; reflexivity|].
  split; [subst payment; reflexivity|].
  split.
  { cbn [documents withDocuments withPayments Document.save snd].
    destruct (findById_some _ _ _ _ Hfind) as [Hid _].
    cbn [Document._id Document.setStatus Document.setExpiryDate].
    rewrite Hid.
    apply (findById_updateById Document._id docId (fun _ => document')
             (documents db) document Hfind).
    exact Hid. }
  split; [reflexivity|]. split; [exact HnewDate|].
  split; [exact Hutc|].
  split; [apply nextYear_days|]. split; [apply nextYear_year|].
  split; [apply nextYear_time|].
  split; [exact Hdays|]. split; [exact Hyear|].
  split; [|split; reflexivity].
  unfold document'. rewrite preSave_status.
  apply statusOfDays_valid.
  cbn [Document.expiryDate Document.setStatus Document.setExpiryDate].
  assert (Hb : now <= base).
  { unfold base. destruct (Z.ltb_spec (Document.expiryDate document) now); lia. }
  pose proof (daysUntilExpiry_le today newDate 30) as Hle.
  destruct Hdays as (k & Hk & Hdays).
  pose proof (Hzone base) as [Ha _].
  pose proof (Hzone (Spec.nextYear (LocalTime (zone env) base))) as [_ Hc].
  unfold msPerDay in *. lia.
Qed.

(** A licence that runs out at noon of 10 March 2026 in New York, renewed
    on a New York host on 1 January 2026, is valid until noon of 10 March
    2027 there, which is 365 days and one hour later: daylight saving has
    begun on the first date and not yet on the second. *)
Lemma first_verification_extends_one_year_witness :
  let r := verifyPayment Sample.newYorkEnv Sample.alice Sample.payId
             Sample.t0 (Sample.t0 + 20) Sample.renewal Sample.marchDB in
  exists document',
    fst r = mkResponse 200 true None (DocumentPayload document')
    /\ findById Document._id Sample.docId (documents (snd r)) = Some document'
    /\ Document.expiryDate document' = 1804698000000
    /\ Document.expiryDate document'
       = Document.expiryDate Sample.marchLicence + 365 * msPerDay + 3600000
    /\ Document.status document' = Document.valid
    /\ recorded "ref_001" (payments (snd r)) = true.
Proof.
  intros r.
  assert (H1 : Spec.gatewayConfirms Sample.newYorkEnv
                 (reference Sample.renewal) = true) by reflexivity.
  assert (H2 : recorded (reference Sample.renewal) (payments Sample.marchDB)
               = false) by reflexivity.
  assert (H3 : reference Sample.renewal <> ""%string) by discriminate.
  assert (H4 : documentId Sample.renewal = Some Sample.docId) by reflexivity.
  assert (H5 : findById Document._id Sample.docId (documents Sample.marchDB)
               = Some Sample.marchLicence) by reflexivity.
  assert (Hz : Spec.boundedZone (zone Sample.newYorkEnv)).
  { intros t. cbn [zone Sample.newYorkEnv Sample.newYork offsetAt
                   offsetOfLocal].
    split; match goal with |- context [if ?c then _ else _] => destruct c end;
      vm_compute; discriminate. }
  assert (H6 : Z.abs Sample.t0 + 368 * msPerDay <= maxTime)
    by (vm_compute; discriminate).
  assert (H7 : Z.abs (Document.expiryDate Sample.marchLicence)
               + 368 * msPerDay <= maxTime) by (vm_compute; discriminate).
  assert (H8 : Sample.t0 + 20 - Sample.t0 < 333 * msPerDay) by reflexivity.
  destruct (first_verification_extends_one_year Sample.newYorkEnv Sample.alice
              Sample.payId Sample.t0 (Sample.t0 + 20) Sample.renewal
              Sample.marchDB Sample.docId Sample.marchLicence
              H1 H2 H3 H4 H5 Hz H6 H7 H8)
    as (payment & newDate & document' & Hr & Hpay & Href & _ & _ & Hf & He
        & Hplus & _ & _ & _ & _ & _ & _ & Hst & _).
  exists document'. fold r in Hr, Hf, Hpay.
  assert (Hn : newDate = 1804698000000).
  { vm_compute in Hplus. injection Hplus as <-. reflexivity. }
  split; [exact Hr|]. split; [exact Hf|].
  split; [rewrite He; exact Hn|].
  split; [rewrite He, Hn; reflexivity|].
  split; [exact Hst|].
  rewrite Hpay. apply recorded_app. exact Href.
Defined.

(** The scenario of the specification on a UTC host: a licence that lapsed
    five days ago, renewed on 2026-01-01, is valid until 2027-01-01. *)
Example first_verification_scenario :
  let r := verifyPayment Sample.env Sample.alice Sample.payId
             Sample.t0 (Sample.t0 + 20) Sample.renewal Sample.licenceDB in
  List.map Document.expiryDate (documents (snd r))
  = [Sample.t0 + 365 * msPerDay]
  /\ List.map Document.status (documents (snd r)) = [Document.valid]
  /\ recorded "ref_001" (payments (snd r)) = true.
Proof. vm_compute. repeat split. Qed.

(** C10.  The payment is persisted before the document is looked up: a
    first verify request whose reference the gateway confirms but whose
    [documentId] names no stored document is answered 404 'Document not
    found' with the payment already on record and no document touched;
    every later verify request with that reference (which the gateway then
    confirms again) is answered 'Already processed' and writes nothing, so
    the extension is never applied. *)
Theorem payment_recorded_before_lookup
    env reqUser newId now today body db docId :
  Spec.gatewayConfirms env (reference body) = true ->
  recorded (reference body) (payments db) = false ->
  reference body <> ""%string ->
  documentId body = Some docId ->
  findById Document._id docId (documents db) = None ->
  exists payment,
    let db1 := withPayments (payments db ++ [payment]) db in
    verifyPayment env reqUser newId now today body db
    = (fail 404 "Document not found", db1)
    /\ Payment.paystackReference payment = reference body
    /\ documents db1 = documents db
    /\ forall rqs : list Spec.VerifyRequest,
         Forall (fun rq =>
                   reference (Spec.rq_body rq) = reference body
                   /\ Spec.gatewayConfirms (Spec.rq_env rq) (reference body) = true)
                rqs ->
         Spec.serveAll rqs db1
         = (List.map (fun _ => Spec.alreadyProcessed) rqs, db1).
Proof.
  intros Hg Hrec Href Hdoc Hfind.
  destruct (verifyPayment_first env reqUser newId now today body db docId
              Hg Hrec Href Hdoc) as (data & payment & Hp & Hpay & Hv).
  rewrite Hfind in Hv. cbv zeta in Hv.
  exists payment. cbv zeta.
  split; [exact Hv|]. split; [subst payment; reflexivity|].
  split; [reflexivity|].
  intros rqs Hall. induction Hall as [|rq rqs [Hr Hc] _ IH]; [reflexivity|].
  cbn [Spec.serveAll List.map]. unfold Spec.serve.
  rewrite verifyPayment_replay.
  - rewrite IH. reflexivity.
  - rewrite Hr. cbn [payments withPayments]. apply recorded_app.
    subst payment. reflexivity.
  - rewrite Hr. exact Hc.
Qed.

(** Alice pays for a document that does not exist; whoever verifies the
    reference afterwards, even for her real licence, is told 'Already
    processed' and the licence stays lapsed. *)
Lemma payment_recorded_before_lookup_witness :
  let r := verifyPayment Sample.env Sample.alice Sample.payId Sample.t0
             Sample.t0 Sample.renewalOfUnknown Sample.licenceDB in
  let later := [Spec.mkVerifyRequest Sample.env Sample.alice Sample.otherId
                  (Sample.t0 + 5000) (Sample.t0 + 5000) Sample.renewal] in
  fst r = fail 404 "Document not found"
  /\ recorded "ref_001" (payments (snd r)) = true
  /\ Spec.serveAll later (snd r) = ([Spec.alreadyProcessed], snd r)
  /\ documents (snd (Spec.serveAll later (snd r))) = [Sample.lapsedLicence].
Proof.
  intros r later.
  assert (H1 : Spec.gatewayConfirms Sample.env
                 (reference Sample.renewalOfUnknown) = true) by reflexivity.
  assert (H2 : recorded (reference Sample.renewalOfUnknown)
                 (payments Sample.licenceDB) = false) by reflexivity.
  assert (H3 : reference Sample.renewalOfUnknown <> ""%string) by discriminate.
  assert (H4 : documentId Sample.renewalOfUnknown = Some Sample.otherId)
    by reflexivity.
  assert (H5 : findById Document._id Sample.otherId
                 (documents Sample.licenceDB) = None) by reflexivity.
  destruct (payment_recorded_before_lookup Sample.env Sample.alice
              Sample.payId Sample.t0 Sample.t0 Sample.renewalOfUnknown
              Sample.licenceDB Sample.otherId H1 H2 H3 H4 H5)
    as (payment & Hv & Href & Hdocs & Hlater).
  cbv zeta in Hv. fold r in Hv.
  assert (Hs : Spec.serveAll later (snd r) = ([Spec.alreadyProcessed], snd r)).
  { rewrite Hv. cbn [snd]. apply (Hlater later).
    constructor; [split; reflexivity|constructor]. }
  split; [rewrite Hv; reflexivity|].
  split; [rewrite Hv; cbn [snd payments withPayments];
          apply recorded_app; exact Href|].
  split; [exact Hs|].
  rewrite Hs, Hv. reflexivity.
Defined.

End PaymentClaims.

(* --------------------------------------------------------------------- *)
(** ** The notification scan                                             *)
(* --------------------------------------------------------------------- *)

Section ScanFacts.
Local Open Scope Z_scope.
Import Notifier.

Variable webpush : nat -> Notification -> bool.
Variable toLocaleDateString : Z -> string.

(** One delivery, inside its own [try]/[catch], never throws. *)
Lemma guarded_send n log :
  tryCatch (sendNotification webpush n) (ret tt) log
  = (Ok tt, log ++ [(n, webpush (length log) n)]).
Proof.
  unfold tryCatch, sendNotification, ret.
  destruct (webpush (length log) n); reflexivity.
Qed.

Lemma forSubscriptions_log msg subs log :
  exists log',
    forSubscriptions webpush msg subs log = (Ok tt, log')
    /\ List.map fst log'
       = List.map fst log
         ++ List.map (fun sub => mkNotification (User.endpoint sub)
                                   (User.keys sub) (fst msg) (snd msg)) subs.
Proof.
  revert log. induction subs as [|sub rest IH]; intros log.
  - exists log. split; [reflexivity|]. cbn. rewrite app_nil_r. reflexivity.
  - cbn [forSubscriptions]. unfold bind. rewrite guarded_send.
    destruct (IH (log ++ [(mkNotification (User.endpoint sub) (User.keys sub)
                             (fst msg) (snd msg),
                           webpush (length log)
                             (mkNotification (User.endpoint sub)
                                (User.keys sub) (fst msg) (snd msg)))]))
      as (log' & Hrun & Hlog).
    exists log'. split; [exact Hrun|].
    rewrite Hlog, map_app. cbn. rewrite <- app_assoc. reflexivity.
Qed.

Lemma cacheSound_empty users : Spec.cacheSound users ∅.
Proof. intros uid l H. rewrite lookup_empty in H. discriminate. Qed.

Lemma forDocuments_log message users docs usersMap log :
  Spec.cacheSound users usersMap ->
  exists usersMap' log',
    forDocuments webpush message users docs usersMap log = (Ok usersMap', log')
    /\ Spec.cacheSound users usersMap'
    /\ List.map fst log'
       = List.map fst log ++ flat_map (Spec.notificationsFor message users) docs.
Proof.
  revert usersMap log. induction docs as [|doc rest IH]; intros usersMap log Hc.
  - exists usersMap, log. split; [reflexivity|]. split; [exact Hc|].
    cbn. rewrite app_nil_r. reflexivity.
  - cbn [forDocuments flat_map]. cbv zeta.
    set (uid := Document.user doc).
    set (usersMap1 := match usersMap !! uid with
                      | Some _ => usersMap
                      | None => <[uid := enabledSubscriptions users uid]> usersMap
                      end).
    assert (Hc1 : Spec.cacheSound users usersMap1).
    { unfold usersMap1. destruct (usersMap !! uid) eqn:E; [exact Hc|].
      intros uid' l Hl. destruct (decide (uid = uid')) as [<-|Hne].
      - rewrite lookup_insert_eq in Hl. congruence.
      - rewrite lookup_insert_ne in Hl by exact Hne. apply (Hc _ _ Hl). }
    assert (Hget : match usersMap1 !! uid with Some l => l | None => [] end
                   = enabledSubscriptions users uid).
    { unfold usersMap1. destruct (usersMap !! uid) as [l|] eqn:E.
      - rewrite E. apply (Hc _ _ E).
      - rewrite lookup_insert_eq. reflexivity. }
    rewrite Hget. unfold bind at 1.
    destruct (forSubscriptions_log (message doc)
                (enabledSubscriptions users uid) log) as (log1 & Hrun1 & Hlog1).
    rewrite Hrun1.
    destruct (IH usersMap1 log1 Hc1) as (usersMap' & log' & Hrun & Hc' & Hlog).
    exists usersMap', log'. split; [exact Hrun|]. split; [exact Hc'|].
    rewrite Hlog, Hlog1, <- app_assoc. reflexivity.
Qed.

Lemma soonThreshold_inv envDays nowMs th :
  soonThreshold envDays nowMs = Some th ->
  exists days, soonDays envDays = Some days
               /\ th = nowMs + days * JsDate.msPerDay.
Proof.
  unfold soonThreshold, JsDate.TimeClip.
  destruct (soonDays envDays) as [days|]; [|discriminate].
  destruct (_ <=? JsDate.maxTime); [|discriminate].
  intros [= <-]. exists days. split; [reflexivity|].
  unfold JsDate.msPerDay. lia.
Qed.

(** The whole scan: it completes, and the calls made to the push service
    are the owed ones, whatever the service answers. *)
Lemma notifyExpiredDocuments_log envDays now nowMs db th :
  soonThreshold envDays nowMs = Some th ->
  exists log,
    notifyExpiredDocuments webpush toLocaleDateString envDays now nowMs db []
    = (Ok tt, log)
    /\ List.map fst log = Spec.owedNotifications toLocaleDateString now th db.
Proof.
  intros Hth. unfold notifyExpiredDocuments, tryCatch. rewrite Hth.
  unfold bind at 1.
  destruct (forDocuments_log expiredMessage (users db)
              (expiredDocs now (documents db)) ∅ [] (cacheSound_empty _))
    as (usersMap1 & log1 & Hrun1 & Hc1 & Hlog1).
  rewrite Hrun1. unfold bind at 1.
  destruct (forDocuments_log (soonMessage toLocaleDateString) (users db)
              (expiringSoonDocs now th (documents db)) usersMap1 log1 Hc1)
    as (usersMap2 & log2 & Hrun2 & Hc2 & Hlog2).
  rewrite Hrun2. unfold ret. exists log2. split; [reflexivity|].
  rewrite Hlog2, Hlog1. reflexivity.
Qed.

End ScanFacts.

Section ScanClaims.
Local Open Scope Z_scope.
Import Notifier.

(** C6.  In one scan pass (with a usable soon window) the documents
    notified as 'expired' are exactly those whose expiry date is at or
    before [now], the documents notified as 'expiring soon' exactly those
    with [now < expiryDate <= Date.now() + soonDays days], where
    [soonDays] comes from EXPIRY_SOON_DAYS and is 30 when that is unset;
    no document is in both sets; and whatever the push service answers,
    failures included, the scan completes and has made every owed delivery
    attempt: one per selected document and enabled subscription of its
    owner. *)
Theorem scan_selects_and_isolates
    (webpush : nat -> Notification -> bool) (toLocaleDateString : Z -> string)
    (envDays : option string) (now nowMs : Z) (db : DB) (th : Z) :
  soonThreshold envDays nowMs = Some th ->
  (forall d, In d (expiredDocs now (documents db))
             <-> In d (documents db) /\ Document.expiryDate d <= now)
  /\ (forall d, In d (expiringSoonDocs now th (documents db))
                <-> In d (documents db) /\ now < Document.expiryDate d <= th)
  /\ (exists days, soonDays envDays = Some days
                   /\ th = nowMs + days * JsDate.msPerDay)
  /\ soonDays None = Some 30
  /\ (forall d, ~ (In d (expiredDocs now (documents db))
                   /\ In d (expiringSoonDocs now th (documents db))))
  /\ exists log,
       notifyExpiredDocuments webpush toLocaleDateString envDays now nowMs db []
       = (Ok tt, log)
       /\ List.map fst log
          = Spec.owedNotifications toLocaleDateString now th db.
Proof.
  intros Hth.
  assert (He : forall d, In d (expiredDocs now (documents db))
                         <-> In d (documents db) /\ Document.expiryDate d <= now).
  { intros d. unfold expiredDocs. rewrite filter_In, Z.leb_le. reflexivity. }
  assert (Hs : forall d, In d (expiringSoonDocs now th (documents db))
                         <-> In d (documents db)
                             /\ now < Document.expiryDate d <= th).
  { intros d. unfold expiringSoonDocs.
    rewrite filter_In, andb_true_iff, Z.ltb_lt, Z.leb_le. reflexivity. }
  split; [exact He|]. split; [exact Hs|].
  split; [apply soonThreshold_inv, Hth|].
  split; [reflexivity|].
  split.
  - intros d [H1 H2]. apply He in H1. apply Hs in H2. lia.
  - apply notifyExpiredDocuments_log, Hth.
Qed.

(** A scan at [t0] over a lapsed and an ending licence of Alice's, with a
    push service on which every delivery fails: all four attempts (two
    documents, two enabled subscriptions) are still made, in order. *)
Lemma scan_selects_and_isolates_witness :
  soonThreshold None (Sample.t0 + 3)
  = Some (Sample.t0 + 3 + 30 * JsDate.msPerDay)
  /\ exists log,
       notifyExpiredDocuments Sample.deadPush Sample.isoDate None Sample.t0
         (Sample.t0 + 3) Sample.scanDB []
       = (Ok tt, log)
       /\ List.map fst log
          = [mkNotification "https://push.example/a1" "k1" "Document expired"
               "Driver Licence (ABC123) has expired";
             mkNotification "https://push.example/a3" "k3" "Document expired"
               "Driver Licence (ABC123) has expired";
             mkNotification "https://push.example/a1" "k1"
               "Document expiring soon" "Passport (P777) expires on 2026-01-11";
             mkNotification "https://push.example/a3" "k3"
               "Document expiring soon" "Passport (P777) expires on 2026-01-11"].
Proof.
  assert (Hth : soonThreshold None (Sample.t0 + 3)
                = Some (Sample.t0 + 3 + 30 * JsDate.msPerDay)) by reflexivity.
  split; [exact Hth|].
  destruct (scan_selects_and_isolates Sample.deadPush Sample.isoDate None
              Sample.t0 (Sample.t0 + 3) Sample.scanDB _ Hth)
    as (_ & _ & _ & _ & _ & log & Hrun & Hlog).
  exists log. split; [exact Hrun|]. rewrite Hlog. reflexivity.
Defined.

(** The same scan, run: every attempt is logged as failed and the scan
    still ends normally. *)
Example scan_with_dead_push_service :
  notifyExpiredDocuments Sample.deadPush Sample.isoDate None Sample.t0
    (Sample.t0 + 3) Sample.scanDB []
  = (Ok tt,
     [(mkNotification "https://push.example/a1" "k1" "Document expired"
         "Driver Licence (ABC123) has expired", false);
      (mkNotification "https://push.example/a3" "k3" "Document expired"
         "Driver Licence (ABC123) has expired", false);
      (mkNotification "https://push.example/a1" "k1" "Document expiring soon"
         "Passport (P777) expires on 2026-01-11", false);
      (mkNotification "https://push.example/a3" "k3" "Document expiring soon"
         "Passport (P777) expires on 2026-01-11", false)]).
Proof. vm_compute. reflexivity. Qed.

(** [parseInt]: digits after white space and a sign; anything else after
    them is ignored; no digits at all is NaN, and then (as when the
    threshold leaves the range of dates) the scan sends nothing. *)
Example parseInt_examples :
  parseInt "30" = Some 30 /\ parseInt "  7 days" = Some 7
  /\ parseInt "-5" = Some (-5) /\ parseInt "soon" = None
  /\ soonDays (Some ""%string) = Some 30
  /\ notifyExpiredDocuments Sample.deadPush Sample.isoDate
       (Some "soon"%string) Sample.t0 (Sample.t0 + 3) Sample.scanDB []
     = (Ok tt, []).
Proof. repeat split. Qed.

End ScanClaims.

(* --------------------------------------------------------------------- *)
(** ** Bookings                                                          *)
(* --------------------------------------------------------------------- *)

Section BookingFacts.
Import BookingController.

Lemma isCancelled_true s : Booking.isCancelled s = true <-> s = Booking.cancelled.
Proof. destruct s; cbn; split; intros H; try discriminate; reflexivity. Qed.

Lemma sameSlot_blocks reqUser body b :
  sameSlot reqUser body b = true <-> Spec.blocks reqUser body b.
Proof.
  unfold sameSlot, Spec.blocks.
  rewrite !andb_true_iff, negb_true_iff, String.eqb_eq.
  destruct (date body) as [d|]; destruct (startTime body) as [s|].
  - rewrite Z.eqb_eq, String.eqb_eq. split.
    + intros [[[-> ->] ->] Hc]. repeat split.
      intros E. apply isCancelled_true in E. congruence.
    + intros (-> & [= ->] & [= ->] & Hc). repeat split.
      destruct (Booking.isCancelled (Booking.status b)) eqn:E; [|reflexivity].
      apply isCancelled_true in E. contradiction.
  - split; [intros [[_ H] _]; discriminate|intros (_ & _ & H & _); discriminate].
  - split; [intros [[[_ H] _] _]; discriminate|intros (_ & H & _); discriminate].
  - split; [intros [[_ H] _]; discriminate|intros (_ & H & _); discriminate].
Qed.

Lemma createBooking_conflict reqUser newId now body db e :
  List.find (sameSlot reqUser body) (bookings db) = Some e ->
  createBooking reqUser newId now body db = (Spec.conflict, db).
Proof. intros H. unfold createBooking. rewrite H. reflexivity. Qed.

Lemma newBooking_sameSlot newId reqUser now body b :
  newBooking newId reqUser now body = Some b -> sameSlot reqUser body b = true.
Proof.
  unfold newBooking. intros H.
  destruct (date body) as [d|] eqn:Ed; [|discriminate].
  destruct (startTime body) as [s|] eqn:Es; [|discriminate].
  destruct (_ && _); [|discriminate]. injection H as <-.
  unfold sameSlot. rewrite Ed, Es. cbn.
  rewrite !String.eqb_refl, Z.eqb_refl. reflexivity.
Qed.

Lemma find_filter_nil {A} (f : A -> bool) l :
  List.find f l = None -> List.filter f l = [].
Proof.
  induction l as [|x l IH]; [reflexivity|]. cbn.
  destruct (f x); [discriminate|exact IH].
Qed.

Lemma find_app_none {A} (f : A -> bool) l x :
  List.find f l = None -> f x = true -> List.find f (l ++ [x]) = Some x.
Proof.
  intros Hn Hx. induction l as [|y l IH]; cbn in *.
  - rewrite Hx. reflexivity.
  - destruct (f y); [discriminate|]. apply IH, Hn.
Qed.

Lemma find_some_filter {A} (f : A -> bool) l x :
  List.find f l = Some x -> (1 <= length (List.filter f l))%nat.
Proof.
  induction l as [|y l IH]; [discriminate|]. cbn.
  destruct (f y); cbn; [lia|exact IH].
Qed.

End BookingFacts.

Section BookingClaims.
Import BookingController.

(** C7.  A create request is answered with the client error 400 exactly
    when the owner already has a non-cancelled booking at the same date and
    start time when the check runs; a cancelled booking never blocks.
    The rejected request writes nothing.  So for a request that passes the
    schema's validation, on a store with at most one non-cancelled booking
    at its slot, two identical requests in direct succession leave exactly
    one non-cancelled booking there and the second gets the conflict
    message. *)
Theorem createBooking_conflict_check reqUser newId now body db :
  let r := createBooking reqUser newId now body db in
  (code (fst r) = 400%Z
   <-> exists b, In b (bookings db) /\ Spec.blocks reqUser body b)
  /\ (code (fst r) = 400%Z -> fst r = Spec.conflict /\ snd r = db)
  /\ (forall b, Booking.status b = Booking.cancelled ->
                sameSlot reqUser body b = false)
  /\ (forall newId2 now2,
         newBooking newId reqUser now body <> None ->
         (Spec.activeAtSlot reqUser body db <= 1)%nat ->
         let r2 := createBooking reqUser newId2 now2 body (snd r) in
         fst r2 = Spec.conflict
         /\ snd r2 = snd r
         /\ Spec.activeAtSlot reqUser body (snd r2) = 1%nat).
Proof.
  intros r.
  assert (Hcancelled : forall b, Booking.status b = Booking.cancelled ->
                                 sameSlot reqUser body b = false).
  { intros b Hb. unfold sameSlot. rewrite Hb. cbn. apply andb_false_r. }
  destruct (List.find (sameSlot reqUser body) (bookings db)) as [e|] eqn:Hfind.
  - assert (Hr : r = (Spec.conflict, db))
      by (apply (createBooking_conflict _ _ _ _ _ e Hfind)).
    rewrite Hr. cbn [fst snd].
    split.
    { split; [intros _|reflexivity].
      apply find_some in Hfind as [Hin Hs]. exists e. split; [exact Hin|].
      apply sameSlot_blocks, Hs. }
    split; [intros _; split; reflexivity|].
    split; [exact Hcancelled|].
    intros newId2 now2 _ Hle.
    rewrite (createBooking_conflict _ _ _ _ _ e Hfind). cbn [fst snd].
    split; [reflexivity|]. split; [reflexivity|].
    apply find_some_filter in Hfind. unfold Spec.activeAtSlot in *. lia.
  - assert (Hfree : ~ exists b, In b (bookings db) /\ Spec.blocks reqUser body b).
    { intros (b & Hin & Hb). apply sameSlot_blocks in Hb.
      pose proof (find_none _ _ Hfind b Hin) as Hn. cbn in Hn. congruence. }
    destruct (newBooking newId reqUser now body) as [booking|] eqn:Hnew.
    + assert (Hr : r = (mkResponse 201 true None (BookingPayload booking),
                        withBookings (bookings db ++ [booking]) db)).
      { unfold r, createBooking. rewrite Hfind, Hnew. reflexivity. }
      rewrite Hr. cbn [fst snd code].
      split; [split; [discriminate|intros H; contradiction]|].
      split; [discriminate|].
      split; [exact Hcancelled|].
      intros newId2 now2 _ _.
      pose proof (newBooking_sameSlot _ _ _ _ _ Hnew) as Hs.
      rewrite (createBooking_conflict _ _ _ _ _ booking).
      2:{ cbn [bookings withBookings]. apply find_app_none; assumption. }
      cbn [fst snd].
      split; [reflexivity|]. split; [reflexivity|].
      unfold Spec.activeAtSlot. cbn [bookings withBookings].
      rewrite List.filter_app, (find_filter_nil _ _ Hfind). cbn.
      rewrite Hs. reflexivity.
    + assert (Hr : r = (serverError, db)).
      { unfold r, createBooking. rewrite Hfind, Hnew. reflexivity. }
      rewrite Hr. cbn [fst snd code serverError fail].
      split; [split; [discriminate|intros H; contradiction]|].
      split; [discriminate|].
      split; [exact Hcancelled|].
      intros newId2 now2 Hne. contradiction.
Qed.

(** The scenario of the specification: Alice books 2025-06-01 at 10:00
    twice in direct succession; the first request is accepted, the second
    is rejected, and one booking holds the slot. *)
Lemma createBooking_conflict_check_witness :
  let r := createBooking Sample.alice Sample.bookingId Sample.t0 Sample.lesson
             Sample.emptyDB in
  let r2 := createBooking Sample.alice Sample.bookingId2 (Sample.t0 + 50)%Z
              Sample.lesson (snd r) in
  code (fst r) = 201%Z
  /\ fst r2 = fail 400 "You already have a booking at this time"
  /\ bookings (snd r2) = [Sample.aliceLesson]
  /\ Spec.activeAtSlot Sample.alice Sample.lesson (snd r2) = 1%nat.
Proof.
  intros r r2.
  assert (Hv : newBooking Sample.bookingId Sample.alice Sample.t0 Sample.lesson
               <> None) by discriminate.
  assert (Hle : (Spec.activeAtSlot Sample.alice Sample.lesson Sample.emptyDB
                 <= 1)%nat) by (vm_compute; lia).
  destruct (createBooking_conflict_check Sample.alice Sample.bookingId
              Sample.t0 Sample.lesson Sample.emptyDB)
    as (_ & _ & _ & Htwice).
  destruct (Htwice Sample.bookingId2 (Sample.t0 + 50)%Z Hv Hle)
    as (Hresp & Hdb & Hone).
  split; [reflexivity|]. split; [exact Hresp|].
  split; [|exact Hone].
  unfold r2, r. rewrite Hdb. reflexivity.
Defined.

(** Once a booking is cancelled its slot is free again. *)
Example cancelled_booking_frees_slot :
  let r := cancelBooking Sample.alice Sample.bookingId Sample.lessonDB in
  let r2 := createBooking Sample.alice Sample.bookingId2 (Sample.t0 + 50)%Z
              Sample.lesson (snd r) in
  code (fst r) = 200%Z /\ code (fst r2) = 201%Z
  /\ List.map Booking.status (bookings (snd r2))
     = [Booking.cancelled; Booking.confirmed].
Proof. repeat split. Qed.

(** A request that fails the schema's validation is answered 500, not
    400, and stores nothing. *)
Example createBooking_invalid_lesson_type :
  createBooking Sample.alice Sample.bookingId Sample.t0
    (mkBody (Some 1748736000000%Z) (Some "10:00"%string)
            (Some "Drifting"%string) None)
    Sample.emptyDB
  = (fail 500 "Server Error", Sample.emptyDB).
Proof. reflexivity. Qed.

(** C8.  Cancelling sets the booking's status to 'cancelled' only for its
    owner: a request by any other identity is answered 401 and the store is
    left exactly as it was, the booking with the status it had; the owner's
    request is answered 200 with the booking, which is then stored with
    status 'cancelled' and every other field as before; no other booking
    changes. *)
Theorem cancelBooking_owner_only reqUser id db b :
  findById Booking._id id (bookings db) = Some b ->
  let r := cancelBooking reqUser id db in
  (Booking.user b <> reqUser ->
   fst r = fail 401 "Not authorized to cancel this booking" /\ snd r = db
   /\ findById Booking._id id (bookings (snd r)) = Some b)
  /\ (Booking.user b = reqUser ->
      exists b',
        fst r = mkResponse 200 true None (BookingPayload b')
        /\ findById Booking._id id (bookings (snd r)) = Some b'
        /\ b' = Booking.setStatus Booking.cancelled b
        /\ Booking.status b' = Booking.cancelled
        /\ Booking._id b' = Booking._id b
        /\ Booking.user b' = Booking.user b
        /\ Booking.date b' = Booking.date b
        /\ Booking.startTime b' = Booking.startTime b
        /\ Booking.lessonType b' = Booking.lessonType b
        /\ Booking.notes b' = Booking.notes b
        /\ Booking.createdAt b' = Booking.createdAt b)
  /\ (snd r <> db -> Booking.user b = reqUser)
  /\ (forall id', id' <> id ->
        findById Booking._id id' (bookings (snd r))
        = findById Booking._id id' (bookings db)).
Proof.
  intros Hfind r. subst r. unfold cancelBooking. rewrite Hfind.
  destruct (findById_some _ _ _ _ Hfind) as [Hid _].
  assert (Hupd : findById Booking._id id
                   (updateById Booking._id id
                      (Booking.setStatus Booking.cancelled) (bookings db))
                 = Some (Booking.setStatus Booking.cancelled b)).
  { apply findById_updateById; [exact Hfind|exact Hid]. }
  destruct (String.eqb_spec (Booking.user b) reqUser) as [E|E]; cbn [negb fst snd].
  - split; [intros Hne; contradiction|].
    split.
    { intros _. exists (Booking.setStatus Booking.cancelled b).
      rewrite Hupd. split; [reflexivity|]. split; [exact Hupd|].
      repeat split. }
    split; [intros _; exact E|].
    intros id' Hne. cbn [bookings withBookings].
    apply findById_updateById_other; [exact Hne|reflexivity].
  - split; [intros _; split; [reflexivity|split; [reflexivity|exact Hfind]]|].
    split; [intros Hu; contradiction|].
    split; [intros Hne; contradiction|].
    intros id' _. reflexivity.
Qed.

(** Bob tries to cancel Alice's lesson: 401, and the lesson stays
    confirmed.  Alice cancels it: 200, and it is stored as cancelled. *)
Lemma cancelBooking_owner_only_witness :
  let r := cancelBooking Sample.bob Sample.bookingId Sample.lessonDB in
  let r' := cancelBooking Sample.alice Sample.bookingId Sample.lessonDB in
  fst r = fail 401 "Not authorized to cancel this booking"
  /\ snd r = Sample.lessonDB
  /\ List.map Booking.status (bookings (snd r)) = [Booking.confirmed]
  /\ code (fst r') = 200%Z
  /\ (exists b', findById Booking._id Sample.bookingId (bookings (snd r'))
                 = Some b'
                 /\ Booking.status b' = Booking.cancelled
                 /\ Booking.startTime b' = "10:00"%string)
  /\ List.map Booking.status (bookings (snd r')) = [Booking.cancelled].
Proof.
  intros r r'.
  assert (Hf : findById Booking._id Sample.bookingId (bookings Sample.lessonDB)
               = Some Sample.aliceLesson) by reflexivity.
  assert (Hne : Booking.user Sample.aliceLesson <> Sample.bob) by discriminate.
  assert (He : Booking.user Sample.aliceLesson = Sample.alice) by reflexivity.
  destruct (cancelBooking_owner_only Sample.bob Sample.bookingId
              Sample.lessonDB Sample.aliceLesson Hf) as (Hother & _).
  destruct (cancelBooking_owner_only Sample.alice Sample.bookingId
              Sample.lessonDB Sample.aliceLesson Hf) as (_ & Howner & _).
  destruct (Hother Hne) as (Hr & Hdb & _).
  destruct (Howner He)
    as (b' & Hr' & Hf' & _ & Hst & _ & _ & _ & Htime & _).
  split; [exact Hr|]. split; [exact Hdb|].
  split; [unfold r; rewrite Hdb; reflexivity|].
  split; [unfold r'; rewrite Hr'; reflexivity|].
  split; [exists b'; split; [exact Hf'|split; [exact Hst|exact Htime]]|].
  reflexivity.
Defined.

End BookingClaims.

(* --------------------------------------------------------------------- *)
(** ** The auth guard                                                    *)
(* --------------------------------------------------------------------- *)

Section AuthClaims.
Import Auth.

Variable jwtVerify : string -> option ObjectId.

Lemma truthy_some o :
  truthy o = true <-> exists s, o = Some s /\ s <> ""%string.
Proof.
  unfold truthy, nonEmpty. destruct o as [s|].
  - rewrite negb_true_iff, String.eqb_neq. split.
    + intros H. exists s. auto.
    + intros (s' & [= <-] & H). exact H.
  - split; [discriminate|intros (s & H & _); discriminate].
Qed.

Lemma token_cookie_first req :
  truthy (cookieToken req) = true -> token req = cookieToken req.
Proof. intros H. unfold token. rewrite H. reflexivity. Qed.

Lemma token_bearer_fallback req :
  truthy (cookieToken req) = false -> token req = Spec.bearer req.
Proof. intros H. unfold token. rewrite H. reflexivity. Qed.

Lemma protect_cases req db :
  (Spec.noCredential req /\ protect jwtVerify req db = Respond notAuthorized)
  \/ (Spec.badCredential jwtVerify req
      /\ protect jwtVerify req db = Respond notAuthorized)
  \/ (Spec.unknownIdentity jwtVerify req db
      /\ protect jwtVerify req db
         = Respond (fail 401 "Not authorized. User no longer exists."))
  \/ (exists tok id user,
         token req = Some tok /\ tok <> ""%string /\ jwtVerify tok = Some id
         /\ findById User._id id (users db) = Some user
         /\ protect jwtVerify req db = Next user).
Proof.
  unfold protect, Spec.noCredential, Spec.badCredential, Spec.unknownIdentity.
  destruct (truthy (token req)) eqn:Ht; cbn [negb]; [|left; auto].
  right. apply truthy_some in Ht as (tok & Htok & Hne). rewrite Htok.
  destruct (jwtVerify tok) as [id|] eqn:Hv.
  - right. destruct (findById User._id id (users db)) as [user|] eqn:Hu.
    + right. exists tok, id, user. auto.
    + left. split; [|reflexivity]. exists tok, id.
      split; [reflexivity|]. split; [exact Hne|]. split; [exact Hv|].
      apply findById_none, Hu.
  - left. split; [|reflexivity]. exists tok. auto.
Qed.

(** With unique ids, the stored record with an id is the one found. *)
Lemma findById_unique {A} (idOf : A -> ObjectId) id (l : list A) x :
  NoDup (List.map idOf l) -> In x l -> idOf x = id ->
  findById idOf id l = Some x.
Proof.
  unfold findById. induction l as [|y l IH]; intros Hnd Hin Hid; [destruct Hin|].
  cbn [List.map] in Hnd. apply NoDup_cons in Hnd as [Hy Hnd].
  cbn [List.find]. destruct Hin as [->|Hin].
  - rewrite Hid, String.eqb_refl. reflexivity.
  - destruct (String.eqb_spec (idOf y) id) as [E|E].
    + exfalso. apply Hy. apply list_elem_of_In. rewrite E, <- Hid.
      apply in_map, Hin.
    + apply IH; assumption.
Qed.

(** C9.  The guard takes the credential from the cookie when there is
    one, and otherwise from the Authorization bearer header.  It answers
    401 in exactly three cases (no credential, a credential that fails
    verification, a credential naming an id that no stored user has) and
    in every other case attaches a stored user whose id is the one the
    credential names, and passes the request on; with unique ids that is
    the user with that id. *)
Theorem protect_fails_closed req db :
  (truthy (cookieToken req) = true -> token req = cookieToken req)
  /\ (truthy (cookieToken req) = false -> token req = Spec.bearer req)
  /\ (forall r, protect jwtVerify req db = Respond r ->
                code r = 401%Z /\ success r = false)
  /\ ((exists r, protect jwtVerify req db = Respond r)
      <-> Spec.noCredential req \/ Spec.badCredential jwtVerify req
          \/ Spec.unknownIdentity jwtVerify req db)
  /\ (forall user,
         protect jwtVerify req db = Next user
         <-> exists tok id,
               token req = Some tok /\ tok <> ""%string
               /\ jwtVerify tok = Some id
               /\ findById User._id id (users db) = Some user)
  /\ (forall user,
         protect jwtVerify req db = Next user ->
         exists tok id,
           token req = Some tok /\ tok <> ""%string
           /\ jwtVerify tok = Some id
           /\ User._id user = id /\ In user (users db))
  /\ (forall tok id,
         token req = Some tok -> tok <> ""%string ->
         jwtVerify tok = Some id ->
         (exists u, In u (users db) /\ User._id u = id) ->
         exists user, protect jwtVerify req db = Next user
                      /\ User._id user = id /\ In user (users db))
  /\ (NoDup (List.map User._id (users db)) ->
      forall tok id user,
        token req = Some tok -> tok <> ""%string ->
        jwtVerify tok = Some id ->
        In user (users db) -> User._id user = id ->
        protect jwtVerify req db = Next user).
Proof.
  split; [apply token_cookie_first|]. split; [apply token_bearer_fallback|].
  pose proof (protect_cases req db) as Hc.
  assert (Hnext : forall user,
             protect jwtVerify req db = Next user
             <-> exists tok id,
                   token req = Some tok /\ tok <> ""%string
                   /\ jwtVerify tok = Some id
                   /\ findById User._id id (users db) = Some user).
  { intros user. split.
    - intros Hn.
      destruct Hc as [[_ H]|[[_ H]|[[_ H]|(tok & id & u & Ht & Hne & Hv & Hu & H)]]];
        rewrite H in Hn; try discriminate.
      injection Hn as <-. exists tok, id. auto.
    - intros (tok & id & Ht & Hne & Hv & Hu).
      unfold protect.
      assert (Htr : truthy (token req) = true)
        by (apply truthy_some; exists tok; auto).
      rewrite Htr, Ht, Hv, Hu. reflexivity. }
  split; [|split; [|split; [exact Hnext|split; [|split]]]].
  - intros r Hr.
    destruct Hc as [[_ H]|[[_ H]|[[_ H]|(tok & id & u & _ & _ & _ & _ & H)]]];
      rewrite H in Hr; try discriminate; injection Hr as <-; split; reflexivity.
  - split.
    + intros [r Hr].
      destruct Hc as [[Hn _]|[[Hb _]|[[Hu _]|(tok & id & u & _ & _ & _ & _ & H)]]];
        auto.
      rewrite H in Hr. discriminate.
    + intros Hthree.
      destruct Hc as [[_ H]|[[_ H]|[[_ H]|(tok & id & u & Ht & Hne & Hv & Hu & H)]]];
        eauto.
      exfalso.
      destruct Hthree as [Hn|[(tok' & Ht' & _ & Hv')|(tok' & id' & Ht' & _ & Hv' & Hu')]].
      * unfold Spec.noCredential in Hn.
        assert (truthy (token req) = true)
          by (apply truthy_some; exists tok; auto).
        congruence.
      * congruence.
      * assert (tok' = tok) by congruence. subst tok'.
        assert (id' = id) by congruence. subst id'.
        destruct (findById_some _ _ _ _ Hu) as [Hid Hin].
        exact (Hu' u Hin Hid).
  - intros user Hn. apply Hnext in Hn as (tok & id & Ht & Hne & Hv & Hu).
    destruct (findById_some _ _ _ _ Hu) as [Hid Hin].
    exists tok, id. auto.
  - intros tok id Ht Hne Hv (u & Hin & Hid).
    destruct (findById User._id id (users db)) as [user|] eqn:Hu.
    + destruct (findById_some _ _ _ _ Hu) as [Hid' Hin'].
      exists user. split; [|auto]. apply Hnext. exists tok, id. auto.
    + exfalso. exact (proj1 (findById_none _ _ _) Hu u Hin Hid).
  - intros Hnd tok id user Ht Hne Hv Hin Hid.
    apply Hnext. exists tok, id.
    split; [exact Ht|]. split; [exact Hne|]. split; [exact Hv|].
    apply findById_unique; assumption.
Qed.

End AuthClaims.

Section AuthExamples.
Import Auth.

(** Alice's and Bob's accounts are stored, Alice's first.  A request
    without a cookie and with a bearer header for Alice passes the guard
    with Alice attached; a cookie naming Bob passes with Bob attached; and
    once Bob's account is gone the same cookie is refused. *)
Lemma protect_fails_closed_witness :
  truthy (cookieToken Sample.bearerRequest) = false
  /\ token Sample.bearerRequest = Some "alice.jwt"%string
  /\ protect Sample.jwtVerify Sample.bearerRequest Sample.schoolDB
     = Next Sample.aliceUser
  /\ protect Sample.jwtVerify (mkRequest (Some "ghost.jwt"%string) None)
             Sample.schoolDB
     = Next Sample.bobUser
  /\ (exists r, protect Sample.jwtVerify
                  (mkRequest (Some "ghost.jwt"%string) None) Sample.lessonDB
                = Respond r /\ code r = 401%Z).
Proof.
  assert (Hc : truthy (cookieToken Sample.bearerRequest) = false)
    by reflexivity.
  assert (Hnd : NoDup (List.map User._id (users Sample.schoolDB))).
  { cbn. constructor; [|constructor; [|constructor]].
    - intros H. apply list_elem_of_In in H. destruct H as [H|[]].
      discriminate H.
    - intros H. apply list_elem_of_In in H. destruct H. }
  destruct (protect_fails_closed Sample.jwtVerify Sample.bearerRequest
              Sample.schoolDB) as (_ & Hbearer & _ & _ & _ & _ & _ & Huser).
  destruct (protect_fails_closed Sample.jwtVerify
              (mkRequest (Some "ghost.jwt"%string) None) Sample.schoolDB)
    as (_ & _ & _ & _ & _ & _ & _ & Huser').
  destruct (protect_fails_closed Sample.jwtVerify
              (mkRequest (Some "ghost.jwt"%string) None) Sample.lessonDB)
    as (_ & _ & H401 & Hrefuse & _).
  split; [exact Hc|].
  split; [rewrite (Hbearer Hc); reflexivity|].
  split.
  { apply (Huser Hnd "alice.jwt"%string Sample.alice Sample.aliceUser);
      [reflexivity|discriminate|reflexivity|now left|reflexivity]. }
  split.
  { apply (Huser' Hnd "ghost.jwt"%string Sample.bob Sample.bobUser);
      [reflexivity|discriminate|reflexivity|right; now left|reflexivity]. }
  destruct (proj2 Hrefuse) as [r Hr].
  { right. right. exists "ghost.jwt"%string, Sample.bob.
    split; [reflexivity|]. split; [discriminate|]. split; [reflexivity|].
    intros u [<-|[]]. discriminate. }
  exists r. split; [exact Hr|]. apply (H401 r Hr).
Defined.

(** The cookie wins over the header; a token for a deleted user, a forged
    token, a header without a token and a request without credentials are
    all refused. *)
Example protect_examples :
  protect Sample.jwtVerify Sample.cookieRequest Sample.lessonDB
  = Next Sample.aliceUser
  /\ protect Sample.jwtVerify (mkRequest (Some "ghost.jwt"%string) None)
       Sample.lessonDB
     = Respond (fail 401 "Not authorized. User no longer exists.")
  /\ protect Sample.jwtVerify (mkRequest None (Some "Bearer forged"%string))
       Sample.lessonDB
     = Respond notAuthorized
  /\ protect Sample.jwtVerify (mkRequest None (Some "Bearer"%string))
       Sample.lessonDB
     = Respond notAuthorized
  /\ protect Sample.jwtVerify (mkRequest (Some ""%string) None) Sample.lessonDB
     = Respond notAuthorized
  /\ split "Bearer a b" = ["Bearer"; "a"; "b"]%string.
Proof. repeat split. Qed.

End AuthExamples.

(* ===================================================================== *)
(** * Further properties of the handlers                                 *)
(* ===================================================================== *)

(* --------------------------------------------------------------------- *)
(** ** Paged listings                                                    *)
(* --------------------------------------------------------------------- *)

Section NumberFacts.
Local Open Scope Z_scope.
Import JsNumber.

Lemma maxSafe_value : maxSafe = 9007199254740991.
Proof. reflexivity. Qed.

Lemma overflow_beyond : maxSafe < overflow.
Proof. vm_compute. reflexivity. Qed.

(** Safe integers are doubles. *)
Lemma round_safe z : Z.abs z <= maxSafe -> round z = z.
Proof.
  rewrite maxSafe_value. intros H. unfold round, roundNat.
  change (2 ^ 53) with 9007199254740992.
  destruct (Z.ltb_spec z 0).
  - destruct (Z.ltb_spec (- z) 9007199254740992); lia.
  - destruct (Z.ltb_spec z 9007199254740992); lia.
Qed.

Lemma ofInteger_safe z : Z.abs z <= maxSafe -> ofInteger z = Fin z.
Proof.
  intros H. unfold ofInteger. rewrite (round_safe z H). cbv zeta.
  pose proof overflow_beyond.
  destruct (Z.leb_spec overflow (Z.abs z)); [lia|reflexivity].
Qed.

Lemma sub_safe x y : Z.abs (x - y) <= maxSafe -> sub (Fin x) (Fin y) = Fin (x - y).
Proof. intros H. unfold sub. apply ofInteger_safe, H. Qed.

Lemma mul_safe x y : Z.abs (x * y) <= maxSafe -> mul (Fin x) (Fin y) = Fin (x * y).
Proof. intros H. unfold mul. apply ofInteger_safe, H. Qed.




End NumberFacts.

Section SliceFacts.
Context {A : Type}.
Implicit Types l : list A.
Local Open Scope Z_scope.

Lemma slice_safe (store : Query.Store A) skip limit l :
  Z.abs skip <= JsNumber.maxSafe -> Z.abs limit <= JsNumber.maxSafe ->
  Query.slice store (JsNumber.Fin skip) (JsNumber.Fin limit) l
  = if skip <? 0 then None
    else Some (if limit =? 0 then drop (Z.to_nat skip) l
               else if 0 <? limit
                    then take (Z.to_nat limit) (drop (Z.to_nat skip) l)
                    else take (Query.singleBatch store (Z.to_nat (- limit)))
                              (drop (Z.to_nat skip) l)).
Proof.
  intros Hs Hl. unfold Query.slice.
  destruct (Z.leb_spec (Z.abs skip) JsNumber.maxSafe); [|lia].
  destruct (Z.leb_spec (Z.abs limit) JsNumber.maxSafe); [|lia].
  reflexivity.
Qed.

Lemma slice_positive (store : Query.Store A) skip limit l :
  0 <= skip <= JsNumber.maxSafe -> 1 <= limit <= JsNumber.maxSafe ->
  Query.slice store (JsNumber.Fin skip) (JsNumber.Fin limit) l
  = Some (take (Z.to_nat limit) (drop (Z.to_nat skip) l)).
Proof.
  intros Hs Hl. rewrite slice_safe by lia.
  destruct (Z.ltb_spec skip 0); [lia|].
  destruct (Z.eqb_spec limit 0); [lia|].
  destruct (Z.ltb_spec 0 limit); [reflexivity|lia].
Qed.

(** Chunks of [n] cover a list of at most [m * n] elements. *)
Lemma chunks_cover (n : nat) l : forall (m first : nat),
  (0 < n)%nat -> (length l <= first * n + m * n)%nat ->
  flat_map (fun k => take n (drop (k * n) l)) (seq first m)
  = drop (first * n) l.
Proof.
  intros m. induction m as [|m IH]; intros first Hn Hlen.
  - cbn. symmetry. apply drop_ge. lia.
  - cbn [seq flat_map]. rewrite (IH (S first) Hn) by (cbn; lia).
    replace (S first * n)%nat with (first * n + n)%nat by (cbn; lia).
    rewrite <- drop_drop. apply take_drop.
Qed.

End SliceFacts.

#[local] Instance newerFirst_total : Total DocumentsApi.newerFirst.
Proof. intros a b. unfold DocumentsApi.newerFirst. lia. Qed.

#[local] Instance newerFirst_trans : Transitive DocumentsApi.newerFirst.
Proof. intros a b c. unfold DocumentsApi.newerFirst. lia. Qed.

Section ListingFacts.
Local Open Scope Z_scope.
Import DocumentsApi.

Lemma StronglySorted_take_drop {A} (R : relation A) (l : list A) k n :
  StronglySorted R l -> StronglySorted R (take n (drop k l)).
Proof.
  intros H.
  rewrite <- (take_drop k l) in H. apply StronglySorted_app in H as (_ & _ & H).
  rewrite <- (take_drop n (drop k l)) in H.
  apply StronglySorted_app in H as (_ & H & _). exact H.
Qed.

Lemma In_take_drop {A} (l : list A) k n x :
  In x (take n (drop k l)) -> In x l.
Proof.
  intros H. apply list_elem_of_In in H. apply list_elem_of_In.
  apply (subseteq_take n), (subseteq_drop k) in H. exact H.
Qed.

Lemma myDocuments_In reqUser db d :
  In d (myDocuments reqUser db)
  <-> In d (documents db) /\ Document.user d = reqUser.
Proof.
  unfold myDocuments. rewrite filter_In. unfold ownedBy.
  rewrite String.eqb_eq. reflexivity.
Qed.

(** The sample store sorts. *)
Lemma sample_store_sorts {A} (R : relation A) `{!RelDecision R}
    `{!Total R} `{!Transitive R} (mine : list A) :
  Spec2.sortedBy R (Sample2.store R) mine.
Proof.
  split; [apply merge_sort_Permutation|].
  apply StronglySorted_merge_sort; assumption.
Qed.

Lemma ceilDiv_bounds a b :
  0 < b -> (JsDate.ceilDiv a b - 1) * b < a <= JsDate.ceilDiv a b * b.
Proof. intros Hb. apply (ceilDiv_spec a b _ Hb). reflexivity. Qed.

(** What [Query.paged] answers for a page number and a limit of at least
    one, the skip being a safe integer. *)
Lemma paged_positive {A} (store : Query.Store A) qpage qlimit dflt err
    (mine : list A) p n :
  Query.queryNumber qpage 1 = JsNumber.Fin p ->
  Query.queryNumber qlimit dflt = JsNumber.Fin n ->
  1 <= p -> 1 <= n <= JsNumber.maxSafe ->
  (p - 1) * n <= JsNumber.maxSafe ->
  Query.paged store qpage qlimit dflt err mine
  = let found := take (Z.to_nat n)
                      (drop (Z.to_nat ((p - 1) * n))
                            (Query.sorted store mine)) in
    Query.Listed
      (Query.mkListing (Z.of_nat (length found)) (Z.of_nat (length mine))
                       (JsNumber.Fin p)
                       (JsNumber.Fin (JsDate.ceilDiv (Z.of_nat (length mine)) n))
                       found).
Proof.
  intros Hqp Hqn Hp Hn Hskip. unfold Query.paged. rewrite Hqp, Hqn.
  cbv zeta.
  rewrite sub_safe by nia. rewrite mul_safe by nia.
  rewrite slice_positive by nia.
  unfold JsNumber.ceilDivide.
  destruct (Z.eqb_spec n 0); [lia|reflexivity].
Qed.

(** The page that a list endpoint answers with. *)
Lemma paged_page {A} (R : relation A) (store : Query.Store A) qpage qlimit
    dflt err (mine : list A) p n :
  Query.queryNumber qpage 1 = JsNumber.Fin p ->
  Query.queryNumber qlimit dflt = JsNumber.Fin n ->
  1 <= p -> 1 <= n <= JsNumber.maxSafe ->
  (p - 1) * n <= JsNumber.maxSafe ->
  Spec2.sortedBy R store mine ->
  exists L,
    Query.paged store qpage qlimit dflt err mine = Query.Listed L
    /\ Query.items L
       = take (Z.to_nat n) (drop (Z.to_nat ((p - 1) * n))
                                 (Query.sorted store mine))
    /\ (forall x, In x (Query.items L) -> In x mine)
    /\ StronglySorted R (Query.items L)
    /\ sublist (Query.items L) (Query.sorted store mine)
    /\ Query.count L = Z.of_nat (length (Query.items L))
    /\ Query.count L <= n
    /\ Query.total L = Z.of_nat (length mine)
    /\ Query.page L = JsNumber.Fin p
    /\ exists k, Query.pages L = JsNumber.Fin k
                 /\ (k - 1) * n < Query.total L <= k * n.
Proof.
  intros Hqp Hqn Hp Hn Hskip [Hperm Hsorted].
  rewrite (paged_positive store qpage qlimit dflt err mine p n)
    by assumption.
  cbv zeta. eexists. split; [reflexivity|].
  cbn [Query.items Query.count Query.total Query.page Query.pages].
  split; [reflexivity|].
  split.
  { intros x Hx. apply In_take_drop in Hx.
    apply list_elem_of_In. rewrite <- Hperm. apply list_elem_of_In, Hx. }
  split; [apply StronglySorted_take_drop, Hsorted|].
  split.
  { etransitivity; [apply sublist_take|apply sublist_drop]. }
  split; [reflexivity|].
  split; [rewrite length_take;
          match goal with |- context [length ?x] => generalize (length x) end;
          intros; lia|].
  split; [reflexivity|]. split; [reflexivity|].
  eexists. split; [reflexivity|]. apply ceilDiv_bounds. lia.
Qed.

(** X1.  For a page number and a limit of at least one (the numbers and
    the skip [(page - 1) * limit] being safe integers), [GET /documents]
    answers with the requested window of the requester's documents as the
    store sorts them, newest first: every item is a stored document of the
    requester, the items come in the store's order, there are at most
    [limit] of them, [count] is their number, [total] the number of the
    requester's documents, [page] the page asked for, and [pages] the
    least number of pages of that size that hold them all. *)
Theorem getDocuments_page store reqUser qpage qlimit db p n :
  Query.queryNumber qpage 1 = JsNumber.Fin p ->
  Query.queryNumber qlimit 20 = JsNumber.Fin n ->
  1 <= p -> 1 <= n <= JsNumber.maxSafe ->
  (p - 1) * n <= JsNumber.maxSafe ->
  Spec2.sortedBy newerFirst store (myDocuments reqUser db) ->
  exists L,
    getDocuments store reqUser qpage qlimit db = Query.Listed L
    /\ Query.items L
       = take (Z.to_nat n)
              (drop (Z.to_nat ((p - 1) * n))
                    (Query.sorted store (myDocuments reqUser db)))
    /\ (forall d, In d (Query.items L) ->
                  In d (documents db) /\ Document.user d = reqUser)
    /\ StronglySorted newerFirst (Query.items L)
    /\ Query.count L = Z.of_nat (length (Query.items L))
    /\ Query.count L <= n
    /\ Query.total L
       = Z.of_nat (length (List.filter (ownedBy reqUser) (documents db)))
    /\ Query.page L = JsNumber.Fin p
    /\ exists k, Query.pages L = JsNumber.Fin k
                 /\ (k - 1) * n < Query.total L <= k * n.
Proof.
  intros Hqp Hqn Hp Hn Hskip Hsort. unfold getDocuments.
  destruct (paged_page newerFirst store qpage qlimit 20
              DocumentsController.serverError (myDocuments reqUser db) p n
              Hqp Hqn Hp Hn Hskip Hsort)
    as (L & HL & Hitems & Hin & Hsorted & _ & Hcount & Hle & Htotal & Hpage
        & Hpages).
  exists L. split; [exact HL|]. split; [exact Hitems|].
  split; [intros d Hd; apply myDocuments_In, Hin, Hd|].
  split; [exact Hsorted|]. split; [exact Hcount|]. split; [exact Hle|].
  split; [exact Htotal|]. split; [exact Hpage|exact Hpages].
Qed.

(** Alice asks for page 2 with two documents a page: she gets her oldest
    document, and Bob's is not among them; a no-break space before the
    number does not matter. *)
Lemma getDocuments_page_witness :
  exists L,
    getDocuments Sample2.documentStore Sample.alice
                 (Some (Sample2.nbsp ++ "2")%string)
                 (Some "2"%string) Sample2.shelf
    = Query.Listed L
    /\ List.map Document._id (Query.items L) = [Sample2.a1]
    /\ Query.total L = 3 /\ Query.pages L = JsNumber.Fin 2
    /\ Query.page L = JsNumber.Fin 2.
Proof.
  destruct (getDocuments_page Sample2.documentStore Sample.alice
              (Some (Sample2.nbsp ++ "2")%string)
              (Some "2"%string) Sample2.shelf 2 2)
    as (L & HL & Hitems & _ & _ & _ & _ & Htotal & Hpage & k & Hk & Hpages);
    [reflexivity|reflexivity|lia|vm_compute; split; discriminate
    |vm_compute; discriminate|apply sample_store_sorts; apply _|].
  exists L. split; [exact HL|].
  split; [rewrite Hitems; vm_compute; reflexivity|].
  split; [rewrite Htotal; reflexivity|].
  split; [|exact Hpage].
  rewrite Hk. f_equal. rewrite Htotal in Hpages.
  change (Z.of_nat _) with 3 in Hpages. lia.
Defined.

End ListingFacts.

Section ListingCover.
Local Open Scope Z_scope.
Import DocumentsApi.

Lemma flat_map_ext_In {A B} (f g : A -> list B) (l : list A) :
  (forall x, In x l -> f x = g x) -> flat_map f l = flat_map g l.
Proof.
  induction l as [|x l IH]; intros H; [reflexivity|]. cbn.
  rewrite (H x) by now left. rewrite IH; [reflexivity|].
  intros y Hy. apply H. now right.
Qed.

(** With pairwise distinct keys an element is known by its key. *)
Lemma NoDup_map_inj {A B} (f : A -> B) (l : list A) x y :
  NoDup (List.map f l) -> In x l -> In y l -> f x = f y -> x = y.
Proof.
  induction l as [|a l IH]; intros Hnd Hx Hy Hf; [destruct Hx|].
  cbn [List.map] in Hnd. apply NoDup_cons in Hnd as [Ha Hnd].
  destruct Hx as [->|Hx], Hy as [->|Hy].
  - reflexivity.
  - exfalso. apply Ha. rewrite Hf. apply list_elem_of_In, in_map, Hy.
  - exfalso. apply Ha. rewrite <- Hf. apply list_elem_of_In, in_map, Hx.
  - apply IH; assumption.
Qed.

(** With pairwise distinct sort keys every store sorts alike. *)
Lemma sorted_unique {A} (R : relation A) (key : A -> Z)
    (s1 s2 : Query.Store A) (mine : list A) :
  (forall x y, R x y -> R y x -> key x = key y) ->
  NoDup (List.map key mine) ->
  Spec2.sortedBy R s1 mine -> Spec2.sortedBy R s2 mine ->
  Query.sorted s1 mine = Query.sorted s2 mine.
Proof.
  intros Hkey Hnd [Hp1 Hs1] [Hp2 Hs2].
  apply (StronglySorted_unique_strong R); [|assumption|assumption|].
  - intros x y Hx Hy Hxy Hyx. rewrite Hp1 in Hx. rewrite Hp2 in Hy.
    apply (NoDup_map_inj key mine); [exact Hnd| | |apply Hkey; assumption];
      apply list_elem_of_In; assumption.
  - rewrite Hp1, Hp2. reflexivity.
Qed.

(** The pages [1..pages], each asked of a store of its own, put together. *)
Lemma paged_pages_cover {A} (R : relation A) (key : A -> Z)
    (stores : nat -> Query.Store A) qlimit dflt err (mine : list A)
    (q : nat -> option string) n :
  (forall x y, R x y -> R y x -> key x = key y) ->
  NoDup (List.map key mine) ->
  (forall k, Spec2.sortedBy R (stores k) mine) ->
  Query.queryNumber qlimit dflt = JsNumber.Fin n ->
  1 <= n <= JsNumber.maxSafe ->
  Z.of_nat (length mine) <= JsNumber.maxSafe ->
  let pages := Z.to_nat (JsDate.ceilDiv (Z.of_nat (length mine)) n) in
  (forall k, (1 <= k <= pages)%nat ->
             Query.queryNumber (q k) 1 = JsNumber.Fin (Z.of_nat k)) ->
  Spec2.allPages
    (fun k => Spec2.itemsOf
                (Query.paged (stores k) (q k) qlimit dflt err mine))
    pages
  = Query.sorted (stores 0%nat) mine.
Proof.
  intros Hkey Hnd Hsort Hqn Hn Hlen pages Hq. unfold Spec2.allPages.
  set (S0 := Query.sorted (stores 0%nat) mine).
  assert (HS : forall k, Query.sorted (stores k) mine = S0).
  { intros k. apply (sorted_unique R key); auto. }
  assert (HlenS : length S0 = length mine).
  { apply Permutation_length, (Hsort 0%nat). }
  pose proof (ceilDiv_bounds (Z.of_nat (length mine)) n ltac:(lia)) as Hb.
  assert (Hpages : (length S0 <= pages * Z.to_nat n)%nat).
  { rewrite HlenS. unfold pages. nia. }
  rewrite (flat_map_ext_In _
             (fun k => take (Z.to_nat n) (drop ((k - 1) * Z.to_nat n) S0))).
  - rewrite <- seq_shift, flat_map_concat_map, map_map,
      <- flat_map_concat_map.
    rewrite (flat_map_ext _
               (fun k => take (Z.to_nat n) (drop (k * Z.to_nat n) S0))).
    + rewrite (chunks_cover (Z.to_nat n) S0 pages 0) by lia. reflexivity.
    + intros k. replace (S k - 1)%nat with k by lia. reflexivity.
  - intros k Hk. apply in_seq in Hk.
    pose proof (Hq k ltac:(lia)) as Hqk.
    rewrite (paged_positive (stores k) (q k) qlimit dflt err mine
               (Z.of_nat k) n Hqk Hqn) by (unfold pages in *; nia).
    cbv zeta. cbn [Spec2.itemsOf Query.items]. rewrite HS.
    replace (Z.to_nat ((Z.of_nat k - 1) * n)) with ((k - 1) * Z.to_nat n)%nat
      by nia.
    reflexivity.
Qed.

Lemma paged_beyond {A} (store : Query.Store A) qpage qlimit dflt err
    (mine : list A) (R : relation A) p n :
  Query.queryNumber qpage 1 = JsNumber.Fin p ->
  Query.queryNumber qlimit dflt = JsNumber.Fin n ->
  1 <= n <= JsNumber.maxSafe ->
  (p - 1) * n <= JsNumber.maxSafe ->
  Spec2.sortedBy R store mine ->
  JsDate.ceilDiv (Z.of_nat (length mine)) n < p ->
  Spec2.itemsOf (Query.paged store qpage qlimit dflt err mine) = [].
Proof.
  intros Hqp Hqn Hn Hskip [Hperm _] Hp.
  pose proof (ceilDiv_bounds (Z.of_nat (length mine)) n ltac:(lia)) as Hb.
  assert (Hp1 : 1 <= p).
  { assert (0 <= JsDate.ceilDiv (Z.of_nat (length mine)) n); [|lia]. nia. }
  rewrite (paged_positive store qpage qlimit dflt err mine p n)
    by assumption.
  cbv zeta. cbn [Spec2.itemsOf Query.items].
  rewrite drop_ge; [apply take_nil|].
  rewrite (Permutation_length Hperm). nia.
Qed.

(** X2.  For a limit of at least one and documents created at pairwise
    distinct times, the pages [1..pages] of [GET /documents], each a query
    of its own, hold the requester's documents exactly once each, newest
    first, and every page after the last one is empty. *)
Theorem getDocuments_pages_cover (stores : nat -> Query.Store Document.t)
    reqUser qlimit db (q : nat -> option string) n :
  let mine := myDocuments reqUser db in
  Query.queryNumber qlimit 20 = JsNumber.Fin n ->
  1 <= n <= JsNumber.maxSafe ->
  Z.of_nat (length mine) <= JsNumber.maxSafe ->
  NoDup (List.map Document.createdAt mine) ->
  (forall k, Spec2.sortedBy newerFirst (stores k) mine) ->
  let pages := Z.to_nat (JsDate.ceilDiv (Z.of_nat (length mine)) n) in
  (forall k, (1 <= k <= pages)%nat ->
             Query.queryNumber (q k) 1 = JsNumber.Fin (Z.of_nat k)) ->
  let all :=
    Spec2.allPages
      (fun k => Spec2.itemsOf (getDocuments (stores k) reqUser (q k) qlimit db))
      pages in
  Permutation all mine
  /\ StronglySorted newerFirst all
  /\ NoDup all
  /\ (forall d, In d all <-> In d (documents db) /\ Document.user d = reqUser)
  /\ (forall store qpage p,
        Spec2.sortedBy newerFirst store mine ->
        Query.queryNumber qpage 1 = JsNumber.Fin p ->
        Z.of_nat pages < p -> (p - 1) * n <= JsNumber.maxSafe ->
        Spec2.itemsOf (getDocuments store reqUser qpage qlimit db) = []).
Proof.
  intros mine Hqn Hn Hlen Hnd Hsort pages Hq all.
  assert (Hall : all = Query.sorted (stores 0%nat) mine).
  { apply (paged_pages_cover newerFirst Document.createdAt stores qlimit 20
             DocumentsController.serverError mine q n); try assumption.
    intros x y. unfold newerFirst. lia. }
  destruct (Hsort 0%nat) as [Hperm Hsorted].
  split; [rewrite Hall; exact Hperm|].
  split; [rewrite Hall; exact Hsorted|].
  split.
  { rewrite Hall, Hperm. apply (NoDup_fmap_1 Document.createdAt), Hnd. }
  split.
  { intros d. rewrite <- myDocuments_In. fold mine.
    rewrite <- !list_elem_of_In, Hall, Hperm. reflexivity. }
  intros store qpage p Hs Hqp Hp Hskip. unfold getDocuments.
  apply (paged_beyond store qpage qlimit 20 _ (myDocuments reqUser db)
           newerFirst p n Hqp Hqn Hn Hskip Hs).
  fold mine. unfold pages in Hp.
  pose proof (ceilDiv_bounds (Z.of_nat (length mine)) n ltac:(lia)) as Hb.
  nia.
Qed.

(** Alice's three documents, two a page: pages 1 and 2 together give all
    of them, newest first (created at 30, 20, 10). *)
Lemma getDocuments_pages_cover_witness :
  let all :=
    Spec2.allPages
      (fun k => Spec2.itemsOf
                  (getDocuments Sample2.documentStore Sample.alice
                                (Sample2.pageQuery k) (Some "2"%string)
                                Sample2.shelf))
      2 in
  Permutation all (myDocuments Sample.alice Sample2.shelf)
  /\ List.map Document._id all = [Sample2.a2; Sample2.a3; Sample2.a1].
Proof.
  intros all. split; [|vm_compute; reflexivity].
  refine (proj1 (getDocuments_pages_cover (fun _ => Sample2.documentStore)
                   Sample.alice (Some "2"%string) Sample2.shelf
                   Sample2.pageQuery 2 _ _ _ _ _ _)).
  - reflexivity.
  - vm_compute. split; discriminate.
  - vm_compute. discriminate.
  - apply (bool_decide_unpack _). vm_compute. exact I.
  - intros k. apply sample_store_sorts; apply _.
  - intros k Hk. change (1 <= k <= 2)%nat in Hk.
    destruct k as [|[|[|k]]]; try lia; reflexivity.
Defined.



End ListingCover.

(* --------------------------------------------------------------------- *)
(** ** Writing and deleting documents                                    *)
(* --------------------------------------------------------------------- *)

Section DocumentWrites.
Local Open Scope Z_scope.
Import DocumentsController DocumentsApi.

Lemma updateById_ids {A} (idOf : A -> ObjectId) id f (l : list A) :
  (forall x, idOf (f x) = idOf x) ->
  List.map idOf (updateById idOf id f l) = List.map idOf l.
Proof.
  intros Hf. induction l as [|x l IH]; [reflexivity|]. cbn.
  destruct (String.eqb (idOf x) id); cbn; [rewrite Hf|rewrite IH]; reflexivity.
Qed.

Lemma findById_In_ids {A} (idOf : A -> ObjectId) id (l : list A) :
  findById idOf id l = None <-> ~ In id (List.map idOf l).
Proof.
  rewrite findById_none, in_map_iff. split.
  - intros H (x & Hx & Hin). exact (H x Hin Hx).
  - intros H x Hin Hx. apply H. exists x. auto.
Qed.

Lemma removeById_other id id' l :
  id' <> id ->
  findById Document._id id' (removeById id l) = findById Document._id id' l.
Proof.
  intros Hne. unfold findById. induction l as [|x l IH]; [reflexivity|]. cbn.
  destruct (String.eqb_spec (Document._id x) id) as [E|E].
  - destruct (String.eqb_spec (Document._id x) id'); [congruence|reflexivity].
  - cbn. rewrite IH. reflexivity.
Qed.

Lemma removeById_ids id l :
  sublist (List.map Document._id (removeById id l)) (List.map Document._id l).
Proof.
  induction l as [|x l IH]; [constructor|]. cbn.
  destruct (String.eqb (Document._id x) id); cbn.
  - apply sublist_cons. reflexivity.
  - apply sublist_skip, IH.
Qed.

Lemma removeById_gone id l :
  NoDup (List.map Document._id l) ->
  findById Document._id id (removeById id l) = None.
Proof.
  intros Hnd. induction l as [|x l IH]; [reflexivity|]. cbn in *.
  apply NoDup_cons in Hnd as [Hx Hnd].
  destruct (String.eqb_spec (Document._id x) id) as [E|E].
  - subst id. apply findById_In_ids. rewrite <- list_elem_of_In. exact Hx.
  - unfold findById. cbn.
    destruct (String.eqb_spec (Document._id x) id); [contradiction|].
    apply IH, Hnd.
Qed.


Lemma construct_fields newId now b d :
  Document.construct newId now b = Some d ->
  Document._id d = newId /\ Document.i_user b = Some (Document.user d)
  /\ Document.createdAt d
     = match Document.i_createdAt b with Some c => c | None => now end.
Proof.
  unfold Document.construct. intros H.
  repeat match type of H with
         | match ?x with _ => _ end = _ => destruct x eqn:?; try discriminate
         | (if ?x then _ else _) = _ => destruct x; try discriminate
         end;
    injection H as <-; repeat split; reflexivity.
Qed.



End DocumentWrites.

Section ObjectIdFacts.

Lemma mapChars_length f s : String.length (mapChars f s) = String.length s.
Proof. induction s as [|c s IH]; [reflexivity|]. cbn. now rewrite IH. Qed.

Lemma isUpperHex_lower c :
  isUpperHex c = true ->
  isLowerHex (ascii_of_nat (nat_of_ascii c + 32)) = true.
Proof.
  unfold isUpperHex, isLowerHex, isDigit. intros H.
  apply andb_true_iff in H as [H1 H2].
  apply Nat.leb_le in H1, H2.
  rewrite nat_ascii_embedding by lia.
  apply orb_true_iff. right. apply andb_true_iff.
  split; apply Nat.leb_le; lia.
Qed.

Lemma isLowerHex_not_upper c : isLowerHex c = true -> isUpperHex c = false.
Proof.
  unfold isUpperHex, isLowerHex, isDigit. intros H.
  apply orb_true_iff in H as [H|H]; apply andb_true_iff in H as [H1 H2];
    apply Nat.leb_le in H1, H2; apply andb_false_iff;
    [left|right]; apply Nat.leb_gt; lia.
Qed.

(** What a text casts to is an ObjectId in its canonical form. *)
Lemma castObjectId_isObjectId text id :
  castObjectId text = Some id -> isObjectId id = true.
Proof.
  unfold castObjectId, isObjectId.
  destruct (String.length text =? 24)%nat eqn:Hl; [|discriminate].
  cbn [andb].
  destruct (allChars _ text) eqn:Ha; [|discriminate].
  intros [= <-]. rewrite mapChars_length, Hl. cbn [andb].
  clear Hl. induction text as [|c text IH]; [reflexivity|].
  cbn [allChars mapChars] in *. apply andb_true_iff in Ha as [Hc Ha].
  rewrite (IH Ha), andb_true_r.
  destruct (isUpperHex c) eqn:Hu; [apply isUpperHex_lower, Hu|].
  rewrite orb_false_r in Hc. exact Hc.
Qed.

(** An ObjectId in canonical form casts to itself. *)
Lemma isObjectId_cast id : isObjectId id = true -> castObjectId id = Some id.
Proof.
  unfold castObjectId, isObjectId. intros H.
  apply andb_true_iff in H as [Hl Ha]. rewrite Hl. cbn [andb].
  assert (Hboth : allChars (fun c => isLowerHex c || isUpperHex c) id = true
                  /\ mapChars (fun c => if isUpperHex c
                                        then ascii_of_nat (nat_of_ascii c + 32)
                                        else c) id = id).
  { clear Hl. induction id as [|c id IH]; [split; reflexivity|].
    cbn [allChars mapChars] in *. apply andb_true_iff in Ha as [Hc Ha].
    destruct (IH Ha) as [IH1 IH2].
    rewrite Hc, IH1, IH2, (isLowerHex_not_upper c Hc). split; reflexivity. }
  destruct Hboth as [-> ->]. reflexivity.
Qed.

Lemma routeId_cast text id : castObjectId text = Some id -> routeId text = id.
Proof. unfold routeId. intros ->. reflexivity. Qed.

(** A text that casts to no ObjectId is the [_id] of no record of a store
    that holds ObjectIds. *)
Lemma routeId_malformed {A} (idOf : A -> ObjectId) text (l : list A) :
  castObjectId text = None ->
  Forall (fun x => isObjectId (idOf x) = true) l ->
  routeId text = text /\ isObjectId text = false
  /\ findById idOf text l = None.
Proof.
  intros Hc Hall.
  assert (Hn : isObjectId text = false).
  { destruct (isObjectId text) eqn:E; [|reflexivity].
    apply isObjectId_cast in E. congruence. }
  split; [unfold routeId; rewrite Hc; reflexivity|]. split; [exact Hn|].
  apply findById_none. intros x Hin Heq.
  rewrite Forall_forall in Hall. apply list_elem_of_In in Hin.
  specialize (Hall x Hin). rewrite Heq in Hall. congruence.
Qed.

End ObjectIdFacts.

Section DocumentGuards.
Local Open Scope Z_scope.
Import DocumentsController DocumentsApi.

Lemma applyUpdate_id b st d :
  Document._id (Document.applyUpdate b st d) = Document._id d.
Proof. reflexivity. Qed.

Lemma updateDocument_shape reqUser id body db :
  let r := updateDocument reqUser id body db in
  snd r = db
  \/ exists st, snd r = withDocuments
                          (updateById Document._id id
                             (Document.applyUpdate body st) (documents db)) db.
Proof.
  cbv zeta. unfold updateDocument, Document.findByIdAndUpdate.
  destruct (findById Document._id id (documents db)) as [d|];
    [|destruct (isObjectId id); now left].
  destruct (negb _); [now left|].
  destruct (_ && _); [|now left].
  destruct (match Document.i_status body with
            | Some s => option_map Some (Document.parseStatus s)
            | None => Some None
            end) as [st|]; [|now left].
  right. exists st. reflexivity.
Qed.

(** X5.  [PUT /documents/:id] answers 404 for an ObjectId that no stored
    document has, 500 for a route text that is no ObjectId (the store
    holding ObjectIds), and 401 for a requester who is not the stored
    owner, and then writes nothing; a route text of 24 hexadecimal digits
    addresses the document whose id has these digits, whatever the case of
    the letters.  In every case at most the addressed document changes:
    the stored ids stay the same, in the same order, every other document
    is found unchanged, and payments, bookings and users are not
    touched. *)
Theorem updateDocument_guarded reqUser id body db :
  let r := updateDocument reqUser id body db in
  (findById Document._id id (documents db) = None ->
   (isObjectId id = true -> r = (fail 404 "Document not found", db))
   /\ (isObjectId id = false ->
       r = (fail 500 "Server error. Please try again.", db)))
  /\ (forall text,
         Forall (fun d => isObjectId (Document._id d) = true) (documents db) ->
         (castObjectId text = None ->
          updateDocument reqUser (routeId text) body db
          = (fail 500 "Server error. Please try again.", db))
         /\ (forall oid, castObjectId text = Some oid ->
               routeId text = oid
               /\ (findById Document._id oid (documents db) = None ->
                   updateDocument reqUser (routeId text) body db
                   = (fail 404 "Document not found", db))))
  /\ (forall d, findById Document._id id (documents db) = Some d ->
                Document.user d <> reqUser ->
                r = (fail 401 "Not authorized to update this document", db))
  /\ List.map Document._id (documents (snd r))
     = List.map Document._id (documents db)
  /\ (forall id', id' <> id ->
                  findById Document._id id' (documents (snd r))
                  = findById Document._id id' (documents db))
  /\ payments (snd r) = payments db /\ bookings (snd r) = bookings db
  /\ users (snd r) = users db.
Proof.
  intros r.
  split.
  { intros H. unfold r, updateDocument. rewrite H.
    split; intros ->; reflexivity. }
  split.
  { intros text Hall. split.
    - intros Hc.
      destruct (routeId_malformed Document._id text (documents db) Hc Hall)
        as (-> & Hn & Hf).
      unfold updateDocument. rewrite Hf, Hn. reflexivity.
    - intros oid Hc. rewrite (routeId_cast _ _ Hc). split; [reflexivity|].
      intros Hf. unfold updateDocument.
      rewrite Hf, (castObjectId_isObjectId _ _ Hc). reflexivity. }
  split.
  { intros d H Hne. unfold r, updateDocument. rewrite H.
    destruct (String.eqb_spec (Document.user d) reqUser); [contradiction|].
    reflexivity. }
  destruct (updateDocument_shape reqUser id body db) as [H|[st H]];
    fold r in H; rewrite H.
  - repeat split.
  - cbn [documents payments bookings users withDocuments].
    split; [apply updateById_ids, applyUpdate_id|].
    split; [|repeat split].
    intros id' Hne. apply findById_updateById_other; [exact Hne|].
    apply applyUpdate_id.
Qed.

(** Bob tries to change Alice's licence: 401, nothing written.  A request
    for [/documents/nope] is answered 500, one for an ObjectId that is not
    stored 404, and one for Alice's licence with its id in upper case finds
    it. *)
Lemma updateDocument_guarded_witness :
  let body := Sample.licenceInput (Sample.t0 + 900 * JsDate.msPerDay) None in
  updateDocument Sample.bob Sample.docId body Sample.licenceDB
  = (fail 401 "Not authorized to update this document", Sample.licenceDB)
  /\ updateDocument Sample.alice (routeId "nope") body Sample.licenceDB
     = (fail 500 "Server error. Please try again.", Sample.licenceDB)
  /\ updateDocument Sample.alice (routeId Sample.otherId) body Sample.licenceDB
     = (fail 404 "Document not found", Sample.licenceDB)
  /\ routeId "64D000000000000000000001" = Sample.docId.
Proof.
  intros body.
  assert (Hall : Forall (fun d => isObjectId (Document._id d) = true)
                        (documents Sample.licenceDB))
    by (repeat constructor).
  destruct (updateDocument_guarded Sample.bob Sample.docId body
              Sample.licenceDB) as (_ & _ & H401 & _).
  destruct (updateDocument_guarded Sample.alice Sample.docId body
              Sample.licenceDB) as (_ & Htext & _).
  split; [apply (H401 Sample.lapsedLicence); [reflexivity|discriminate]|].
  split; [apply (proj1 (Htext "nope"%string Hall)); reflexivity|].
  split.
  { apply (proj2 (Htext Sample.otherId Hall) Sample.otherId); reflexivity. }
  apply (proj2 (Htext "64D000000000000000000001"%string Hall) Sample.docId).
  reflexivity.
Defined.

(** X6.  The update takes the request body as it comes, [user] included:
    the owner of a document can hand it over to another identity, after
    which the former owner's own update and delete requests for it are
    answered 401 and the new owner's are accepted. *)
Theorem updateDocument_hands_over reqUser other id db d :
  findById Document._id id (documents db) = Some d ->
  Document.user d = reqUser ->
  other <> reqUser ->
  let r := updateDocument reqUser id (Spec2.handOver other) db in
  code (fst r) = 200
  /\ (exists d', findById Document._id id (documents (snd r)) = Some d'
                 /\ Document.user d' = other
                 /\ Document.expiryDate d' = Document.expiryDate d
                 /\ Document.status d' = Document.status d)
  /\ (forall body,
         updateDocument reqUser id body (snd r)
         = (fail 401 "Not authorized to update this document", snd r))
  /\ deleteDocument reqUser id (snd r)
     = (fail 401 "Not authorized to delete this document", snd r)
  /\ code (fst (deleteDocument other id (snd r))) = 200.
Proof.
  intros Hfind Hu Hne r.
  assert (Hr : r = (mkResponse 200 true
                      (Some "Document updated successfully"%string)
                      (DocumentPayload
                         (Document.applyUpdate (Spec2.handOver other) None d)),
                    withDocuments
                      (updateById Document._id id
                         (Document.applyUpdate (Spec2.handOver other) None)
                         (documents db)) db)).
  { unfold r, updateDocument, Document.findByIdAndUpdate.
    rewrite Hfind, Hu, String.eqb_refl. cbn.
    rewrite (findById_updateById Document._id id _ _ d Hfind);
      [reflexivity|].
    apply (findById_some Document._id) in Hfind. apply Hfind. }
  assert (Hnew : findById Document._id id (documents (snd r))
                 = Some (Document.applyUpdate (Spec2.handOver other) None d)).
  { rewrite Hr. cbn [snd documents withDocuments].
    apply findById_updateById; [exact Hfind|].
    apply (findById_some Document._id) in Hfind. apply Hfind. }
  split; [rewrite Hr; reflexivity|].
  split; [eexists; split; [exact Hnew|repeat split]|].
  split.
  { intros body. unfold updateDocument. rewrite Hnew. cbn.
    destruct (String.eqb_spec other reqUser); [contradiction|]. reflexivity. }
  split.
  { unfold deleteDocument. rewrite Hnew. cbn.
    destruct (String.eqb_spec other reqUser); [contradiction|]. reflexivity. }
  unfold deleteDocument. rewrite Hnew. cbn. rewrite String.eqb_refl.
  reflexivity.
Qed.

(** Alice hands her licence over to Bob and can no longer delete it. *)
Lemma updateDocument_hands_over_witness :
  let r := updateDocument Sample.alice Sample.docId
             (Spec2.handOver Sample.bob) Sample.licenceDB in
  code (fst r) = 200
  /\ deleteDocument Sample.alice Sample.docId (snd r)
     = (fail 401 "Not authorized to delete this document", snd r).
Proof.
  intros r.
  destruct (updateDocument_hands_over Sample.alice Sample.bob Sample.docId
              Sample.licenceDB Sample.lapsedLicence)
    as (Hc & _ & _ & Hdel & _); [reflexivity|reflexivity|discriminate|].
  split; [exact Hc|exact Hdel].
Defined.

(** X7.  [DELETE /documents/:id] answers 404 for an ObjectId that no
    stored document has, 500 for a route text that is no ObjectId (the
    store holding ObjectIds), and 401 for a requester who is not the
    owner, writing nothing; for the owner it answers 200, after which (ids
    being unique) the document is no longer found, every other document
    still is, and a second delete is answered 404. *)
Theorem deleteDocument_guarded reqUser id db :
  Spec2.uniqueIds db ->
  let r := deleteDocument reqUser id db in
  (findById Document._id id (documents db) = None ->
   (isObjectId id = true -> r = (fail 404 "Document not found", db))
   /\ (isObjectId id = false ->
       r = (fail 500 "Server error. Please try again.", db)))
  /\ (forall text,
         Forall (fun d => isObjectId (Document._id d) = true) (documents db) ->
         (castObjectId text = None ->
          deleteDocument reqUser (routeId text) db
          = (fail 500 "Server error. Please try again.", db))
         /\ (forall oid, castObjectId text = Some oid ->
               findById Document._id oid (documents db) = None ->
               deleteDocument reqUser (routeId text) db
               = (fail 404 "Document not found", db)))
  /\ (forall d, findById Document._id id (documents db) = Some d ->
                Document.user d <> reqUser ->
                r = (fail 401 "Not authorized to delete this document", db))
  /\ (forall d, findById Document._id id (documents db) = Some d ->
                Document.user d = reqUser ->
                fst r = mkResponse 200 true
                          (Some "Document deleted successfully"%string) NoPayload
                /\ findById Document._id id (documents (snd r)) = None
                /\ (forall id', id' <> id ->
                      findById Document._id id' (documents (snd r))
                      = findById Document._id id' (documents db))
                /\ length (documents db) = S (length (documents (snd r)))
                /\ (forall d', In d' (documents (snd r)) ->
                               In d' (documents db))
                /\ payments (snd r) = payments db
                /\ bookings (snd r) = bookings db
                /\ users (snd r) = users db
                /\ (isObjectId id = true ->
                    deleteDocument reqUser id (snd r)
                    = (fail 404 "Document not found", snd r))).
Proof.
  intros Hu r.
  split.
  { intros H. unfold r, deleteDocument. rewrite H.
    split; intros ->; reflexivity. }
  split.
  { intros text Hall. split.
    - intros Hc.
      destruct (routeId_malformed Document._id text (documents db) Hc Hall)
        as (-> & Hn & Hf).
      unfold deleteDocument. rewrite Hf, Hn. reflexivity.
    - intros oid Hc Hf. rewrite (routeId_cast _ _ Hc). unfold deleteDocument.
      rewrite Hf, (castObjectId_isObjectId _ _ Hc). reflexivity. }
  split.
  { intros d H Hne. unfold r, deleteDocument. rewrite H.
    destruct (String.eqb_spec (Document.user d) reqUser); [contradiction|].
    reflexivity. }
  intros d H Ho.
  destruct (findById_some _ _ _ _ H) as [Hid Hin].
  assert (Hr : r = (mkResponse 200 true
                      (Some "Document deleted successfully"%string) NoPayload,
                    withDocuments (removeById id (documents db)) db)).
  { unfold r, deleteDocument. rewrite H, Ho, String.eqb_refl, Hid.
    reflexivity. }
  rewrite Hr. cbn [fst snd documents payments bookings users withDocuments].
  assert (Hgone : findById Document._id id (removeById id (documents db)) = None)
    by (apply removeById_gone, Hu).
  split; [reflexivity|]. split; [exact Hgone|].
  split; [intros id' Hne; apply removeById_other, Hne|].
  split.
  { clear -H. unfold findById in H.
    induction (documents db) as [|x l IH]; [discriminate|]. cbn in *.
    destruct (String.eqb (Document._id x) id); [reflexivity|].
    cbn. rewrite (IH H). reflexivity. }
  split.
  { intros d'. clear. induction (documents db) as [|x l IH]; [intros []|].
    cbn [removeById]. destruct (String.eqb (Document._id x) id).
    - intros Hd. now right.
    - intros [->|Hd]; [now left|right; apply IH, Hd]. }
  split; [reflexivity|]. split; [reflexivity|]. split; [reflexivity|].
  intros Hwf. unfold deleteDocument. cbn [documents withDocuments].
  rewrite Hgone, Hwf. reflexivity.
Qed.

(** Alice deletes her licence; deleting it again is answered 404, and
    [DELETE /documents/nope] is answered 500. *)
Lemma deleteDocument_guarded_witness :
  let r := deleteDocument Sample.alice Sample.docId Sample.licenceDB in
  Spec2.uniqueIds Sample.licenceDB
  /\ code (fst r) = 200 /\ documents (snd r) = []
  /\ deleteDocument Sample.alice Sample.docId (snd r)
     = (fail 404 "Document not found", snd r)
  /\ deleteDocument Sample.alice (routeId "nope") Sample.licenceDB
     = (fail 500 "Server error. Please try again.", Sample.licenceDB).
Proof.
  intros r.
  assert (Hu : Spec2.uniqueIds Sample.licenceDB).
  { unfold Spec2.uniqueIds. cbn. apply NoDup_singleton. }
  assert (Hall : Forall (fun d => isObjectId (Document._id d) = true)
                        (documents Sample.licenceDB))
    by (repeat constructor).
  destruct (deleteDocument_guarded Sample.alice Sample.docId
              Sample.licenceDB Hu) as (_ & Htext & _ & Hown).
  destruct (Hown Sample.lapsedLicence eq_refl eq_refl)
    as (Hresp & _ & _ & _ & _ & _ & _ & _ & Hagain).
  split; [exact Hu|]. fold r in Hresp, Hagain.
  split; [rewrite Hresp; reflexivity|]. split; [reflexivity|].
  split; [apply Hagain; reflexivity|].
  apply (proj1 (Htext "nope"%string Hall)). reflexivity.
Defined.

End DocumentGuards.

(* --------------------------------------------------------------------- *)
(** ** Payment verification: what it writes and what it leaves alone     *)
(* --------------------------------------------------------------------- *)

Section PaymentFrame.
Local Open Scope Z_scope.
Import JsDate PaymentController.

(** The three ways a verify request can leave the store: untouched; with
    one payment appended; with one payment appended and the target
    document renewed. *)
Lemma verifyPayment_shape env reqUser newId now today body db :
  let r := verifyPayment env reqUser newId now today body db in
  snd r = db
  \/ exists payment docId,
       recorded (reference body) (payments db) = false
       /\ Spec.gatewayConfirms env (reference body) = true
       /\ documentId body = Some docId
       /\ Payment.paystackReference payment = reference body
       /\ Payment.user payment = reqUser
       /\ (snd r = withPayments (payments db ++ [payment]) db
           \/ exists document newDate,
                findById Document._id docId (documents db) = Some document
                /\ snd r
                   = withDocuments
                       (updateById Document._id docId
                          (fun _ => Document.preSave today
                                      (Document.setStatus Document.valid
                                         (Document.setExpiryDate newDate
                                            document)))
                          (documents db))
                       (withPayments (payments db ++ [payment]) db)).
Proof.
  cbv zeta.
  destruct (Spec.gatewayConfirms env (reference body)) eqn:Hg.
  - destruct (recorded (reference body) (payments db)) eqn:Hrec.
    { left. apply verifyPayment_recorded_no_write, Hrec. }
    destruct (documentId body) as [docId|] eqn:Hdoc.
    + destruct (String.eqb_spec (reference body) "") as [He|He].
      * left. destruct (gatewayConfirms_inv _ _ Hg) as (k & data & Hk & Hne & Hp & Hs).
        unfold verifyPayment, createPayment.
        rewrite Hk, Hne, Hp, Hs, Hrec, Hdoc. cbn [negb].
        unfold nonEmpty. rewrite He. reflexivity.
      * destruct (verifyPayment_first env reqUser newId now today body db docId
                    Hg Hrec He Hdoc) as (data & payment & Hp & Hpay & Hv).
        rewrite Hv. right. exists payment, docId.
        repeat (split; [first [reflexivity|subst payment; reflexivity]|]).
        destruct (findById Document._id docId (documents db)) as [document|] eqn:Hf;
          [|now left].
        destruct (if Document.expiryDate document <? now then _ else _)
          as [newDate|]; [|now left].
        right. exists document, newDate. split; [reflexivity|].
        cbn [snd Document.save Document._id Document.setStatus
             Document.setExpiryDate].
        apply (findById_some Document._id) in Hf as [Hid _]. rewrite Hid.
        reflexivity.
    + left. destruct (gatewayConfirms_inv _ _ Hg) as (k & data & Hk & Hne & Hp & Hs).
      unfold verifyPayment, createPayment.
      rewrite Hk, Hne, Hp, Hs, Hrec, Hdoc. reflexivity.
  - left. unfold Spec.gatewayConfirms in Hg. unfold verifyPayment.
    destruct (PAYSTACK_SECRET_KEY env) as [k|]; [|reflexivity].
    destruct (nonEmpty k); [|reflexivity]. cbn [negb andb] in *.
    destruct (paystack env (reference body)) as [|data]; [reflexivity|].
    rewrite Hg. reflexivity.
Qed.

(** X11.  When the gateway does not confirm the reference (no secret key,
    a failed call, or a status other than 'success') the request is
    answered 400 or 500 and nothing is written: no payment is recorded and
    no document is renewed. *)
Theorem verifyPayment_unconfirmed env reqUser newId now today body db :
  Spec.gatewayConfirms env (reference body) = false ->
  let r := verifyPayment env reqUser newId now today body db in
  snd r = db
  /\ (fst r = fail 400 "Payment verification failed"
      \/ fst r = fail 500 "Verification failed")
  /\ (fst r = fail 400 "Payment verification failed"
      <-> exists k data,
            PAYSTACK_SECRET_KEY env = Some k /\ k <> ""%string
            /\ paystack env (reference body) = GatewayData data
            /\ g_status data <> "success"%string).
Proof.
  intros Hg r. subst r. unfold Spec.gatewayConfirms in Hg.
  unfold verifyPayment.
  destruct (PAYSTACK_SECRET_KEY env) as [k|].
  2:{ split; [reflexivity|]. split; [now right|].
      split; [discriminate|intros (k & d & H & _); discriminate]. }
  destruct (nonEmpty k) eqn:Hk; cbn [negb andb] in *.
  2:{ split; [reflexivity|]. split; [now right|].
      split; [discriminate|].
      intros (k' & d & [= <-] & Hne & _). unfold nonEmpty in Hk.
      apply negb_false_iff, String.eqb_eq in Hk. contradiction. }
  destruct (paystack env (reference body)) as [|data].
  { split; [reflexivity|]. split; [now right|].
    split; [discriminate|intros (k' & d & _ & _ & H & _); discriminate]. }
  rewrite Hg. cbn [negb fst snd].
  split; [reflexivity|]. split; [now left|].
  split; [intros _|reflexivity].
  exists k, data. split; [reflexivity|].
  split; [unfold nonEmpty in Hk; apply negb_true_iff, String.eqb_neq in Hk;
          exact Hk|].
  split; [reflexivity|]. apply String.eqb_neq, Hg.
Qed.

(** A reference the sample gateway does not know: 500, nothing written. *)
Lemma verifyPayment_unconfirmed_witness :
  verifyPayment Sample.env Sample.alice Sample.payId Sample.t0 Sample.t0
    (mkBody "ref_unknown" (Some Sample.docId)) Sample.licenceDB
  = (fail 500 "Verification failed", Sample.licenceDB).
Proof.
  destruct (verifyPayment_unconfirmed Sample.env Sample.alice Sample.payId
              Sample.t0 Sample.t0 (mkBody "ref_unknown" (Some Sample.docId))
              Sample.licenceDB eq_refl) as (Hs & _ & _).
  rewrite <- Hs at 2. reflexivity.
Defined.

End PaymentFrame.

Section PaymentInvariants.
Local Open Scope Z_scope.
Import JsDate PaymentController.

Lemma recorded_In ref ps :
  recorded ref ps = true <-> In ref (List.map Payment.paystackReference ps).
Proof.
  unfold recorded. rewrite existsb_exists, in_map_iff. split.
  - intros (p & Hin & He). apply String.eqb_eq in He. eauto.
  - intros (p & He & Hin). exists p. split; [exact Hin|].
    apply String.eqb_eq, He.
Qed.

(** X12.  A verify request keeps the gateway references of the recorded
    payments pairwise distinct, never removes or changes a recorded
    payment, and adds at most one, which carries the request's reference
    and the requester as its user. *)
Theorem verifyPayment_unique_references env reqUser newId now today body db :
  Spec2.uniqueReferences db ->
  let r := verifyPayment env reqUser newId now today body db in
  Spec2.uniqueReferences (snd r)
  /\ (payments (snd r) = payments db
      \/ exists payment,
           payments (snd r) = payments db ++ [payment]
           /\ Payment.paystackReference payment = reference body
           /\ Payment.user payment = reqUser
           /\ recorded (reference body) (payments db) = false).
Proof.
  intros Hu r.
  destruct (verifyPayment_shape env reqUser newId now today body db)
    as [H|(payment & docId & Hrec & _ & _ & Href & Huser & H)]; fold r in H.
  - rewrite H. split; [exact Hu|now left].
  - assert (Hp : payments (snd r) = payments db ++ [payment]).
    { destruct H as [H|(document & newDate & _ & H)]; rewrite H; reflexivity. }
    split; [|right; exists payment; auto].
    unfold Spec2.uniqueReferences in *. rewrite Hp, map_app. cbn.
    apply NoDup_app. split; [exact Hu|].
    split; [|apply NoDup_singleton].
    intros x Hx Hx'. apply list_elem_of_In in Hx.
    apply list_elem_of_singleton in Hx'. subst x. rewrite Href in Hx.
    apply recorded_In in Hx. congruence.
Qed.

(** After Alice's renewal there is one payment, and a replay adds none. *)
Lemma verifyPayment_unique_references_witness :
  let r := verifyPayment Sample.env Sample.alice Sample.payId Sample.t0
             Sample.t0 Sample.renewal Sample.licenceDB in
  let r2 := verifyPayment Sample.env Sample.bob Sample.otherId
              (Sample.t0 + 9) (Sample.t0 + 9) Sample.renewal (snd r) in
  Spec2.uniqueReferences Sample.licenceDB
  /\ Spec2.uniqueReferences (snd r2)
  /\ length (payments (snd r2)) = 1%nat.
Proof.
  intros r r2.
  assert (H0 : Spec2.uniqueReferences Sample.licenceDB) by constructor.
  pose proof (proj1 (verifyPayment_unique_references Sample.env Sample.alice
                       Sample.payId Sample.t0 Sample.t0 Sample.renewal
                       Sample.licenceDB H0)) as H1.
  pose proof (proj1 (verifyPayment_unique_references Sample.env Sample.bob
                       Sample.otherId (Sample.t0 + 9) (Sample.t0 + 9)
                       Sample.renewal _ H1)) as H2.
  split; [exact H0|]. split; [exact H2|reflexivity].
Defined.

(** X13.  A verify request changes at most one document, the one its
    [documentId] names, and of that one only the expiry date and the
    status; the stored ids stay the same in the same order, and bookings
    and users are never touched. *)
Theorem verifyPayment_frame env reqUser newId now today body db :
  let r := verifyPayment env reqUser newId now today body db in
  List.map Document._id (documents (snd r))
  = List.map Document._id (documents db)
  /\ (forall id, documentId body <> Some id ->
                 findById Document._id id (documents (snd r))
                 = findById Document._id id (documents db))
  /\ (forall id d, documentId body = Some id ->
                   findById Document._id id (documents db) = Some d ->
                   exists d', findById Document._id id (documents (snd r))
                              = Some d'
                              /\ Spec2.sameButExpiry d d')
  /\ bookings (snd r) = bookings db /\ users (snd r) = users db.
Proof.
  intros r.
  destruct (verifyPayment_shape env reqUser newId now today body db)
    as [H|(payment & docId & _ & _ & Hdoc & _ & _ & [H|(document & newDate & Hf & H)])];
    fold r in H; rewrite H;
    cbn [documents bookings users withDocuments withPayments].
  - split; [reflexivity|]. split; [reflexivity|].
    split; [|split; reflexivity].
    intros id d _ Hd. exists d. split; [exact Hd|repeat split].
  - split; [reflexivity|]. split; [reflexivity|].
    split; [|split; reflexivity].
    intros id d _ Hd. exists d. split; [exact Hd|repeat split].
  - destruct (findById_some _ _ _ _ Hf) as [Hid _].
    split.
    { clear -Hid. induction (documents db) as [|x l IH]; [reflexivity|].
      cbn. destruct (String.eqb_spec (Document._id x) docId) as [E|E]; cbn.
      - rewrite E, Hid. reflexivity.
      - rewrite IH. reflexivity. }
    split.
    { intros id Hne. assert (id <> docId) by congruence.
      clear -H0 Hid. unfold findById.
      induction (documents db) as [|x l IH]; [reflexivity|]. cbn.
      destruct (String.eqb_spec (Document._id x) docId) as [E|E]; cbn.
      - rewrite Hid. destruct (String.eqb_spec docId id); [congruence|].
        destruct (String.eqb_spec (Document._id x) id); [congruence|].
        reflexivity.
      - destruct (String.eqb_spec (Document._id x) id); [reflexivity|exact IH]. }
    split; [|split; reflexivity].
    intros id d Hbody Hd. rewrite Hdoc in Hbody. injection Hbody as <-.
    rewrite Hf in Hd. injection Hd as <-.
    eexists. split.
    + apply (findById_updateById Document._id docId _ _ document Hf). exact Hid.
    + repeat split.
Qed.

(** X14.  The handler never compares the requester with the document's
    owner: for one and the same request, two requesters get the same
    response and leave the same documents stored, and the payments
    recorded differ at most in the [user] of the record the request adds:
    whoever presents a confirmed, fresh reference renews the named
    document. *)
Theorem verifyPayment_any_requester env reqUser reqUser' newId now today body db :
  let r := verifyPayment env reqUser newId now today body db in
  let r' := verifyPayment env reqUser' newId now today body db in
  fst r' = fst r /\ documents (snd r') = documents (snd r)
  /\ bookings (snd r') = bookings (snd r) /\ users (snd r') = users (snd r)
  /\ List.map Payment.paystackReference (payments (snd r'))
     = List.map Payment.paystackReference (payments (snd r))
  /\ List.map Payment.document (payments (snd r'))
     = List.map Payment.document (payments (snd r))
  /\ exists added added',
       payments (snd r) = payments db ++ added
       /\ payments (snd r') = payments db ++ added'
       /\ (length added <= 1)%nat
       /\ Forall (fun p => Payment.user p = reqUser) added
       /\ Forall (fun p => Payment.user p = reqUser') added'
       /\ forall u, List.map (Spec2.paidBy u) added'
                    = List.map (Spec2.paidBy u) added.
Proof.
  cbv zeta.
  assert (Hnone : forall resp : Response,
             fst (resp, db) = fst (resp, db)
             /\ documents (snd (resp, db)) = documents (snd (resp, db))
             /\ bookings (snd (resp, db)) = bookings (snd (resp, db))
             /\ users (snd (resp, db)) = users (snd (resp, db))
             /\ List.map Payment.paystackReference (payments (snd (resp, db)))
                = List.map Payment.paystackReference
                    (payments (snd (resp, db)))
             /\ List.map Payment.document (payments (snd (resp, db)))
                = List.map Payment.document (payments (snd (resp, db)))
             /\ exists added added',
                  payments (snd (resp, db)) = payments db ++ added
                  /\ payments (snd (resp, db)) = payments db ++ added'
                  /\ (length added <= 1)%nat
                  /\ Forall (fun p => Payment.user p = reqUser) added
                  /\ Forall (fun p => Payment.user p = reqUser') added'
                  /\ forall u, List.map (Spec2.paidBy u) added'
                               = List.map (Spec2.paidBy u) added).
  { intros resp. do 6 (split; [reflexivity|]).
    exists [], []. cbn [snd]. rewrite app_nil_r.
    repeat split; try constructor. cbn. lia. }
  unfold verifyPayment.
  destruct (PAYSTACK_SECRET_KEY env) as [k|]; [|apply Hnone].
  destruct (negb (nonEmpty k)); [apply Hnone|].
  destruct (paystack env (reference body)) as [|data]; [apply Hnone|].
  destruct (negb _); [apply Hnone|].
  destruct (recorded _ _); [apply Hnone|].
  unfold createPayment.
  destruct (documentId body) as [docId|]; [|apply Hnone].
  destruct (nonEmpty (reference body)); [|apply Hnone].
  cbn [Payment.document withPayments documents].
  assert (Hadded : forall p p' : Payment.t,
             p = Payment.mk newId reqUser docId "renewal" (g_amount data)
                   (g_currency data) (reference body) (g_id data)
                   Payment.success now ->
             p' = Payment.mk newId reqUser' docId "renewal" (g_amount data)
                    (g_currency data) (reference body) (g_id data)
                    Payment.success now ->
             exists added added',
               payments db ++ [p] = payments db ++ added
               /\ payments db ++ [p'] = payments db ++ added'
               /\ (length added <= 1)%nat
               /\ Forall (fun p => Payment.user p = reqUser) added
               /\ Forall (fun p => Payment.user p = reqUser') added'
               /\ forall u, List.map (Spec2.paidBy u) added'
                            = List.map (Spec2.paidBy u) added).
  { intros p p' -> ->. eexists [_], [_].
    split; [reflexivity|]. split; [reflexivity|]. split; [cbn; lia|].
    split; [repeat constructor|]. split; [repeat constructor|].
    intros u. reflexivity. }
  destruct (findById Document._id docId (documents db)) as [document|].
  - destruct (if Document.expiryDate document <? now then _ else _);
      cbn [fst snd documents payments bookings users withDocuments
           withPayments Document.save];
      rewrite ?map_app; do 6 (split; [reflexivity|]);
      apply Hadded; reflexivity.
  - cbn [fst snd documents payments bookings users withPayments].
    rewrite ?map_app. do 6 (split; [reflexivity|]).
    apply Hadded; reflexivity.
Qed.

(** Bob presents the reference of Alice's renewal first: her licence is
    renewed all the same, and the payment is recorded under Bob. *)
Lemma verifyPayment_any_requester_witness :
  let r := verifyPayment Sample.env Sample.alice Sample.payId Sample.t0
             Sample.t0 Sample.renewal Sample.licenceDB in
  let r' := verifyPayment Sample.env Sample.bob Sample.payId Sample.t0
              Sample.t0 Sample.renewal Sample.licenceDB in
  fst r' = fst r /\ documents (snd r') = documents (snd r)
  /\ List.map Payment.user (payments (snd r)) = [Sample.alice]
  /\ List.map Payment.user (payments (snd r')) = [Sample.bob]
  /\ List.map Document.status (documents (snd r')) = [Document.valid].
Proof.
  intros r r'.
  destruct (verifyPayment_any_requester Sample.env Sample.alice Sample.bob
              Sample.payId Sample.t0 Sample.t0 Sample.renewal Sample.licenceDB)
    as (Hresp & Hdocs & _).
  split; [exact Hresp|]. split; [exact Hdocs|].
  vm_compute. repeat split.
Defined.

(** X15.  With the gateway confirming a fresh reference, a request
    without a usable [documentId], or with an empty reference, is answered
    500 before anything is recorded. *)
Theorem verifyPayment_rejects_unusable env reqUser newId now today body db :
  Spec.gatewayConfirms env (reference body) = true ->
  recorded (reference body) (payments db) = false ->
  documentId body = None \/ reference body = ""%string ->
  verifyPayment env reqUser newId now today body db
  = (fail 500 "Verification failed", db).
Proof.
  intros Hg Hrec Hbad.
  destruct (gatewayConfirms_inv _ _ Hg) as (k & data & Hk & Hne & Hp & Hs).
  unfold verifyPayment, createPayment.
  rewrite Hk, Hne, Hp, Hs, Hrec. cbn [negb].
  destruct Hbad as [-> | He]; [reflexivity|].
  rewrite He. destruct (documentId body); reflexivity.
Qed.

(** A confirmed reference sent without a document id. *)
Lemma verifyPayment_rejects_unusable_witness :
  verifyPayment Sample.env Sample.alice Sample.payId Sample.t0 Sample.t0
    (mkBody "ref_001" None) Sample.licenceDB
  = (fail 500 "Verification failed", Sample.licenceDB).
Proof.
  apply verifyPayment_rejects_unusable;
    [reflexivity|reflexivity|left; reflexivity].
Defined.

End PaymentInvariants.

(* --------------------------------------------------------------------- *)
(** ** Identifiers, and the status rule over time                        *)
(* --------------------------------------------------------------------- *)

Section IdsAndStatus.
Local Open Scope Z_scope.
Import JsDate.

Lemma addDocument_shape reqUser newId now today body db :
  let r := DocumentsController.addDocument reqUser newId now today body db in
  snd r = db
  \/ exists d, snd r = withDocuments (documents db ++ [d]) db
               /\ Document._id d = newId.
Proof.
  cbv zeta. unfold DocumentsController.addDocument, Document.create.
  destruct (Document.construct newId now (Document.withUser reqUser body))
    as [d0|] eqn:Hc; [|now left].
  right. exists (Document.preSave today d0). split; [reflexivity|].
  apply construct_fields in Hc. apply Hc.
Qed.

Lemma verifyPayment_ids env reqUser newId now today body db :
  List.map Document._id
    (documents (snd (PaymentController.verifyPayment env reqUser newId now
                       today body db)))
  = List.map Document._id (documents db).
Proof.
  destruct (verifyPayment_shape env reqUser newId now today body db)
    as [H|(payment & docId & _ & _ & _ & _ & _ & [H|(document & newDate & Hf & H)])];
    rewrite H; try reflexivity.
  cbn [documents withDocuments withPayments].
  destruct (findById_some _ _ _ _ Hf) as [Hid _].
  clear -Hid. induction (documents db) as [|x l IH]; [reflexivity|].
  cbn. destruct (String.eqb_spec (Document._id x) docId) as [E|E]; cbn.
  - rewrite E, Hid. reflexivity.
  - rewrite IH. reflexivity.
Qed.

(** X8.  The handlers that write documents keep their [_id]s pairwise
    distinct: a create with an unused generated id, an update, a delete
    and a payment verification all leave a store with unique ids in that
    state. *)
Theorem handlers_keep_ids_unique db :
  Spec2.uniqueIds db ->
  (forall reqUser newId now today body,
      findById Document._id newId (documents db) = None ->
      Spec2.uniqueIds
        (snd (DocumentsController.addDocument reqUser newId now today body db)))
  /\ (forall reqUser id body,
         Spec2.uniqueIds
           (snd (DocumentsController.updateDocument reqUser id body db)))
  /\ (forall reqUser id,
         Spec2.uniqueIds (snd (DocumentsApi.deleteDocument reqUser id db)))
  /\ (forall env reqUser newId now today body,
         Spec2.uniqueIds
           (snd (PaymentController.verifyPayment env reqUser newId now today
                   body db))).
Proof.
  intros Hu. unfold Spec2.uniqueIds in *.
  split; [|split; [|split]].
  - intros reqUser newId now today body Hfresh.
    destruct (addDocument_shape reqUser newId now today body db)
      as [H|(d & H & Hid)]; rewrite H; [exact Hu|].
    cbn [documents withDocuments]. rewrite map_app. cbn.
    apply NoDup_app. split; [exact Hu|]. split; [|apply NoDup_singleton].
    intros x Hx Hx'. apply list_elem_of_singleton in Hx'. subst x.
    apply findById_In_ids in Hfresh. apply Hfresh.
    rewrite <- Hid. apply list_elem_of_In, Hx.
  - intros reqUser id body.
    destruct (updateDocument_shape reqUser id body db) as [H|[st H]];
      rewrite H; [exact Hu|].
    cbn [documents withDocuments].
    rewrite updateById_ids; [exact Hu|reflexivity].
  - intros reqUser id. unfold DocumentsApi.deleteDocument.
    destruct (findById Document._id id (documents db)) as [d|];
      [|destruct (isObjectId id); exact Hu].
    destruct (negb _); [exact Hu|]. cbn [snd documents withDocuments].
    exact (sublist_NoDup _ _ Hu (removeById_ids _ _)).
  - intros env reqUser newId now today body.
    rewrite verifyPayment_ids. exact Hu.
Qed.

(** Adding a second document with an unused id to Alice's shelf. *)
Lemma handlers_keep_ids_unique_witness :
  Spec2.uniqueIds Sample.licenceDB
  /\ Spec2.uniqueIds
       (snd (DocumentsController.addDocument Sample.alice Sample.otherId
               Sample.t0 Sample.t0
               (Sample.licenceInput (Sample.t0 + 90 * msPerDay) None)
               Sample.licenceDB)).
Proof.
  assert (Hu : Spec2.uniqueIds Sample.licenceDB).
  { unfold Spec2.uniqueIds. cbn. apply NoDup_singleton. }
  split; [exact Hu|].
  apply (proj1 (handlers_keep_ids_unique Sample.licenceDB Hu)). reflexivity.
Defined.

Lemma ceilDiv_mono a a' b : 0 < b -> a <= a' -> ceilDiv a b <= ceilDiv a' b.
Proof.
  intros Hb Ha.
  pose proof (ceilDiv_bounds a b Hb). pose proof (ceilDiv_bounds a' b Hb).
  nia.
Qed.

Lemma statusOfDays_antitone n n' :
  n <= n' ->
  Spec2.rank (Document.statusOfDays n') <= Spec2.rank (Document.statusOfDays n).
Proof.
  intros H. unfold Document.statusOfDays.
  destruct (Z.ltb_spec n 0), (Z.ltb_spec n' 0), (Z.leb_spec n 30),
    (Z.leb_spec n' 30); cbn; lia.
Qed.

(** X9.  For one and the same expiry date the computed status never
    recovers as time passes: a later save gives a status at least as far
    gone (valid, expiring, expired) as an earlier one; and at one and the
    same time a later expiry date never gives a status further gone. *)
Theorem status_never_recovers today today' (d : Document.t) e e' :
  today <= today' -> e <= e' ->
  Spec2.rank (Document.status
                (Document.preSave today (Document.setExpiryDate e' d)))
  <= Spec2.rank (Document.status
                   (Document.preSave today' (Document.setExpiryDate e d))).
Proof.
  intros Ht He. rewrite !preSave_status.
  cbn [Document.expiryDate Document.setExpiryDate].
  apply statusOfDays_antitone. unfold Document.daysUntilExpiry.
  apply ceilDiv_mono; [apply msPerDay_pos|lia].
Qed.

(** The lapsed licence saved at [t0] and forty days earlier: 'expired'
    now, 'valid' then. *)
Lemma status_never_recovers_witness :
  Spec2.rank (Document.status
                (Document.preSave (Sample.t0 - 40 * msPerDay)
                   (Document.setExpiryDate (Sample.t0 - 5 * msPerDay)
                      Sample.lapsedLicence)))
  <= Spec2.rank (Document.status
                   (Document.preSave Sample.t0
                      (Document.setExpiryDate (Sample.t0 - 5 * msPerDay)
                         Sample.lapsedLicence)))
  /\ Document.status
       (Document.preSave (Sample.t0 - 40 * msPerDay) Sample.lapsedLicence)
     = Document.valid.
Proof.
  split; [|reflexivity].
  apply status_never_recovers; [vm_compute; discriminate|lia].
Defined.

(** X10.  The scan and the pre-save hook read the same instant
    differently.  With the default 30-day window and one clock reading: a
    document the scan selects as 'expiring soon' is one the hook stores as
    'expiring', a document the hook stores as 'expired' is one the scan
    announces as expired, and one the hook stores as 'valid' is not
    notified at all; but a document that ran out less than a day ago (or
    right now) is announced as expired while a save at that instant
    stores it as 'expiring'. *)
Theorem scan_and_hook_classification now th (docs : list Document.t) d :
  Notifier.soonThreshold None now = Some th ->
  In d docs ->
  let st := Document.status (Document.preSave now d) in
  (In d (Notifier.expiringSoonDocs now th docs) -> st = Document.expiring)
  /\ (st = Document.expired -> In d (Notifier.expiredDocs now docs))
  /\ (st = Document.valid ->
      ~ In d (Notifier.expiredDocs now docs)
      /\ ~ In d (Notifier.expiringSoonDocs now th docs))
  /\ (now - msPerDay < Document.expiryDate d <= now ->
      In d (Notifier.expiredDocs now docs) /\ st = Document.expiring).
Proof.
  intros Hth Hin st. subst st. rewrite preSave_status.
  apply soonThreshold_inv in Hth as (days & Hd & ->).
  change (Notifier.soonDays None) with (Some 30) in Hd. injection Hd as <-.
  unfold Notifier.expiredDocs, Notifier.expiringSoonDocs.
  rewrite !filter_In, andb_true_iff, Z.ltb_lt, !Z.leb_le.
  pose proof (daysUntilExpiry_neg now (Document.expiryDate d)) as Hneg.
  pose proof (daysUntilExpiry_le now (Document.expiryDate d) 30) as H30.
  pose proof (daysUntilExpiry_le now (Document.expiryDate d) (-1)) as Hm1.
  pose proof msPerDay_pos as Hpos.
  split; [|split; [|split]].
  - intros (_ & H1 & H2). apply statusOfDays_expiring. lia.
  - intros H. apply statusOfDays_expired in H. split; [exact Hin|lia].
  - intros H. apply statusOfDays_valid in H. split; intros (_ & H1); lia.
  - intros H. split; [split; [exact Hin|lia]|].
    apply statusOfDays_expiring. lia.
Qed.

(** A licence that ran out an hour before the scan: announced as expired,
    stored as 'expiring' by a save at the same instant. *)
Lemma scan_and_hook_classification_witness :
  let d := Document.setExpiryDate (Sample.t0 - 3600000) Sample.lapsedLicence in
  In d (Notifier.expiredDocs Sample.t0 [d])
  /\ Document.status (Document.preSave Sample.t0 d) = Document.expiring.
Proof.
  intros d.
  refine (proj2 (proj2 (proj2 (scan_and_hook_classification Sample.t0 _ [d] d
                                 eq_refl _))) _).
  - now left.
  - cbn. unfold Sample.t0, msPerDay. lia.
Defined.

End IdsAndStatus.

(* --------------------------------------------------------------------- *)
(** ** Bookings: invariants, cancelling, listing                         *)
(* --------------------------------------------------------------------- *)

Section BookingInvariants.
Import BookingController.

Lemma sameSlot_agree reqUser body reqUser' body' b x :
  sameSlot reqUser body b = true -> sameSlot reqUser' body' b = true ->
  sameSlot reqUser' body' x = sameSlot reqUser body x.
Proof.
  intros H H'. apply sameSlot_blocks in H as (Hu & Hd & Hs & _).
  apply sameSlot_blocks in H' as (Hu' & Hd' & Hs' & _).
  unfold sameSlot. rewrite Hd, Hs, Hd', Hs', <- Hu, <- Hu'. reflexivity.
Qed.

Lemma filter_length_ext {A} (f g : A -> bool) l :
  (forall x, f x = g x) -> length (List.filter f l) = length (List.filter g l).
Proof. intros H. rewrite (List.filter_ext _ _ H). reflexivity. Qed.

Lemma cancel_filter_le f id (l : list Booking.t) :
  (forall x, f (Booking.setStatus Booking.cancelled x) = false) ->
  (length (List.filter f
             (updateById Booking._id id (Booking.setStatus Booking.cancelled) l))
   <= length (List.filter f l))%nat.
Proof.
  intros Hf. induction l as [|x l IH]; [reflexivity|]. cbn.
  destruct (String.eqb (Booking._id x) id); cbn.
  - rewrite Hf. destruct (f x); cbn; lia.
  - destruct (f x); cbn; lia.
Qed.

Lemma cancel_filter_pred f id (l : list Booking.t) b :
  (forall x, f (Booking.setStatus Booking.cancelled x) = false) ->
  findById Booking._id id l = Some b -> f b = true ->
  S (length (List.filter f
               (updateById Booking._id id (Booking.setStatus Booking.cancelled) l)))
  = length (List.filter f l).
Proof.
  intros Hf. unfold findById. induction l as [|x l IH]; [discriminate|]. cbn.
  destruct (String.eqb (Booking._id x) id); cbn.
  - intros [= ->] Hb. rewrite Hf, Hb. reflexivity.
  - intros H Hb. destruct (f x); cbn; rewrite <- (IH H Hb); reflexivity.
Qed.

Lemma sameSlot_cancelled reqUser body x :
  sameSlot reqUser body (Booking.setStatus Booking.cancelled x) = false.
Proof. unfold sameSlot. cbn. apply andb_false_r. Qed.

Lemma cancelBooking_shape reqUser id db :
  snd (cancelBooking reqUser id db) = db
  \/ snd (cancelBooking reqUser id db)
     = withBookings (updateById Booking._id id
                       (Booking.setStatus Booking.cancelled) (bookings db)) db.
Proof.
  unfold cancelBooking.
  destruct (findById Booking._id id (bookings db));
    [|destruct (isObjectId id); now left].
  destruct (negb _); [now left|now right].
Qed.

(** X16.  Creating and cancelling keep the booking invariant: a store
    with at most one non-cancelled booking per owner, date and start time
    is still such a store after any create request and after any cancel
    request. *)
Theorem booking_slots_stay_unique db :
  Spec2.slotsUnique db ->
  (forall reqUser newId now body,
      Spec2.slotsUnique (snd (createBooking reqUser newId now body db)))
  /\ (forall reqUser id,
         Spec2.slotsUnique (snd (cancelBooking reqUser id db))).
Proof.
  intros Hu. split.
  - intros reqUser newId now body. unfold createBooking.
    destruct (List.find (sameSlot reqUser body) (bookings db)) eqn:Hfind;
      [exact Hu|].
    destruct (newBooking newId reqUser now body) as [b|] eqn:Hnew; [|exact Hu].
    cbn [snd]. intros reqUser' body'. unfold Spec.activeAtSlot.
    cbn [bookings withBookings]. rewrite List.filter_app, length_app. cbn.
    destruct (sameSlot reqUser' body' b) eqn:Hs'; cbn.
    + apply newBooking_sameSlot in Hnew.
      rewrite (filter_length_ext _ (sameSlot reqUser body))
        by (intros x; apply (sameSlot_agree _ _ _ _ b); assumption).
      rewrite (find_filter_nil _ _ Hfind). cbn. lia.
    + specialize (Hu reqUser' body'). unfold Spec.activeAtSlot in Hu. lia.
  - intros reqUser id reqUser' body'.
    destruct (cancelBooking_shape reqUser id db) as [H|H]; rewrite H;
      [apply Hu|].
    unfold Spec.activeAtSlot. cbn [bookings withBookings].
    specialize (Hu reqUser' body'). unfold Spec.activeAtSlot in Hu.
    pose proof (cancel_filter_le (sameSlot reqUser' body') id (bookings db)
                  (sameSlot_cancelled reqUser' body')).
    lia.
Qed.

(** After Alice's first booking the store has unique slots, and it keeps
    them through a second identical request. *)
Lemma booking_slots_stay_unique_witness :
  Spec2.slotsUnique Sample.emptyDB
  /\ Spec2.slotsUnique
       (snd (createBooking Sample.alice Sample.bookingId2 Sample.t0
               Sample.lesson
               (snd (createBooking Sample.alice Sample.bookingId Sample.t0
                       Sample.lesson Sample.emptyDB)))).
Proof.
  assert (H0 : Spec2.slotsUnique Sample.emptyDB).
  { intros u b. unfold Spec.activeAtSlot. cbn. lia. }
  split; [exact H0|].
  apply (proj1 (booking_slots_stay_unique _
                  (proj1 (booking_slots_stay_unique _ H0) _ _ _ _))).
Defined.

(** X17.  Cancelling is answered 404 for an ObjectId that no stored
    booking has and 500 for a route text that is no ObjectId (the store
    holding ObjectIds), and then writes nothing; it is idempotent for the
    owner (a second cancel is answered 200 and changes nothing); and when
    slots are unique, cancelling a booking that was not yet cancelled frees
    its slot: no booking blocks a new request of the owner for that date
    and start time any more, so it is not answered 400 (and is accepted,
    the start time being non-empty). *)
Theorem cancelBooking_frees_slot reqUser id db :
  let r := cancelBooking reqUser id db in
  (findById Booking._id id (bookings db) = None ->
   (isObjectId id = true -> r = (fail 404 "Booking not found", db))
   /\ (isObjectId id = false -> r = (fail 500 "Server Error", db)))
  /\ (forall text,
         Forall (fun b => isObjectId (Booking._id b) = true) (bookings db) ->
         (castObjectId text = None ->
          cancelBooking reqUser (routeId text) db
          = (fail 500 "Server Error", db))
         /\ (forall oid, castObjectId text = Some oid ->
               findById Booking._id oid (bookings db) = None ->
               cancelBooking reqUser (routeId text) db
               = (fail 404 "Booking not found", db)))
  /\ (forall b, findById Booking._id id (bookings db) = Some b ->
                Booking.user b = reqUser ->
                code (fst (cancelBooking reqUser id (snd r))) = 200%Z
                /\ snd (cancelBooking reqUser id (snd r)) = snd r)
  /\ (forall b, Spec2.slotsUnique db ->
                findById Booking._id id (bookings db) = Some b ->
                Booking.user b = reqUser ->
                Booking.status b <> Booking.cancelled ->
                Spec.activeAtSlot reqUser (Spec2.slotOf b) (snd r) = 0%nat
                /\ forall newId now,
                     code (fst (createBooking reqUser newId now
                                  (Spec2.slotOf b) (snd r))) <> 400%Z
                     /\ (Booking.startTime b <> ""%string ->
                         code (fst (createBooking reqUser newId now
                                      (Spec2.slotOf b) (snd r))) = 201%Z)).
Proof.
  intros r.
  split.
  { intros H. unfold r, cancelBooking. rewrite H.
    split; intros ->; reflexivity. }
  split.
  { intros text Hall. split.
    - intros Hc.
      destruct (routeId_malformed Booking._id text (bookings db) Hc Hall)
        as (-> & Hn & Hf).
      unfold cancelBooking. rewrite Hf, Hn. reflexivity.
    - intros oid Hc Hf. rewrite (routeId_cast _ _ Hc). unfold cancelBooking.
      rewrite Hf, (castObjectId_isObjectId _ _ Hc). reflexivity. }
  assert (Hr : forall b, findById Booking._id id (bookings db) = Some b ->
                         Booking.user b = reqUser ->
                         snd r = withBookings
                                   (updateById Booking._id id
                                      (Booking.setStatus Booking.cancelled)
                                      (bookings db)) db).
  { intros b H Hu. unfold r, cancelBooking.
    rewrite H, Hu, String.eqb_refl. reflexivity. }
  split.
  - intros b H Hu. rewrite (Hr b H Hu).
    destruct (findById_some _ _ _ _ H) as [Hid _].
    assert (Hf : findById Booking._id id
                   (updateById Booking._id id
                      (Booking.setStatus Booking.cancelled) (bookings db))
                 = Some (Booking.setStatus Booking.cancelled b))
      by (apply findById_updateById; assumption).
    unfold cancelBooking. cbn [bookings withBookings]. rewrite Hf.
    cbn [Booking.user Booking.setStatus]. rewrite Hu, String.eqb_refl.
    cbn [negb fst snd code]. split; [reflexivity|].
    unfold withBookings. cbn [documents payments users]. f_equal.
    clear. induction (bookings db) as [|x l IH]; [reflexivity|]. cbn.
    destruct (String.eqb (Booking._id x) id) eqn:E; cbn.
    + rewrite E. reflexivity.
    + rewrite E, IH. reflexivity.
  - intros b Huniq H Hu Hst. rewrite (Hr b H Hu).
    assert (Hb : sameSlot reqUser (Spec2.slotOf b) b = true).
    { apply sameSlot_blocks. unfold Spec.blocks. cbn. auto. }
    assert (H0 : Spec.activeAtSlot reqUser (Spec2.slotOf b)
                   (withBookings
                      (updateById Booking._id id
                         (Booking.setStatus Booking.cancelled) (bookings db))
                      db) = 0%nat).
    { unfold Spec.activeAtSlot. cbn [bookings withBookings].
      pose proof (cancel_filter_pred (sameSlot reqUser (Spec2.slotOf b)) id
                    (bookings db) b
                    (sameSlot_cancelled reqUser (Spec2.slotOf b)) H Hb) as Hp.
      specialize (Huniq reqUser (Spec2.slotOf b)).
      unfold Spec.activeAtSlot in Huniq. lia. }
    split; [exact H0|].
    intros newId now. unfold createBooking.
    destruct (List.find _ _) as [e|] eqn:Hfind.
    + apply find_some_filter in Hfind. unfold Spec.activeAtSlot in H0.
      cbn [bookings withBookings] in H0, Hfind. lia.
    + unfold newBooking, Spec2.slotOf. cbn.
      destruct (nonEmpty (Booking.startTime b)) eqn:Hne; cbn.
      * split; [discriminate|reflexivity].
      * split; [discriminate|]. intros Hs. exfalso.
        unfold nonEmpty in Hne. apply negb_false_iff, String.eqb_eq in Hne.
        contradiction.
Qed.

(** Alice cancels her lesson and books the same slot again; a request
    to cancel [/bookings/l1/cancel] is answered 500. *)
Lemma cancelBooking_frees_slot_witness :
  let r := cancelBooking Sample.alice Sample.bookingId Sample.lessonDB in
  Spec2.slotsUnique Sample.lessonDB
  /\ Spec.activeAtSlot Sample.alice (Spec2.slotOf Sample.aliceLesson) (snd r)
     = 0%nat
  /\ code (fst (createBooking Sample.alice Sample.bookingId2 Sample.t0
                  (Spec2.slotOf Sample.aliceLesson) (snd r))) = 201%Z
  /\ cancelBooking Sample.alice (routeId "l1") Sample.lessonDB
     = (fail 500 "Server Error", Sample.lessonDB).
Proof.
  intros r.
  assert (Hu : Spec2.slotsUnique Sample.lessonDB).
  { intros u b. unfold Spec.activeAtSlot. cbn.
    destruct (sameSlot u b Sample.aliceLesson); cbn; lia. }
  assert (Hall : Forall (fun b => isObjectId (Booking._id b) = true)
                        (bookings Sample.lessonDB))
    by (repeat constructor).
  destruct (cancelBooking_frees_slot Sample.alice Sample.bookingId
              Sample.lessonDB) as (_ & Htext & _ & Hfree).
  destruct (Hfree Sample.aliceLesson Hu eq_refl eq_refl ltac:(discriminate))
    as [H0 Hc].
  split; [exact Hu|]. split; [exact H0|].
  split; [apply (Hc Sample.bookingId2 Sample.t0); discriminate|].
  apply (proj1 (Htext "l1"%string Hall)). reflexivity.
Defined.

End BookingInvariants.

Section BookingListing.
Local Open Scope Z_scope.
Import BookingsApi.

Lemma String_leb_trans a b c :
  String.leb a b = true -> String.leb b c = true -> String.leb a c = true.
Proof.
  unfold String.leb. revert b c.
  induction a as [|x a IH]; intros [|y b] [|z c]; cbn;
    try reflexivity; try discriminate.
  unfold Ascii.compare.
  destruct (N.compare_spec (N_of_ascii x) (N_of_ascii y)) as [E1|E1|E1];
    destruct (N.compare_spec (N_of_ascii y) (N_of_ascii z)) as [E2|E2|E2];
    destruct (N.compare_spec (N_of_ascii x) (N_of_ascii z)) as [E3|E3|E3];
    try lia; try discriminate; try reflexivity; try apply IH.
Qed.

#[local] Instance earlierFirst_total : Total earlierFirst.
Proof.
  intros a b. unfold earlierFirst.
  destruct (Z.lt_trichotomy (Booking.date a) (Booking.date b)) as [H|[H|H]];
    [left; left; exact H| |right; left; lia].
  destruct (String.leb_total (Booking.startTime a) (Booking.startTime b));
    [left|right]; right; split; auto.
Qed.

#[local] Instance earlierFirst_trans : Transitive earlierFirst.
Proof.
  intros a b c [H1|[H1 L1]] [H2|[H2 L2]]; unfold earlierFirst;
    [left; lia|left; lia|left; lia|right].
  split; [lia|]. eapply String_leb_trans; eassumption.
Qed.

Lemma myBookings_In reqUser db b :
  In b (myBookings reqUser db) <-> In b (bookings db) /\ Booking.user b = reqUser.
Proof.
  unfold myBookings. rewrite filter_In. unfold ownedBy.
  rewrite String.eqb_eq. reflexivity.
Qed.

(** X18.  For a page number and a limit of at least one (the numbers and
    the skip being safe integers), [GET /bookings] answers with the
    requested window of the requester's bookings as the store sorts them,
    by date and then by start time: every item is a stored booking of the
    requester, the items come in that order, there are at most [limit] of
    them, [total] counts all the requester's bookings whatever their
    status, and the limit is 10 when the request names none. *)
Theorem getMyBookings_page store reqUser qpage qlimit db p n :
  Query.queryNumber qpage 1 = JsNumber.Fin p ->
  Query.queryNumber qlimit 10 = JsNumber.Fin n ->
  1 <= p -> 1 <= n <= JsNumber.maxSafe ->
  (p - 1) * n <= JsNumber.maxSafe ->
  Spec2.sortedBy earlierFirst store (myBookings reqUser db) ->
  exists L,
    getMyBookings store reqUser qpage qlimit db = Query.Listed L
    /\ Query.items L
       = take (Z.to_nat n)
              (drop (Z.to_nat ((p - 1) * n))
                    (Query.sorted store (myBookings reqUser db)))
    /\ (forall b, In b (Query.items L) ->
                  In b (bookings db) /\ Booking.user b = reqUser)
    /\ StronglySorted earlierFirst (Query.items L)
    /\ Query.count L = Z.of_nat (length (Query.items L))
    /\ Query.count L <= n
    /\ Query.total L
       = Z.of_nat (length (List.filter (ownedBy reqUser) (bookings db)))
    /\ Query.page L = JsNumber.Fin p
    /\ (exists k, Query.pages L = JsNumber.Fin k
                  /\ (k - 1) * n < Query.total L <= k * n)
    /\ (qlimit = None -> n = 10).
Proof.
  intros Hqp Hqn Hp Hn Hskip Hsort. unfold getMyBookings.
  destruct (paged_page earlierFirst store qpage qlimit 10
              BookingController.serverError (myBookings reqUser db) p n
              Hqp Hqn Hp Hn Hskip Hsort)
    as (L & HL & Hitems & Hin & Hsorted & _ & Hcount & Hle & Htotal & Hpage
        & Hpages).
  exists L. split; [exact HL|]. split; [exact Hitems|].
  split; [intros b Hb; apply myBookings_In, Hin, Hb|].
  split; [exact Hsorted|]. split; [exact Hcount|]. split; [exact Hle|].
  split; [exact Htotal|]. split; [exact Hpage|]. split; [exact Hpages|].
  intros ->. cbn in Hqn. injection Hqn as <-. reflexivity.
Qed.

(** Alice's diary comes back as 1 June 10:00, 1 June 14:00, 2 June
    09:00. *)
Lemma getMyBookings_page_witness :
  exists L,
    getMyBookings Sample2.bookingStore Sample.alice None None Sample2.diary
    = Query.Listed L
    /\ List.map Booking._id (Query.items L)
       = [Sample2.l3; Sample2.l2; Sample2.l1]
    /\ Query.total L = 3.
Proof.
  destruct (getMyBookings_page Sample2.bookingStore Sample.alice None None
              Sample2.diary 1 10)
    as (L & HL & Hitems & _ & _ & _ & _ & Htotal & _);
    [reflexivity|reflexivity|lia|vm_compute; split; discriminate
    |vm_compute; discriminate|apply sample_store_sorts; apply _|].
  exists L. split; [exact HL|].
  split; [rewrite Hitems; vm_compute; reflexivity|].
  rewrite Htotal. reflexivity.
Defined.

End BookingListing.

Section BookingRecords.
Import BookingController.

Lemma existsb_eqb_In (x : string) l :
  existsb (String.eqb x) l = true <-> In x l.
Proof.
  rewrite existsb_exists. split.
  - intros (y & Hin & He). apply String.eqb_eq in He. subst. exact Hin.
  - intros Hin. exists x. split; [exact Hin|apply String.eqb_refl].
Qed.

Lemma newBooking_some newId reqUser now body b :
  newBooking newId reqUser now body = Some b ->
  Spec2.bookable body
  /\ Booking._id b = newId /\ Booking.user b = reqUser
  /\ Booking.status b = Booking.confirmed /\ Booking.createdAt b = now
  /\ date body = Some (Booking.date b)
  /\ startTime body = Some (Booking.startTime b)
  /\ Booking.notes b = notes body
  /\ Booking.lessonType b
     = match lessonType body with Some l => l | None => "Standard Lesson"%string end
  /\ Spec2.validBooking b.
Proof.
  unfold newBooking, Spec2.bookable, Spec2.validBooking.
  destruct (date body) as [d|]; [|discriminate].
  destruct (startTime body) as [s|]; [|discriminate].
  destruct (nonEmpty s) eqn:Hs; [|discriminate].
  destruct (existsb _ _) eqn:Hl; [|discriminate].
  destruct (match notes body with Some n => _ | None => true end) eqn:Hn;
    [|discriminate].
  cbn [andb]. intros [= <-]. cbn.
  unfold nonEmpty in Hs. apply negb_true_iff, String.eqb_neq in Hs.
  apply existsb_eqb_In in Hl.
  assert (Hnotes : match notes body with
                   | Some n => (utf16Length n <= 500)%nat
                   | None => True
                   end).
  { destruct (notes body); [apply Nat.leb_le, Hn|exact I]. }
  repeat split; eauto.
  - intros l El. rewrite El in Hl. exact Hl.
  - intros n En. rewrite En in Hnotes. exact Hnotes.
Qed.

Lemma newBooking_none newId reqUser now body :
  newBooking newId reqUser now body = None -> ~ Spec2.bookable body.
Proof.
  unfold newBooking, Spec2.bookable.
  intros H ((d & Hd) & (s & Hs & Hne) & Hl & Hn). rewrite Hd, Hs in H.
  assert (E1 : nonEmpty s = true)
    by (unfold nonEmpty; apply negb_true_iff, String.eqb_neq, Hne).
  assert (E2 : existsb (String.eqb (match lessonType body with
                                    | Some l => l
                                    | None => "Standard Lesson"%string
                                    end)) Booking.lessonTypes = true).
  { apply existsb_eqb_In. destruct (lessonType body) as [l|].
    - apply Hl. reflexivity.
    - left. reflexivity. }
  assert (E3 : match notes body with
               | Some n => (utf16Length n <=? 500)%nat
               | None => true
               end = true).
  { destruct (notes body) as [n|]; [|reflexivity].
    apply Nat.leb_le, Hn. reflexivity. }
  rewrite E1, E2, E3 in H. discriminate.
Qed.

(** X19.  A create request is answered 201 exactly when no booking blocks
    it and the body passes the schema (a date, a non-empty start time, a
    lesson type of the list or none, notes of at most 500 UTF-16 code
    units); a request that names a date and a start time is answered 500
    exactly when no booking blocks it and the body does not pass.  An
    accepted request appends one booking, owned by the requester, with
    status 'confirmed', the default lesson type when none was given, and
    the stored bookings before it untouched; any other request writes
    nothing. *)
Theorem createBooking_outcomes reqUser newId now body db :
  let r := createBooking reqUser newId now body db in
  let free := ~ exists b, In b (bookings db) /\ Spec.blocks reqUser body b in
  (code (fst r) = 201%Z <-> free /\ Spec2.bookable body)
  /\ (date body <> None -> startTime body <> None ->
      (code (fst r) = 500%Z <-> free /\ ~ Spec2.bookable body))
  /\ (code (fst r) = 201%Z ->
      exists b, payload (fst r) = BookingPayload b
                /\ snd r = withBookings (bookings db ++ [b]) db
                /\ Booking._id b = newId /\ Booking.user b = reqUser
                /\ Booking.status b = Booking.confirmed
                /\ date body = Some (Booking.date b)
                /\ startTime body = Some (Booking.startTime b)
                /\ (lessonType body = None ->
                    Booking.lessonType b = "Standard Lesson"%string)
                /\ Spec2.validBooking b)
  /\ (code (fst r) <> 201%Z -> snd r = db).
Proof.
  intros r free. subst r free. unfold createBooking.
  destruct (List.find (sameSlot reqUser body) (bookings db)) as [e|] eqn:Hfind.
  - assert (Hb : exists b, In b (bookings db) /\ Spec.blocks reqUser body b).
    { apply find_some in Hfind as [Hin Hs]. exists e. split; [exact Hin|].
      apply sameSlot_blocks, Hs. }
    cbn [fst snd code fail].
    split; [split; [discriminate|intros [H _]; contradiction]|].
    split; [intros _ _; split; [discriminate|intros [H _]; contradiction]|].
    split; [discriminate|reflexivity].
  - assert (Hfree : ~ exists b, In b (bookings db) /\ Spec.blocks reqUser body b).
    { intros (b & Hin & Hb). apply sameSlot_blocks in Hb.
      pose proof (find_none _ _ Hfind b Hin) as Hn. cbn in Hn. congruence. }
    destruct (newBooking newId reqUser now body) as [b|] eqn:Hnew;
      cbn [fst snd code fail serverError].
    + destruct (newBooking_some _ _ _ _ _ Hnew)
        as (Hok & Hid & Hu & Hst & _ & Hd & Hs & _ & Hlt & Hv).
      split; [split; [intros _; split; assumption|reflexivity]|].
      split; [intros _ _; split; [discriminate|intros [_ H]; contradiction]|].
      split; [|intros H; contradiction].
      intros _. exists b. repeat (split; [first [reflexivity|assumption]|]).
      split; [|exact Hv]. intros El. rewrite El in Hlt. exact Hlt.
    + pose proof (newBooking_none _ _ _ _ Hnew) as Hbad.
      split; [split; [discriminate|intros [_ H]; contradiction]|].
      split; [intros _ _; split; [intros _; split; assumption|reflexivity]|].
      split; [discriminate|reflexivity].
Qed.

(** Notes of 300 euro signs are 900 bytes and 300 code units: the lesson
    is booked.  Notes of 501 letters are refused with 500. *)
Lemma createBooking_outcomes_witness :
  let euros := Sample2.copies 300 Sample2.euro in
  let body := mkBody (Some 1748736000000%Z) (Some "10:00"%string) None
                     (Some euros) in
  let long := mkBody (Some 1748736000000%Z) (Some "10:00"%string) None
                     (Some (Sample2.copies 501 "a")) in
  String.length euros = 900%nat /\ utf16Length euros = 300%nat
  /\ code (fst (createBooking Sample.alice Sample.bookingId Sample.t0 body
                  Sample.emptyDB)) = 201%Z
  /\ code (fst (createBooking Sample.alice Sample.bookingId Sample.t0 long
                  Sample.emptyDB)) = 500%Z.
Proof.
  intros euros body long.
  assert (Hl : utf16Length euros = 300%nat) by (vm_compute; reflexivity).
  split; [vm_compute; reflexivity|]. split; [exact Hl|].
  destruct (createBooking_outcomes Sample.alice Sample.bookingId Sample.t0
              body Sample.emptyDB) as (H201 & _).
  destruct (createBooking_outcomes Sample.alice Sample.bookingId Sample.t0
              long Sample.emptyDB) as (_ & H500 & _).
  split.
  - apply H201. split.
    + intros (b & [] & _).
    + split; [eexists; reflexivity|].
      split; [eexists; split; [reflexivity|discriminate]|].
      split; [intros l [=]|].
      intros n [= <-]. fold euros. rewrite Hl. lia.
  - apply H500; [discriminate|discriminate|]. split.
    + intros (b & [] & _).
    + intros (_ & _ & _ & Hn).
      specialize (Hn _ eq_refl).
      assert (Hlong : utf16Length (Sample2.copies 501 "a") = 501%nat)
        by (vm_compute; reflexivity).
      rewrite Hlong in Hn. lia.
Defined.

End BookingRecords.

(* --------------------------------------------------------------------- *)
(** ** Push subscriptions                                                *)
(* --------------------------------------------------------------------- *)

Section SubscriptionFacts.
Import Subscriptions.

Lemma subscriptionsOf_update reqUser f db uid :
  Spec2.subscriptionsOf uid (updateSubscriptions reqUser f db)
  = if String.eqb uid reqUser then
      match findById User._id reqUser (users db) with
      | Some u => f (User.pushSubscriptions u)
      | None => []
      end
    else Spec2.subscriptionsOf uid db.
Proof.
  unfold Spec2.subscriptionsOf, updateSubscriptions. cbn [users withUsers].
  destruct (String.eqb_spec uid reqUser) as [->|Hne].
  - destruct (findById User._id reqUser (users db)) as [u|] eqn:Hf.
    + rewrite (findById_updateById User._id reqUser _ _ u Hf); [reflexivity|].
      apply (findById_some User._id) in Hf. apply Hf.
    + rewrite updateById_absent by exact Hf. rewrite Hf. reflexivity.
  - rewrite findById_updateById_other; [reflexivity|exact Hne|reflexivity].
Qed.

Lemma subscriptionsOf_update_self reqUser f db u :
  findById User._id reqUser (users db) = Some u ->
  Spec2.subscriptionsOf reqUser (updateSubscriptions reqUser f db)
  = f (Spec2.subscriptionsOf reqUser db).
Proof.
  intros Hf. rewrite subscriptionsOf_update, String.eqb_refl.
  unfold Spec2.subscriptionsOf. rewrite Hf. reflexivity.
Qed.

Lemma update_keeps_user reqUser f db u :
  findById User._id reqUser (users db) = Some u ->
  exists u', findById User._id reqUser (users (updateSubscriptions reqUser f db))
             = Some u'.
Proof.
  intros Hf. unfold updateSubscriptions. cbn [users withUsers].
  eexists. apply (findById_updateById User._id reqUser _ _ u Hf).
  apply (findById_some User._id) in Hf. apply Hf.
Qed.

Lemma updateById_twice {A} (idOf : A -> ObjectId) id f g (l : list A) :
  (forall x, idOf (g x) = idOf x) ->
  updateById idOf id f (updateById idOf id g l)
  = updateById idOf id (fun x => f (g x)) l.
Proof.
  intros Hg. induction l as [|x l IH]; [reflexivity|]. cbn.
  destruct (String.eqb (idOf x) id) eqn:E; cbn.
  - rewrite Hg, E. reflexivity.
  - rewrite E, IH. reflexivity.
Qed.

Lemma updateById_ext {A} (idOf : A -> ObjectId) id f g (l : list A) :
  (forall x, In x l -> f x = g x) ->
  updateById idOf id f l = updateById idOf id g l.
Proof.
  induction l as [|x l IH]; intros H; [reflexivity|]. cbn.
  destruct (String.eqb (idOf x) id).
  - rewrite (H x) by now left. reflexivity.
  - rewrite IH; [reflexivity|]. intros y Hy. apply H. now right.
Qed.

Lemma updateById_same {A} (idOf : A -> ObjectId) id f (l : list A) :
  (forall x, In x l -> f x = x) -> updateById idOf id f l = l.
Proof.
  induction l as [|x l IH]; intros H; [reflexivity|]. cbn.
  destruct (String.eqb (idOf x) id).
  - rewrite (H x) by now left. reflexivity.
  - rewrite IH; [reflexivity|]. intros y Hy. apply H. now right.
Qed.

(** Two updates of the requester's subscriptions in a row are one. *)
Lemma updateSubscriptions_twice reqUser f g db :
  updateSubscriptions reqUser f (updateSubscriptions reqUser g db)
  = updateSubscriptions reqUser (fun subs => f (g subs)) db.
Proof.
  unfold updateSubscriptions, withUsers. cbn [users documents payments bookings].
  f_equal. rewrite updateById_twice by reflexivity. reflexivity.
Qed.

Lemma updateSubscriptions_ext reqUser f g db :
  (forall subs, f subs = g subs) ->
  updateSubscriptions reqUser f db = updateSubscriptions reqUser g db.
Proof.
  intros H. unfold updateSubscriptions. f_equal.
  apply updateById_ext. intros x _. rewrite H. reflexivity.
Qed.

Lemma subscribe_as_list reqUser e k db :
  snd (subscribe reqUser e k db)
  = updateSubscriptions reqUser (Spec2.subscribeList e k) db.
Proof.
  unfold subscribe. cbn [snd]. rewrite updateSubscriptions_twice. reflexivity.
Qed.

Lemma setFirst_absent e f subs :
  existsb (hasEndpoint e) subs = false -> setFirst e f subs = subs.
Proof.
  induction subs as [|s subs IH]; [reflexivity|]. cbn.
  destruct (hasEndpoint e s); [discriminate|]. cbn. intros H.
  rewrite (IH H). reflexivity.
Qed.

Lemma setFirst_endpoints e f subs :
  (forall s, User.endpoint (f s) = User.endpoint s) ->
  List.map User.endpoint (setFirst e f subs) = List.map User.endpoint subs.
Proof.
  intros Hf. induction subs as [|s subs IH]; [reflexivity|]. cbn.
  destruct (hasEndpoint e s); cbn; [rewrite Hf|rewrite IH]; reflexivity.
Qed.

Lemma setFirst_others e f subs :
  (forall s, User.endpoint (f s) = User.endpoint s) ->
  List.filter (fun s => negb (hasEndpoint e s)) (setFirst e f subs)
  = List.filter (fun s => negb (hasEndpoint e s)) subs.
Proof.
  intros Hf. induction subs as [|s subs IH]; [reflexivity|]. cbn.
  destruct (hasEndpoint e s) eqn:E; cbn.
  - unfold hasEndpoint at 1. rewrite Hf. fold (hasEndpoint e s).
    rewrite E. reflexivity.
  - rewrite E. cbn. rewrite IH. reflexivity.
Qed.

Lemma setFirst_In e f subs :
  existsb (hasEndpoint e) subs = true ->
  exists s, In s subs /\ User.endpoint s = e /\ In (f s) (setFirst e f subs).
Proof.
  induction subs as [|s subs IH]; [discriminate|]. cbn.
  destruct (hasEndpoint e s) eqn:E; cbn.
  - intros _. exists s. apply String.eqb_eq in E. auto.
  - intros H. destruct (IH H) as (s' & Hin & He & Hf). exists s'. auto.
Qed.

Lemma setFirst_app_absent e f subs l :
  existsb (hasEndpoint e) subs = false ->
  setFirst e f (subs ++ l) = subs ++ setFirst e f l.
Proof.
  induction subs as [|s subs IH]; [reflexivity|]. cbn.
  destruct (hasEndpoint e s); [discriminate|]. cbn. intros H.
  rewrite (IH H). reflexivity.
Qed.

Lemma subscribeList_absent e k subs :
  existsb (hasEndpoint e) subs = false ->
  Spec2.subscribeList e k subs = subs ++ [User.mkSub e k true].
Proof.
  intros E. unfold Spec2.subscribeList. rewrite E, setFirst_app_absent by exact E.
  cbn. unfold hasEndpoint. cbn. rewrite String.eqb_refl. reflexivity.
Qed.

Lemma subscribeList_present e k subs :
  existsb (hasEndpoint e) subs = true ->
  Spec2.subscribeList e k subs
  = setFirst e (fun s => User.mkSub (User.endpoint s) k true) subs.
Proof. intros E. unfold Spec2.subscribeList. rewrite E. reflexivity. Qed.

Lemma subscribeList_In e k subs :
  In (User.mkSub e k true) (Spec2.subscribeList e k subs).
Proof.
  destruct (existsb (hasEndpoint e) subs) eqn:E.
  - rewrite subscribeList_present by exact E.
    destruct (setFirst_In e (fun s => User.mkSub (User.endpoint s) k true)
                subs E) as (s & _ & He & Hin).
    rewrite He in Hin. exact Hin.
  - rewrite subscribeList_absent by exact E.
    apply in_or_app. right. now left.
Qed.

Lemma subscribeList_others e k subs :
  List.filter (fun s => negb (hasEndpoint e s)) (Spec2.subscribeList e k subs)
  = List.filter (fun s => negb (hasEndpoint e s)) subs.
Proof.
  destruct (existsb (hasEndpoint e) subs) eqn:E.
  - rewrite subscribeList_present by exact E. apply setFirst_others.
    reflexivity.
  - rewrite subscribeList_absent by exact E. rewrite List.filter_app. cbn.
    unfold hasEndpoint at 2. cbn. rewrite String.eqb_refl. cbn.
    apply app_nil_r.
Qed.

Lemma existsb_hasEndpoint e subs :
  existsb (hasEndpoint e) subs = true <-> In e (List.map User.endpoint subs).
Proof.
  rewrite existsb_exists, in_map_iff. unfold hasEndpoint. split.
  - intros (s & Hin & He). apply String.eqb_eq in He. eauto.
  - intros (s & He & Hin). exists s. split; [exact Hin|].
    apply String.eqb_eq, He.
Qed.

Lemma subscribeList_unique e k subs :
  NoDup (List.map User.endpoint subs) ->
  NoDup (List.map User.endpoint (Spec2.subscribeList e k subs)).
Proof.
  intros Hnd. destruct (existsb (hasEndpoint e) subs) eqn:E.
  - rewrite subscribeList_present by exact E.
    rewrite setFirst_endpoints by reflexivity. exact Hnd.
  - rewrite subscribeList_absent by exact E. rewrite map_app. cbn.
    apply NoDup_app. split; [exact Hnd|]. split; [|apply NoDup_singleton].
    intros x Hx Hx'. apply list_elem_of_singleton in Hx'. subst x.
    apply list_elem_of_In, existsb_hasEndpoint in Hx. congruence.
Qed.

Lemma setFirst_idem e f subs :
  (forall s, User.endpoint (f s) = User.endpoint s) ->
  (forall s, f (f s) = f s) ->
  setFirst e f (setFirst e f subs) = setFirst e f subs.
Proof.
  intros He Hf. induction subs as [|s subs IH]; [reflexivity|]. cbn.
  destruct (hasEndpoint e s) eqn:E; cbn.
  - unfold hasEndpoint at 1. rewrite He. fold (hasEndpoint e s).
    rewrite E, Hf. reflexivity.
  - rewrite E, IH. reflexivity.
Qed.

Lemma setFirst_present e f subs :
  (forall s, User.endpoint (f s) = User.endpoint s) ->
  existsb (hasEndpoint e) (setFirst e f subs) = existsb (hasEndpoint e) subs.
Proof.
  intros He. induction subs as [|s subs IH]; [reflexivity|]. cbn.
  destruct (hasEndpoint e s) eqn:E; cbn.
  - unfold hasEndpoint at 1. rewrite He. fold (hasEndpoint e s).
    rewrite E. reflexivity.
  - rewrite E, IH. reflexivity.
Qed.

Lemma subscribeList_idem e k subs :
  Spec2.subscribeList e k (Spec2.subscribeList e k subs)
  = Spec2.subscribeList e k subs.
Proof.
  assert (Hp : existsb (hasEndpoint e) (Spec2.subscribeList e k subs) = true).
  { apply existsb_exists. exists (User.mkSub e k true).
    split; [apply subscribeList_In|]. unfold hasEndpoint. cbn.
    apply String.eqb_refl. }
  rewrite (subscribeList_present e k _ Hp).
  unfold Spec2.subscribeList at 1 2. apply setFirst_idem; reflexivity.
Qed.

(** X20.  Subscribing a stored user registers the endpoint with the given
    keys, enabled, so that the scan will use it; subscriptions to other
    endpoints and other users are left as they are, endpoints that were
    pairwise distinct stay so, and subscribing again with the same
    endpoint and keys changes nothing. *)
Theorem subscribe_registers reqUser e k db u :
  findById User._id reqUser (users db) = Some u ->
  let r := subscribe reqUser e k db in
  fst r = mkResponse 201 true None NoPayload
  /\ In (User.mkSub e k true) (Spec2.subscriptionsOf reqUser (snd r))
  /\ In (User.mkSub e k true)
        (Notifier.enabledSubscriptions (users (snd r)) reqUser)
  /\ List.filter (fun s => negb (hasEndpoint e s))
                 (Spec2.subscriptionsOf reqUser (snd r))
     = List.filter (fun s => negb (hasEndpoint e s))
                   (Spec2.subscriptionsOf reqUser db)
  /\ (forall uid, uid <> reqUser ->
                  Spec2.subscriptionsOf uid (snd r)
                  = Spec2.subscriptionsOf uid db)
  /\ (Spec2.uniqueEndpoints reqUser db -> Spec2.uniqueEndpoints reqUser (snd r))
  /\ snd (subscribe reqUser e k (snd r)) = snd r
  /\ documents (snd r) = documents db.
Proof.
  intros Hf r. subst r. rewrite !subscribe_as_list.
  assert (Hsubs : Spec2.subscriptionsOf reqUser
                    (updateSubscriptions reqUser (Spec2.subscribeList e k) db)
                  = Spec2.subscribeList e k (Spec2.subscriptionsOf reqUser db))
    by (apply (subscriptionsOf_update_self _ _ _ u Hf)).
  split; [reflexivity|].
  split; [rewrite Hsubs; apply subscribeList_In|].
  split.
  { unfold Notifier.enabledSubscriptions.
    pose proof Hsubs as Hs. unfold Spec2.subscriptionsOf in Hs at 1.
    destruct (update_keeps_user reqUser (Spec2.subscribeList e k) db u Hf)
      as [u' Hu'].
    rewrite Hu' in Hs |- *. rewrite Hs. apply filter_In.
    split; [apply subscribeList_In|reflexivity]. }
  split; [rewrite Hsubs; apply subscribeList_others|].
  split.
  { intros uid Hne. rewrite subscriptionsOf_update.
    destruct (String.eqb_spec uid reqUser); [contradiction|reflexivity]. }
  split.
  { unfold Spec2.uniqueEndpoints. rewrite Hsubs. apply subscribeList_unique. }
  split; [|reflexivity].
  rewrite updateSubscriptions_twice. apply updateSubscriptions_ext.
  intros subs. apply subscribeList_idem.
Qed.

(** Alice's browser subscribes again on an endpoint she had disabled: one
    subscription for it, enabled, with the new keys. *)
Lemma subscribe_registers_witness :
  let r := subscribe Sample.alice "https://push.example/a2" "k2bis"
             Sample2.aliceDB in
  Spec2.subscriptionsOf Sample.alice (snd r)
  = [User.mkSub "https://push.example/a1" "k1" true;
     User.mkSub "https://push.example/a2" "k2bis" true;
     User.mkSub "https://push.example/a3" "k3" true]
  /\ In (User.mkSub "https://push.example/a2" "k2bis" true)
        (Notifier.enabledSubscriptions (users (snd r)) Sample.alice).
Proof.
  intros r. split; [reflexivity|].
  exact (proj1 (proj2 (proj2 (subscribe_registers Sample.alice
                                "https://push.example/a2" "k2bis"
                                Sample2.aliceDB Sample.aliceUser eq_refl)))).
Defined.

Lemma enabledSubscriptions_of uid db :
  Notifier.enabledSubscriptions (users db) uid
  = List.filter User.enabled (Spec2.subscriptionsOf uid db).
Proof.
  unfold Notifier.enabledSubscriptions, Spec2.subscriptionsOf.
  destruct (findById User._id uid (users db)); reflexivity.
Qed.


Lemma updateById_fixed {A} (idOf : A -> ObjectId) id f (l : list A) :
  (forall x, findById idOf id l = Some x -> f x = x) ->
  updateById idOf id f l = l.
Proof.
  unfold findById. induction l as [|x l IH]; intros H; [reflexivity|].
  cbn in *. destruct (String.eqb (idOf x) id).
  - rewrite (H x eq_refl). reflexivity.
  - rewrite (IH H). reflexivity.
Qed.

Lemma updateSubscriptions_fixed reqUser f db :
  f (Spec2.subscriptionsOf reqUser db) = Spec2.subscriptionsOf reqUser db ->
  updateSubscriptions reqUser f db = db.
Proof.
  intros H. unfold updateSubscriptions, withUsers.
  rewrite updateById_fixed; [destruct db; reflexivity|].
  intros u Hu. unfold Spec2.subscriptionsOf in H. rewrite Hu in H.
  rewrite H. destruct u; reflexivity.
Qed.




End SubscriptionFacts.

Section SubscriptionRoundTrips.
Import Subscriptions.



Lemma setFirst_twice e f g subs :
  (forall s, User.endpoint (g s) = User.endpoint s) ->
  setFirst e f (setFirst e g subs) = setFirst e (fun s => f (g s)) subs.
Proof.
  intros Hg. induction subs as [|s subs IH]; [reflexivity|]. cbn.
  destruct (hasEndpoint e s) eqn:E; cbn.
  - unfold hasEndpoint at 1. rewrite Hg. fold (hasEndpoint e s).
    rewrite E. reflexivity.
  - rewrite E, IH. reflexivity.
Qed.

Lemma setFirst_ext e f g subs :
  (forall s, f s = g s) -> setFirst e f subs = setFirst e g subs.
Proof.
  intros H. induction subs as [|s subs IH]; [reflexivity|]. cbn.
  rewrite H, IH. reflexivity.
Qed.

Lemma setFirst_enabled e subs :
  (forall s, List.find (hasEndpoint e) subs = Some s -> User.enabled s = true) ->
  setFirst e (setEnabled true) subs = subs.
Proof.
  induction subs as [|s subs IH]; intros H; [reflexivity|]. cbn in *.
  destruct (hasEndpoint e s).
  - specialize (H s eq_refl). destruct s as [ep ks en]. cbn in *. subst en.
    reflexivity.
  - rewrite (IH H). reflexivity.
Qed.

(** X22.  Opting in and out only flip the flag of the requester's first
    subscription with the endpoint: endpoints and keys of all
    subscriptions stay as they are.  The later of the two requests wins,
    and opting out and in again gives back the store exactly when the
    subscription was enabled to begin with (or there was none). *)
Theorem optIn_after_optOut reqUser e db :
  snd (optIn reqUser e (snd (optOut reqUser e db))) = snd (optIn reqUser e db)
  /\ snd (optOut reqUser e (snd (optIn reqUser e db)))
     = snd (optOut reqUser e db)
  /\ ((forall s, List.find (hasEndpoint e) (Spec2.subscriptionsOf reqUser db)
                 = Some s -> User.enabled s = true) ->
      snd (optIn reqUser e (snd (optOut reqUser e db))) = db)
  /\ (forall flag,
         let db' := updateSubscriptions reqUser (setFirst e (setEnabled flag)) db in
         List.map User.endpoint (Spec2.subscriptionsOf reqUser db')
         = List.map User.endpoint (Spec2.subscriptionsOf reqUser db)
         /\ List.map User.keys (Spec2.subscriptionsOf reqUser db')
            = List.map User.keys (Spec2.subscriptionsOf reqUser db)
         /\ length (Spec2.subscriptionsOf reqUser db')
            = length (Spec2.subscriptionsOf reqUser db)).
Proof.
  assert (Hio : forall a b,
             updateSubscriptions reqUser (setFirst e (setEnabled a))
               (updateSubscriptions reqUser (setFirst e (setEnabled b)) db)
             = updateSubscriptions reqUser (setFirst e (setEnabled a)) db).
  { intros a b. rewrite updateSubscriptions_twice.
    apply updateSubscriptions_ext. intros subs.
    rewrite setFirst_twice by reflexivity. apply setFirst_ext. reflexivity. }
  unfold optIn, optOut. cbn [snd].
  split; [apply Hio|]. split; [apply Hio|].
  split.
  { intros Hen. rewrite Hio. apply updateSubscriptions_fixed.
    apply setFirst_enabled, Hen. }
  intros flag.
  set (db' := updateSubscriptions reqUser (setFirst e (setEnabled flag)) db).
  assert (Hsubs : Spec2.subscriptionsOf reqUser db'
                  = setFirst e (setEnabled flag)
                      (Spec2.subscriptionsOf reqUser db)).
  { unfold db'. rewrite subscriptionsOf_update, String.eqb_refl.
    unfold Spec2.subscriptionsOf.
    destruct (findById User._id reqUser (users db)); reflexivity. }
  rewrite Hsubs. clear Hsubs.
  split; [apply setFirst_endpoints; reflexivity|].
  split.
  - induction (Spec2.subscriptionsOf reqUser db) as [|s subs IH];
      [reflexivity|]. cbn. destruct (hasEndpoint e s); cbn;
      [reflexivity|rewrite IH; reflexivity].
  - rewrite <- (length_map User.endpoint), setFirst_endpoints by reflexivity.
    apply length_map.
Qed.

(** Alice opts out of her first endpoint and in again: the store is as
    before. *)
Lemma optIn_after_optOut_witness :
  snd (optIn Sample.alice "https://push.example/a1"
         (snd (optOut Sample.alice "https://push.example/a1" Sample2.aliceDB)))
  = Sample2.aliceDB.
Proof.
  apply (proj1 (proj2 (proj2 (optIn_after_optOut Sample.alice
                                "https://push.example/a1" Sample2.aliceDB)))).
  intros s Hs. vm_compute in Hs. injection Hs as <-. reflexivity.
Defined.

(** X23.  Unsubscribing removes every subscription of the requester with
    the endpoint and keeps the others in their order; other users are not
    touched; the scan no longer uses the endpoint for the requester; a
    second unsubscribe changes nothing, and a later subscribe registers the
    endpoint once, at the end of the list. *)
Theorem unsubscribe_removes reqUser e db :
  let r := unsubscribe reqUser e db in
  fst r = mkResponse 200 true None NoPayload
  /\ Spec2.subscriptionsOf reqUser (snd r)
     = List.filter (fun s => negb (hasEndpoint e s))
                   (Spec2.subscriptionsOf reqUser db)
  /\ (forall s, In s (Spec2.subscriptionsOf reqUser (snd r)) ->
                User.endpoint s <> e)
  /\ (forall s, In s (Notifier.enabledSubscriptions (users (snd r)) reqUser) ->
                User.endpoint s <> e)
  /\ (forall uid, uid <> reqUser ->
                  Spec2.subscriptionsOf uid (snd r)
                  = Spec2.subscriptionsOf uid db)
  /\ snd (unsubscribe reqUser e (snd r)) = snd r
  /\ (forall k u, findById User._id reqUser (users db) = Some u ->
                  Spec2.subscriptionsOf reqUser
                    (snd (subscribe reqUser e k (snd r)))
                  = Spec2.subscriptionsOf reqUser (snd r)
                    ++ [User.mkSub e k true]).
Proof.
  intros r. subst r. unfold unsubscribe. cbn [fst snd].
  set (keep := fun s => negb (hasEndpoint e s)).
  assert (Hsubs : Spec2.subscriptionsOf reqUser
                    (updateSubscriptions reqUser (List.filter keep) db)
                  = List.filter keep (Spec2.subscriptionsOf reqUser db)).
  { rewrite subscriptionsOf_update, String.eqb_refl.
    unfold Spec2.subscriptionsOf.
    destruct (findById User._id reqUser (users db)); reflexivity. }
  assert (Hgone : forall s,
             In s (Spec2.subscriptionsOf reqUser
                     (updateSubscriptions reqUser (List.filter keep) db)) ->
             User.endpoint s <> e).
  { intros s Hs. rewrite Hsubs in Hs. apply filter_In in Hs as [_ Hk].
    unfold keep, hasEndpoint in Hk. apply negb_true_iff, String.eqb_neq in Hk.
    exact Hk. }
  split; [reflexivity|]. split; [exact Hsubs|]. split; [exact Hgone|].
  split.
  { intros s Hs. rewrite enabledSubscriptions_of in Hs.
    apply filter_In in Hs as [Hin _]. apply Hgone, Hin. }
  split.
  { intros uid Hne. rewrite subscriptionsOf_update.
    destruct (String.eqb_spec uid reqUser); [contradiction|reflexivity]. }
  split.
  { rewrite updateSubscriptions_twice. apply updateSubscriptions_ext.
    intros subs. induction subs as [|s subs IH]; [reflexivity|]. cbn.
    destruct (keep s) eqn:E; cbn; [rewrite E, IH|rewrite IH]; reflexivity. }
  intros k u Hu. rewrite subscribe_as_list.
  destruct (update_keeps_user reqUser (List.filter keep) db u Hu) as [u' Hu'].
  rewrite (subscriptionsOf_update_self _ _ _ u' Hu').
  apply subscribeList_absent.
  destruct (existsb (hasEndpoint e) _) eqn:E; [|reflexivity].
  apply existsb_exists in E as (s & Hin & He). apply Hgone in Hin.
  unfold hasEndpoint in He. apply String.eqb_eq in He. contradiction.
Qed.

End SubscriptionRoundTrips.

(* --------------------------------------------------------------------- *)
(** ** The scan with an unusable window; CORS; credentials               *)
(* --------------------------------------------------------------------- *)

Section ScanWindow.
Local Open Scope Z_scope.
Import Notifier.

(** X24.  When EXPIRY_SOON_DAYS does not start with a number, or the
    threshold it gives falls outside the range of dates, the scan ends
    without a single delivery attempt: documents that have already expired
    are not announced either. *)
Theorem scan_with_unusable_window
    (webpush : nat -> Notification -> bool) (toLocaleDateString : Z -> string)
    envDays now nowMs db :
  (soonThreshold envDays nowMs = None
   <-> soonDays envDays = None
       \/ exists d, soonDays envDays = Some d
                    /\ JsDate.maxTime < Z.abs (nowMs + d * JsDate.msPerDay))
  /\ (soonThreshold envDays nowMs = None ->
      notifyExpiredDocuments webpush toLocaleDateString envDays now nowMs db []
      = (Ok tt, []))
  /\ (forall s, envDays = Some s -> s <> ""%string -> parseInt s = None ->
                soonThreshold envDays nowMs = None).
Proof.
  split; [|split].
  - unfold soonThreshold, JsDate.TimeClip.
    destruct (soonDays envDays) as [d|]; [|split; auto].
    replace (d * 24 * 60 * 60 * 1000) with (d * JsDate.msPerDay)
      by (unfold JsDate.msPerDay; lia).
    destruct (Z.leb_spec (Z.abs (nowMs + d * JsDate.msPerDay)) JsDate.maxTime)
      as [Hle|Hlt].
    + split; [discriminate|]. intros [H|(d' & [= <-] & H)]; [discriminate|lia].
    + split; [|reflexivity]. intros _. right. exists d. split; [reflexivity|lia].
  - intros H. unfold notifyExpiredDocuments, tryCatch. rewrite H. reflexivity.
  - intros s -> Hs Hp. unfold soonThreshold, soonDays.
    assert (Hn : nonEmpty s = true)
      by (unfold nonEmpty; apply negb_true_iff, String.eqb_neq, Hs).
    rewrite Hn, Hp. reflexivity.
Qed.

(** EXPIRY_SOON_DAYS=soon: the lapsed licence is not announced.  With a
    no-break space before the 7 the setting is read as 7 days, and the
    scan makes its two delivery attempts for the lapsed licence. *)
Lemma scan_with_unusable_window_witness :
  soonThreshold (Some "soon"%string) Sample.t0 = None
  /\ notifyExpiredDocuments Sample.deadPush Sample.isoDate (Some "soon"%string)
       Sample.t0 Sample.t0 Sample.scanDB []
     = (Ok tt, [])
  /\ soonThreshold (Some (Sample2.nbsp ++ "7")%string) Sample.t0
     = Some (Sample.t0 + 7 * JsDate.msPerDay)
  /\ length (snd (notifyExpiredDocuments Sample.deadPush Sample.isoDate
                    (Some (Sample2.nbsp ++ "7")%string)
                    Sample.t0 Sample.t0 Sample.scanDB []))
     = 2%nat.
Proof.
  destruct (scan_with_unusable_window Sample.deadPush Sample.isoDate
              (Some "soon"%string) Sample.t0 Sample.t0 Sample.scanDB)
    as (_ & Hrun & Hnan).
  assert (H : soonThreshold (Some "soon"%string) Sample.t0 = None).
  { apply (Hnan "soon"%string); [reflexivity|discriminate|reflexivity]. }
  split; [exact H|]. split; [apply Hrun, H|].
  split; vm_compute; reflexivity.
Defined.

End ScanWindow.

Section CorsFacts.
Import Cors.


Lemma existsb_ext_In {A} (f g : A -> bool) l :
  (forall x, In x l -> f x = g x) -> existsb f l = existsb g l.
Proof.
  induction l as [|x l IH]; intros H; [reflexivity|]. cbn.
  rewrite (H x) by now left. rewrite IH; [reflexivity|].
  intros y Hy. apply H. now right.
Qed.






End CorsFacts.

Section BearerHeader.
Import Auth.

Lemma split_word w : Spec2.noSpace w = true -> split w = [w].
Proof.
  induction w as [|c w IH]; [reflexivity|]. cbn [Spec2.noSpace split].
  intros H. apply andb_true_iff in H as [Hc Hw].
  apply negb_true_iff in Hc. rewrite Hc, (IH Hw). reflexivity.
Qed.

Lemma append_cons c a b : (String c a ++ b)%string = String c (a ++ b)%string.
Proof. reflexivity. Qed.

Lemma split_word_space w r :
  Spec2.noSpace w = true -> split (w ++ String " " r) = w :: split r.
Proof.
  induction w as [|c w IH]; [reflexivity|].
  rewrite append_cons. cbn [Spec2.noSpace split]. intros H.
  apply andb_true_iff in H as [Hc Hw].
  apply negb_true_iff in Hc. rewrite Hc, (IH Hw). reflexivity.
Qed.

Lemma split_head s : exists x xs, split s = x :: xs.
Proof.
  induction s as [|c s (x & xs & IH)]; [now exists EmptyString, []|].
  cbn [split]. rewrite IH. destruct (Ascii.eqb c " "); eauto.
Qed.

Lemma noSpace_app a b :
  Spec2.noSpace (a ++ b) = Spec2.noSpace a && Spec2.noSpace b.
Proof.
  induction a as [|c a IH]; [reflexivity|]. rewrite append_cons. cbn [Spec2.noSpace].
  rewrite IH. apply andb_assoc.
Qed.

Lemma prefix_app p s : String.prefix p (p ++ s) = true.
Proof.
  induction p as [|c p IH]; [now destruct s|]. rewrite append_cons. cbn [String.prefix].
  destruct (ascii_dec c c) as [_|Hn]; [exact IH|contradiction].
Qed.

(** X26.  Without a cookie, the guard reads the credential off any
    Authorization header that starts with Bearer: it is the word between
    the first and the second space, whatever stands between Bearer and the
    first space and whatever follows the second.  Such a request is
    answered exactly as a request carrying that word in the cookie; with
    two spaces after Bearer the word is empty and the request is refused. *)
Theorem bearer_header_parsing
    (jwtVerify : string -> option ObjectId) (req : Request) (db : DB)
    (p tok : string) :
  truthy (cookieToken req) = false ->
  Spec2.noSpace p = true -> Spec2.noSpace tok = true ->
  (authorization req = Some ("Bearer" ++ p ++ String " " tok)%string
   \/ exists rest,
        authorization req
        = Some ("Bearer" ++ p ++ String " " (tok ++ String " " rest))%string) ->
  token req = Some tok
  /\ protect jwtVerify req db
     = protect jwtVerify (mkRequest (Some tok) None) db
  /\ (tok = ""%string -> protect jwtVerify req db = Respond notAuthorized).
Proof.
  intros Hc Hp Htok Hh.
  assert (Ht : token req = Some tok).
  { unfold token. rewrite Hc.
    assert (Hb : Spec2.noSpace ("Bearer" ++ p) = true)
      by (rewrite noSpace_app, Hp; reflexivity).
    assert (Hne : forall x, nonEmpty ("Bearer" ++ x)%string = true)
      by reflexivity.
    destruct Hh as [Hh|[rest Hh]];
      rewrite Hh, Hne, (prefix_app "Bearer"); cbn [andb].
    - replace ("Bearer" ++ p ++ String " " tok)%string
        with (("Bearer" ++ p) ++ String " " tok)%string by reflexivity.
      rewrite split_word_space, (split_word tok) by assumption.
      reflexivity.
    - replace ("Bearer" ++ p ++ String " " (tok ++ String " " rest))%string
        with (("Bearer" ++ p) ++ String " " (tok ++ String " " rest))%string
        by reflexivity.
      rewrite !split_word_space by assumption. reflexivity. }
  assert (Hprot : protect jwtVerify req db
                  = protect jwtVerify (mkRequest (Some tok) None) db).
  { unfold protect. rewrite Ht. unfold token. cbn [cookieToken authorization].
    destruct (truthy (Some tok)) eqn:E; rewrite ?E; reflexivity. }
  split; [exact Ht|]. split; [exact Hprot|].
  intros ->. rewrite Hprot. reflexivity.
Qed.

(** The header "Bearer alice.jwt" lets Alice in, as her cookie would. *)
Lemma bearer_header_parsing_witness :
  token Sample.bearerRequest = Some "alice.jwt"%string
  /\ protect Sample.jwtVerify Sample.bearerRequest Sample.lessonDB
     = protect Sample.jwtVerify (mkRequest (Some "alice.jwt"%string) None)
               Sample.lessonDB.
Proof.
  destruct (bearer_header_parsing Sample.jwtVerify Sample.bearerRequest
              Sample.lessonDB ""%string "alice.jwt"%string)
    as (Ht & Hp & _); [reflexivity|reflexivity|reflexivity| |].
  - left. reflexivity.
  - split; [exact Ht|exact Hp].
Defined.

End BearerHeader.

Section PasswordRule.
Import AuthController.
Local Open Scope N_scope.

Lemma dotStar_length s : (length (dotStar s) <= length s)%nat.
Proof.
  induction s as [|c s IH]; [reflexivity|]. cbn [dotStar].
  destruct (isLineTerminator c); cbn [length]; lia.
Qed.

Lemma dotStar_all s :
  length (dotStar s) = length s
  <-> Forall (fun c => isLineTerminator c = false) s.
Proof.
  induction s as [|c s IH]; [split; [constructor|reflexivity]|].
  cbn [dotStar]. destruct (isLineTerminator c) eqn:E; cbn [length].
  - split; [discriminate|]. intros H. inversion H; congruence.
  - split.
    + intros [= H]. constructor; [exact E|]. apply IH, H.
    + intros H. inversion H; subst. f_equal. now apply IH.
Qed.

Lemma dotStar_id s : length (dotStar s) = length s -> dotStar s = s.
Proof.
  induction s as [|c s IH]; [reflexivity|]. cbn [dotStar].
  destruct (isLineTerminator c); cbn [length]; [discriminate|].
  intros [= H]. now rewrite IH.
Qed.

Lemma lookahead_all class s :
  length (dotStar s) = length s ->
  (lookahead class s = true <-> exists c, In c s /\ class c = true).
Proof.
  intros H. unfold lookahead. rewrite H, firstn_all2 by lia.
  destruct (List.find class s) as [c|] eqn:E.
  - apply find_some in E. split; [eauto|reflexivity].
  - split; [discriminate|]. intros (c & Hin & Hc).
    rewrite (find_none _ _ E c Hin) in Hc. discriminate.
Qed.

Lemma passwordRegex_test_strong s :
  passwordRegex_test s = true <-> Spec2.strongPassword s.
Proof.
  unfold passwordRegex_test, Spec2.strongPassword.
  rewrite !andb_true_iff, Nat.leb_le, Nat.eqb_eq. split.
  - intros ((((Hl & Hu) & Hd) & H8) & Hall).
    split; [lia|]. split; [apply dotStar_all, Hall|].
    split; [|split]; apply lookahead_all; assumption.
  - intros (H8 & Hall & Hl & Hu & Hd). apply dotStar_all in Hall.
    repeat split; try (apply lookahead_all; assumption); lia.
Qed.

(** X27.  The password pattern of the sign-up route accepts a text exactly
    when it has at least eight code units, no line terminator (line feed,
    carriage return, U+2028, U+2029), and a lower-case ASCII letter, an
    upper-case ASCII letter and an ASCII digit somewhere in it. *)
Theorem password_rule s :
  passwordRegex_test s = true <-> Spec2.strongPassword s.
Proof. exact (passwordRegex_test_strong s). Qed.

Lemma undefinedText_weak : passwordRegex_test undefinedText = false.
Proof. reflexivity. Qed.

Lemma find_email_free e db :
  List.find (fun u => String.eqb (User.email u) e) (users db) = None
  <-> Spec2.emailFree e db.
Proof.
  unfold Spec2.emailFree. split.
  - intros H u Hin He. apply (find_none _ _ H) in Hin.
    apply String.eqb_neq in Hin. contradiction.
  - intros H. destruct (List.find _ _) as [u|] eqn:E; [|reflexivity].
    apply find_some in E as [Hin He]. apply String.eqb_eq in He.
    destruct (H u Hin He).
Qed.

(** X28.  Sign-up reaches the creation of the account exactly when no
    account has the email and the request carries a password that meets
    the password rule; the fields handed to the creation are those of the
    request.  An email already in use is refused with status 400 whatever
    the password, and a request without a password is always refused. *)
Theorem signup_gate castEmail body db :
  (forall created,
     signup castEmail body db = CreateUser created
     <-> created = body
         /\ Spec2.emailFree (castEmail (email body)) db
         /\ exists p, password body = Some p /\ Spec2.strongPassword p)
  /\ (~ Spec2.emailFree (castEmail (email body)) db ->
      signup castEmail body db
      = Refuse (fail 400 "User already exists with this email"))
  /\ (password body = None ->
      exists r, signup castEmail body db = Refuse r
                /\ code r = 400%Z).
Proof.
  unfold signup.
  destruct (List.find _ (users db)) as [u|] eqn:E.
  - assert (Hn : ~ Spec2.emailFree (castEmail (email body)) db).
    { intros Hf. apply find_email_free in Hf. congruence. }
    split; [|split].
    + intros created. split; [discriminate|]. intros (_ & Hf & _).
      contradiction.
    + reflexivity.
    + intros _. eexists. split; reflexivity.
  - apply find_email_free in E. split; [|split].
    + intros created. destruct (password body) as [p|].
      * destruct (passwordRegex_test p) eqn:Ht; cbn [negb].
        -- split.
           ++ intros [= <-]. split; [reflexivity|]. split; [exact E|].
              exists p. split; [reflexivity|]. apply passwordRegex_test_strong, Ht.
           ++ intros (-> & _). reflexivity.
        -- split; [discriminate|]. intros (_ & _ & p' & [= <-] & Hs).
           apply passwordRegex_test_strong in Hs. congruence.
      * rewrite undefinedText_weak. cbn [negb]. split; [discriminate|].
        intros (_ & _ & p & Hp & _). discriminate.
    + intros Hn. contradiction.
    + intros ->. rewrite undefinedText_weak. eexists. split; reflexivity.
Qed.

Lemma toHex_length bytes : length (toHex bytes) = (2 * length bytes)%nat.
Proof.
  induction bytes as [|b bytes IH]; [reflexivity|].
  unfold toHex in *. cbn [flat_map app length]. rewrite IH. lia.
Qed.

Lemma hexDigit_plain d : d < 16 -> isLineTerminator (hexDigit d) = false.
Proof.
  intros H. unfold hexDigit, isLineTerminator.
  destruct (N.ltb_spec d 10);
    repeat (apply orb_false_iff; split); apply N.eqb_neq; lia.
Qed.

Lemma toHex_plain bytes :
  Forall (fun c => isLineTerminator c = false) (toHex bytes).
Proof.
  induction bytes as [|b bytes IH]; [constructor|].
  cbn [toHex flat_map app].
  constructor; [|constructor; [|exact IH]]; apply hexDigit_plain.
  - apply N.Div0.div_lt_upper_bound. change (16 * 16) with 256.
    apply N.mod_lt. discriminate.
  - apply N.mod_lt. discriminate.
Qed.

(** X29.  The password that the Google and Facebook sign-ins make up for a
    new account, the hexadecimal text of the random bytes followed by Aa1,
    meets the password rule of the sign-up route whenever at least three
    bytes are drawn (the code draws sixteen), and then has twice as many
    code units as bytes, plus three. *)
Theorem randomPass_meets_rule bytes :
  (3 <= length bytes)%nat ->
  passwordRegex_test (randomPass bytes) = true
  /\ length (randomPass bytes) = (2 * length bytes + 3)%nat.
Proof.
  intros H.
  assert (Hlen : length (randomPass bytes) = (2 * length bytes + 3)%nat).
  { unfold randomPass. rewrite length_app, toHex_length. reflexivity. }
  split; [|exact Hlen].
  apply passwordRegex_test_strong. unfold Spec2.strongPassword.
  split; [lia|]. split.
  { unfold randomPass. apply Forall_app. split; [apply toHex_plain|].
    repeat constructor. }
  unfold randomPass.
  split; [exists 97|split; [exists 65|exists 49]];
    (split; [apply in_or_app; right; cbn; tauto|reflexivity]).
Qed.

(** Sixteen bytes give a password of thirty-five code units that passes. *)
Lemma randomPass_meets_rule_witness :
  passwordRegex_test
    (randomPass [0; 17; 34; 51; 68; 85; 102; 119;
                 136; 153; 170; 187; 204; 221; 238; 255]) = true
  /\ length (randomPass [0; 17; 34; 51; 68; 85; 102; 119;
                         136; 153; 170; 187; 204; 221; 238; 255]) = 35%nat.
Proof.
  apply (randomPass_meets_rule
           [0; 17; 34; 51; 68; 85; 102; 119;
            136; 153; 170; 187; 204; 221; 238; 255]).
  cbn. lia.
Defined.

End PasswordRule.
